(** * The dynamic request dispatcher of HelpCodeItMockApi

    A shallow embedding of [controllers/dynamicController.js]: the type
    validator [validateDataType], the dispatcher [handleRequest] and its four
    handlers, over a model of the three tables the controller reads and
    writes ([api_endpoints], [fields], [data_storage]).

    Modelling conventions.
    - A JavaScript string is held as the bytes of its UTF-8 text.
    - A JavaScript number is an IEEE 754 binary64 value, in the inductive
      form of the standard library ([spec_float] with precision 53 and
      exponent bound 1024).
    - A field value of a request body is what [JSON.parse] delivers:
      [null], a boolean, a number, a string, an array or an object.  Reading
      a key gives the own value of the key and, where there is none, what
      [Object.prototype] has under that name: a built-in function, the
      prototype itself, or [undefined].
    - A JavaScript object used as a dictionary (the request body, the
      payload of a document) is a finite map from its own keys to values;
      reading and writing a key go through [get] and [put], which follow
      the prototype.
    - A call that throws returns nothing: the coercions of an object can
      throw a TypeError, and so can the validator and the two loops that
      call it.
    - A table is the list of its rows; [pool.execute] runs a statement on
      the tables or throws, as a list of the failures to come says.
    - What the source leaves to the engine or to the database is a
      variable of the development: [Date.parse], and the comparisons of
      MySQL between a column and the text bound to a placeholder. *)

From Stdlib Require Import ZArith NArith Bool List Ascii String Lia.
From Stdlib Require Import Floats.SpecFloat.
From stdpp Require Import base option list gmap strings.

Local Open Scope string_scope.
Local Open Scope list_scope.
Local Open Scope Z_scope.

(* ===================================================================== *)
(** * Strings *)
(* ===================================================================== *)

Module Str.

Definition code (c : ascii) : N := N_of_ascii c.

Definition between (lo hi : N) (c : ascii) : bool :=
  ((lo <=? code c) && (code c <=? hi))%N.

Definition is_byte (n : N) (c : ascii) : bool := (code c =? n)%N.

(** The upper case of a byte: the letters a to z go to A to Z. *)
Definition upper_char (c : ascii) : ascii :=
  if between 97 122 c then ascii_of_N (code c - 32) else c.

(** The characters of two bytes whose upper case is made of ASCII letters:
    U+0131, dotless i (C4 B1), U+017F, long s (C5 BF), and U+00DF, sharp s
    (C3 9F). *)
Definition upper2 (c1 c2 : ascii) : option string :=
  if is_byte 196 c1 && is_byte 177 c2 then Some "I"
  else if is_byte 197 c1 && is_byte 191 c2 then Some "S"
  else if is_byte 195 c1 && is_byte 159 c2 then Some "SS"
  else None.

(** The characters of three bytes whose upper case is made of ASCII
    letters: the ligatures U+FB00 to U+FB06 (EF AC 80 to EF AC 86). *)
Definition upper3 (c1 c2 c3 : ascii) : option string :=
  if is_byte 239 c1 && is_byte 172 c2 then
    if is_byte 128 c3 then Some "FF"
    else if is_byte 129 c3 then Some "FI"
    else if is_byte 130 c3 then Some "FL"
    else if is_byte 131 c3 then Some "FFI"
    else if is_byte 132 c3 then Some "FFL"
    else if is_byte 133 c3 then Some "ST"
    else if is_byte 134 c3 then Some "ST"
    else None
  else None.

(** [String.prototype.toUpperCase], by the case mappings of Unicode
    (UnicodeData and the unconditional part of SpecialCasing).  The letters
    a to z go to A to Z; the characters of [upper2] and [upper3] are the
    ones outside ASCII whose upper case is made of ASCII letters alone.
    Every other character is kept as it is: its upper case, like itself,
    has a character outside ASCII, and the controller only compares the
    upper case of a name with names written in ASCII. *)
Fixpoint toUpperCase (s : string) : string :=
  match s with
  | EmptyString => EmptyString
  | String c1 r1 =>
      match r1 with
      | EmptyString => String (upper_char c1) EmptyString
      | String c2 r2 =>
          match upper2 c1 c2 with
          | Some u => u ++ toUpperCase r2
          | None =>
              match r2 with
              | EmptyString => String (upper_char c1) (toUpperCase r1)
              | String c3 r3 =>
                  match upper3 c1 c2 c3 with
                  | Some u => u ++ toUpperCase r3
                  | None => String (upper_char c1) (toUpperCase r1)
                  end
              end
          end
      end
  end.

(** White space and line terminators of ECMAScript that take one byte:
    TAB, LF, VT, FF, CR and SP. *)
Definition ws1 (c : ascii) : bool := between 9 13 c || is_byte 32 c.

(** U+00A0, as the bytes C2 A0. *)
Definition ws2 (c1 c2 : ascii) : bool := is_byte 194 c1 && is_byte 160 c2.

(** U+1680, U+2000 to U+200A, U+2028, U+2029, U+202F, U+205F, U+3000 and
    U+FEFF, each of three bytes. *)
Definition ws3 (c1 c2 c3 : ascii) : bool :=
  (is_byte 225 c1 && is_byte 154 c2 && is_byte 128 c3)
  || (is_byte 226 c1 && is_byte 128 c2
      && (between 128 138 c3 || between 168 169 c3 || is_byte 175 c3))
  || (is_byte 226 c1 && is_byte 129 c2 && is_byte 159 c3)
  || (is_byte 227 c1 && is_byte 128 c2 && is_byte 128 c3)
  || (is_byte 239 c1 && is_byte 187 c2 && is_byte 191 c3).

Fixpoint trimStart (s : string) : string :=
  match s with
  | EmptyString => s
  | String c1 r1 =>
      if ws1 c1 then trimStart r1
      else match r1 with
           | EmptyString => s
           | String c2 r2 =>
               if ws2 c1 c2 then trimStart r2
               else match r2 with
                    | EmptyString => s
                    | String c3 r3 => if ws3 c1 c2 c3 then trimStart r3 else s
                    end
           end
  end.

Definition is_empty (s : string) : bool :=
  match s with EmptyString => true | _ => false end.

Fixpoint trimEnd (s : string) : string :=
  match s with
  | EmptyString => s
  | String c r => if is_empty (trimStart s) then EmptyString else String c (trimEnd r)
  end.

Definition trim (s : string) : string := trimEnd (trimStart s).

(** [strip p s] is what follows [p] in [s] when [s] starts with [p]. *)
Fixpoint strip (p s : string) : option string :=
  match p, s with
  | EmptyString, _ => Some s
  | String a p', String b s' => if Ascii.eqb a b then strip p' s' else None
  | String _ _, EmptyString => None
  end.

End Str.

(* ===================================================================== *)
(** * Numbers *)
(* ===================================================================== *)

Abbreviation number := spec_float.

Module Num.

Definition prec : Z := 53.
Definition emax : Z := 1024.

Definition NaN : number := S754_nan.
Definition Infinity (negative : bool) : number := S754_infinity negative.

(** The binary64 value nearest to [n / d] (ties to even), with the sign
    [negative]: the division of IEEE 754 applied to the two integers. *)
Definition round_ratio (negative : bool) (n d : positive) : number :=
  SFdiv prec emax (S754_finite negative n 0) (S754_finite false d 0).

(** The Number value of the mathematical value [m * 10 ^ e]. *)
Definition of_decimal (negative : bool) (m : N) (e : Z) : number :=
  match m with
  | N0 => S754_zero negative
  | Npos p =>
      if 0 <=? e then round_ratio negative (p * Z.to_pos (10 ^ e)) 1
      else round_ratio negative p (Z.to_pos (10 ^ (- e)))
  end.

Definition of_Z (z : Z) : number :=
  of_decimal (z <? 0) (Z.abs_N z) 0.

(** The global [isNaN] on a number. *)
Definition isNaN (n : number) : bool :=
  match n with S754_nan => true | _ => false end.

(** [Number.isInteger]: the number is finite and its mathematical value
    [m * 2 ^ e] is an integer. *)
Definition isInteger (n : number) : bool :=
  match n with
  | S754_zero _ => true
  | S754_finite _ m e => if 0 <=? e then true else Z.pos m mod 2 ^ (- e) =? 0
  | S754_infinity _ | S754_nan => false
  end.

(** [represents n z]: the number [n] is finite and its mathematical value
    is exactly the integer [z]. *)
Definition represents (n : number) (z : Z) : Prop :=
  match n with
  | S754_zero _ => z = 0
  | S754_finite s m e =>
      cond_Zopp s (Z.pos m) * 2 ^ Z.max e 0 = z * 2 ^ Z.max (- e) 0
  | S754_infinity _ | S754_nan => False
  end.

(** ** Numeric literals in strings *)

Definition digit_val (radix : N) (c : ascii) : option N :=
  let v :=
    if Str.between 48 57 c then Some (Str.code c - 48)%N
    else if Str.between 97 122 c then Some (Str.code c - 87)%N
    else if Str.between 65 90 c then Some (Str.code c - 55)%N
    else None in
  match v with
  | Some d => if (d <? radix)%N then Some d else None
  | None => None
  end.

(** The longest run of digits at the start of [s]: the number it writes
    after the digits already read ([acc]), how many digits there are, and
    the rest of the string. *)
Fixpoint Digits (radix : N) (s : string) (acc : N) (len : Z) : N * Z * string :=
  match s with
  | EmptyString => (acc, len, s)
  | String c r =>
      match digit_val radix c with
      | Some d => Digits radix r (radix * acc + d)%N (len + 1)
      | None => (acc, len, s)
      end
  end.

Definition is_char (a c : ascii) : bool := Ascii.eqb a c.

(** ExponentPart, when there is one: [e] or [E], an optional sign and at
    least one digit; otherwise nothing is read. *)
Definition ExponentPart (s : string) : Z * string :=
  match s with
  | String c r =>
      if is_char "e" c || is_char "E" c then
        let '(negative, r1) :=
          match r with
          | String c' r' =>
              if is_char "+" c' then (false, r')
              else if is_char "-" c' then (true, r')
              else (false, r)
          | EmptyString => (false, r)
          end in
        let '(v, len, rest) := Digits 10 r1 0 0 in
        if len =? 0 then (0, s)
        else (if negative then - Z.of_N v else Z.of_N v, rest)
      else (0, s)
  | EmptyString => (0, s)
  end.

(** What a StrUnsignedDecimalLiteral denotes: either [Infinity], or
    [mantissa * 10 ^ exponent]. *)
Inductive literal :=
| LInfinity
| LDecimal (mantissa : N) (exponent : Z).

(** The longest StrUnsignedDecimalLiteral at the start of [s]:
    [Infinity], digits with an optional fraction and exponent, or a dot
    followed by digits and an optional exponent. *)
Definition StrUnsignedDecimalLiteral (s : string) : option (literal * string) :=
  match Str.strip "Infinity" s with
  | Some rest => Some (LInfinity, rest)
  | None =>
      let '(ip, il, r1) := Digits 10 s 0 0 in
      match r1 with
      | String c r2 =>
          if is_char "." c then
            let '(m, fl, r3) := Digits 10 r2 ip 0 in
            if (il =? 0) && (fl =? 0) then None
            else let '(ex, rest) := ExponentPart r3 in
                 Some (LDecimal m (ex - fl), rest)
          else if il =? 0 then None
          else let '(ex, rest) := ExponentPart r1 in Some (LDecimal ip ex, rest)
      | EmptyString =>
          if il =? 0 then None else Some (LDecimal ip 0, r1)
      end
  end.

(** StrDecimalLiteral: an optional sign before the unsigned literal. *)
Definition StrDecimalLiteral (s : string) : option (bool * literal * string) :=
  let '(negative, r) :=
    match s with
    | String c r' =>
        if is_char "+" c then (false, r')
        else if is_char "-" c then (true, r')
        else (false, s)
    | EmptyString => (false, s)
    end in
  match StrUnsignedDecimalLiteral r with
  | Some (l, rest) => Some (negative, l, rest)
  | None => None
  end.

Definition of_literal (negative : bool) (l : literal) : number :=
  match l with
  | LInfinity => Infinity negative
  | LDecimal m e => of_decimal negative m e
  end.

(** NonDecimalIntegerLiteral: [0x], [0o] or [0b] (in either case) before
    at least one digit of that radix, and nothing after. *)
Definition NonDecimalIntegerLiteral (s : string) : option N :=
  match s with
  | String z (String x r) =>
      if is_char "0" z then
        let radix :=
          if is_char "x" x || is_char "X" x then Some 16%N
          else if is_char "o" x || is_char "O" x then Some 8%N
          else if is_char "b" x || is_char "B" x then Some 2%N
          else None in
        match radix with
        | Some b =>
            let '(v, len, rest) := Digits b r 0 0 in
            if (0 <? len) && Str.is_empty rest then Some v else None
        | None => None
        end
      else None
  | _ => None
  end.

(** StringToNumber: the whole string, white space at both ends apart, must
    be a numeric literal; the empty string is 0. *)
Definition StringToNumber (s : string) : number :=
  let t := Str.trim s in
  if Str.is_empty t then S754_zero false
  else match NonDecimalIntegerLiteral t with
       | Some v => of_decimal false v 0
       | None =>
           match StrDecimalLiteral t with
           | Some (negative, l, rest) =>
               if Str.is_empty rest then of_literal negative l else NaN
           | None => NaN
           end
       end.

(** The strings that are numeric literals (StringNumericLiteral): the
    ones [StringToNumber] reads as a number. *)
Definition numeric_string (s : string) : bool :=
  let t := Str.trim s in
  Str.is_empty t
  || match NonDecimalIntegerLiteral t with Some _ => true | None => false end
  || match StrDecimalLiteral t with
     | Some (_, _, rest) => Str.is_empty rest
     | None => false
     end.

(** [parseFloat] on a string: the longest decimal literal after leading
    white space; what follows it is not looked at. *)
Definition parseFloat_string (s : string) : number :=
  match StrDecimalLiteral (Str.trimStart s) with
  | Some (negative, l, _) => of_literal negative l
  | None => NaN
  end.

End Num.

(* ===================================================================== *)
(** * Values and objects *)
(* ===================================================================== *)

(** A value of JavaScript, as the controller meets it: a primitive; an
    array or an object that [JSON.parse] built ([bodyParser.json] reads the
    body with it), an object being held as the list of its own properties;
    a built-in function of [Object.prototype], by the name it is found
    under; and [Object.prototype] itself. *)
#[warnings="-register-all"]
Inductive Value :=
| VUndefined
| VNull
| VBoolean (b : bool)
| VNumber (n : number)
| VString (s : string)
| VArray (elements : list Value)
| VObject (properties : list (string * Value))
| VFunction (name : string)
| VObjectPrototype.

Abbreviation Object := (gmap string Value).

Definition typeof (v : Value) : string :=
  match v with
  | VUndefined => "undefined"
  | VNull => "object"
  | VBoolean _ => "boolean"
  | VNumber _ => "number"
  | VString _ => "string"
  | VArray _ => "object"
  | VObject _ => "object"
  | VFunction _ => "function"
  | VObjectPrototype => "object"
  end.

(** [a === b]: the same type and the same value; numbers are compared as
    IEEE 754 compares them (NaN differs from itself, the two zeros are
    equal).  An object equals only itself; the controller compares a value
    with primitives only, which no object equals. *)
Definition strict_equals (a b : Value) : bool :=
  match a, b with
  | VUndefined, VUndefined => true
  | VNull, VNull => true
  | VBoolean x, VBoolean y => Bool.eqb x y
  | VNumber x, VNumber y => SFeqb x y
  | VString x, VString y => String.eqb x y
  | _, _ => false
  end.

Infix "===" := strict_equals (at level 70, no associativity).
Notation "a !== b" := (negb (strict_equals a b)) (at level 70, no associativity).

(** ** Coercions

    [Number(value)], [parseFloat(value)] and [Date.parse(value)] turn an
    object into a primitive first ([ToPrimitive]): they call its [valueOf]
    and its [toString], whichever is callable, and throw a TypeError when
    neither gives a primitive.  An object that [JSON.parse] built has no
    callable property of its own, and inherits [valueOf], which returns the
    object, and [toString], which returns a string: so the coercion throws
    exactly when the object has an own property named [toString], which
    hides the inherited function.  An array inherits the [toString] of
    arrays, which is [join(",")]: the texts of the elements, with the empty
    text for [null] and [undefined], and commas between them; it throws
    when the text of an element does. *)
Fixpoint throws (v : Value) : bool :=
  match v with
  | VArray elements =>
      (fix any (l : list Value) : bool :=
         match l with
         | [] => false
         | element :: rest => throws element || any rest
         end) elements
  | VObject properties => existsb (fun p => String.eqb p.1 "toString") properties
  | _ => false
  end.

(** The text of a number is the shortest decimal text that reads back as
    that number (NaN and the infinities by their names, a zero without its
    sign): reading it gives the number again, but for the sign of zero. *)
Definition read_back (n : number) : number :=
  match n with S754_zero _ => S754_zero false | _ => n end.

(** [Number(value)], where it does not throw.  The text of an object is
    "[object Object]" and the text of a function starts with "function":
    neither is a numeric literal.  The text of an array of two elements or
    more has a comma, which no numeric literal has; the text of an array of
    one element is the text of the element, and the text of the empty array
    is empty, which reads as 0. *)
Fixpoint Number (value : Value) : number :=
  match value with
  | VUndefined => Num.NaN
  | VNull => S754_zero false
  | VBoolean b => if b then Num.of_Z 1 else S754_zero false
  | VNumber n => n
  | VString s => Num.StringToNumber s
  | VArray [] => S754_zero false
  | VArray [element] =>
      match element with
      | VUndefined | VNull => S754_zero false
      | VBoolean _ => Num.NaN
      | VNumber n => read_back n
      | VString s => Num.StringToNumber s
      | VArray _ => Number element
      | VObject _ | VFunction _ | VObjectPrototype => Num.NaN
      end
  | VArray (_ :: _ :: _) => Num.NaN
  | VObject _ | VFunction _ | VObjectPrototype => Num.NaN
  end.

(** [parseFloat(value)], where it does not throw: it reads the longest
    decimal literal at the start of the text of [value].  In the text of an
    array that is the start of the text of the first element, as no literal
    goes past a comma; the text of [null] and [undefined] in an array is
    empty. *)
Fixpoint parseFloat (value : Value) : number :=
  match value with
  | VUndefined => Num.parseFloat_string "undefined"
  | VNull => Num.parseFloat_string "null"
  | VBoolean b => Num.parseFloat_string (if b then "true" else "false")
  | VNumber n => read_back n
  | VString s => Num.parseFloat_string s
  | VArray [] => Num.NaN
  | VArray (element :: _) =>
      match element with
      | VUndefined | VNull => Num.NaN
      | _ => parseFloat element
      end
  | VObject _ | VFunction _ | VObjectPrototype => Num.NaN
  end.

Definition isNaN (n : number) : bool := Num.isNaN n.

(** ** Properties

    The properties of [Object.prototype] (ECMAScript, with its annex B):
    every object that [JSON.parse] or an object literal built inherits
    them. *)
Definition Object_prototype_functions : list string :=
  [ "constructor"; "hasOwnProperty"; "isPrototypeOf"; "propertyIsEnumerable";
    "toLocaleString"; "toString"; "valueOf";
    "__defineGetter__"; "__defineSetter__"; "__lookupGetter__"; "__lookupSetter__" ].

(** What an object without an own property [key] gives for [key]: the
    function of that name, for [__proto__] the prototype, which the getter
    of that name returns, and [undefined] otherwise. *)
Definition inherited (key : string) : Value :=
  if existsb (String.eqb key) Object_prototype_functions then VFunction key
  else if String.eqb key "__proto__" then VObjectPrototype
  else VUndefined.

(** [obj[key]]: the own value of the key, or else what the object
    inherits. *)
Definition get (obj : Object) (key : string) : Value :=
  default (inherited key) (obj !! key).

(** [obj[key] = value], on an object that inherits from
    [Object.prototype]: the key becomes an own key with that value.  Under
    [__proto__], unless it is an own key already (as in an object that
    [JSON.parse] read from a text with that key), the assignment runs the
    setter of [Object.prototype], which sets or leaves the prototype and
    creates no own key.  The loops of the controller assign under the name
    of a field, once for each field: the names of the fields of an endpoint
    being distinct (the table has a unique key on them, [addFields] answers
    409 on ER_DUP_ENTRY), no assignment under [__proto__] follows one that
    has changed the prototype. *)
Definition put (obj : Object) (key : string) (value : Value) : Object :=
  if String.eqb key "__proto__" && negb (bool_decide (is_Some (obj !! key))) then obj
  else <[key := value]> obj.

(** The assignment [obj[key] = value] makes [key] an own key of [obj]. *)
Definition takes (obj : Object) (key : string) : bool :=
  negb (String.eqb key "__proto__") || bool_decide (is_Some (obj !! key)).

(** [{ ...target, ...source }]: the own keys of [source] are copied over
    those of [target]. *)
Definition spread (target source : Object) : Object := source ∪ target.

(** ** JSON text

    The [data] column holds the text [JSON.stringify] writes; the text is
    held here as the object [JSON.parse] reads from it.  [JSON.stringify]
    writes the own keys of an object: it leaves out a key whose value is
    [undefined] or a function, and writes such an element of an array as
    [null]; it writes a number that is not finite as [null], and a zero
    without its sign; [Object.prototype] has no key it would write. *)
Abbreviation JSON_text := (gmap string Value).

Fixpoint JSON_value (v : Value) : option Value :=
  match v with
  | VUndefined => None
  | VFunction _ => None
  | VNumber (S754_zero _) => Some (VNumber (S754_zero false))
  | VNumber (S754_infinity _) | VNumber S754_nan => Some VNull
  | VArray elements =>
      Some (VArray (map (fun element => default VNull (JSON_value element)) elements))
  | VObject properties =>
      Some (VObject
              ((fix each (l : list (string * Value)) : list (string * Value) :=
                  match l with
                  | [] => []
                  | (key, element) :: rest =>
                      match JSON_value element with
                      | Some written => (key, written) :: each rest
                      | None => each rest
                      end
                  end) properties))
  | VObjectPrototype => Some (VObject [])
  | _ => Some v
  end.

Definition JSON_stringify (obj : Object) : JSON_text := omap JSON_value obj.

Definition JSON_parse (text : JSON_text) : Object := text.

(* ===================================================================== *)
(** * The tables and the connection pool *)
(* ===================================================================== *)

Module api_endpoints.
Record row := { endpoint_id : Z; user_id : Z; endpoint_name : string; http_method : string }.
End api_endpoints.

Module fields.
Record row :=
  { field_id : Z; endpoint_id : Z; field_name : string; data_type : string;
    is_required : bool; default_value : Value }.
End fields.

Module data_storage.
Record row := { data_id : Z; endpoint_id : Z; data : JSON_text }.

(** The row after [SET data = ?]. *)
Definition with_data (r : row) (text : JSON_text) : row :=
  {| data_id := data_id r; endpoint_id := endpoint_id r; data := text |}.
End data_storage.

(** The database behind [pool]: the three tables, the next identity
    [data_storage] gives to an inserted row, and for the calls of
    [pool.execute] still to come whether each one fails (a call beyond the
    end of the list succeeds). *)
Record World := {
  tbl_api_endpoints : list api_endpoints.row;
  tbl_fields : list fields.row;
  tbl_data_storage : list data_storage.row;
  auto_increment : Z;
  failures : list bool
}.

(** A computation that reads and writes the database and either returns
    a value or throws. *)
Definition M (A : Type) : Type := World -> option A * World.

#[global] Instance M_ret : MRet M := fun A a w => (Some a, w).

#[global] Instance M_bind : MBind M := fun A B k m w =>
  match m w with
  | (Some a, w') => k a w'
  | (None, w') => (None, w')
  end.

(** [throw]: the computation ends without a value. *)
Definition throw {A} : M A := fun w => (None, w).

(** [try { body } catch (err) { handler }]. *)
Definition try_catch {A} (body handler : M A) : M A := fun w =>
  match body w with
  | (Some a, w') => (Some a, w')
  | (None, w') => handler w'
  end.

Definition with_failures (w : World) (fs : list bool) : World :=
  {| tbl_api_endpoints := tbl_api_endpoints w; tbl_fields := tbl_fields w;
     tbl_data_storage := tbl_data_storage w; auto_increment := auto_increment w;
     failures := fs |}.

Definition with_data_storage (w : World) (rows : list data_storage.row) (next : Z) : World :=
  {| tbl_api_endpoints := tbl_api_endpoints w; tbl_fields := tbl_fields w;
     tbl_data_storage := rows; auto_increment := next;
     failures := failures w |}.

(** [await pool.execute(...)]: the statement runs, or the call throws and
    the tables are as they were. *)
Definition execute {A} (statement : World -> A * World) : M A := fun w =>
  match failures w with
  | true :: fs => (None, with_failures w fs)
  | false :: fs => let '(a, w') := statement (with_failures w fs) in (Some a, w')
  | [] => let '(a, w') := statement w in (Some a, w')
  end.

Definition query {A} (read : World -> A) : M A := execute (fun w => (read w, w)).

(** The world once the next call of [pool.execute] has been answered. *)
Definition tick (w : World) : World :=
  match failures w with
  | [] => w
  | _ :: fs => with_failures w fs
  end.

(** The next call of [pool.execute] fails. *)
Definition next_fails (w : World) : bool :=
  match failures w with
  | true :: _ => true
  | _ => false
  end.

(** None of the next [n] calls of [pool.execute] fails. *)
Definition calls_succeed (n : nat) (w : World) : bool :=
  forallb negb (take n (failures w)).

(* ===================================================================== *)
(** * Requests and responses *)
(* ===================================================================== *)

(** What the controller reads of [req]: [req.user.user_id], set by the
    authentication middleware, [req.params.endpoint_name], [req.method],
    [req.body], the object that [bodyParser.json] read (the empty object
    when the request has no body), and [req.query.id]. *)
Record Request := {
  user_id : Z;
  endpoint_name : string;
  method : string;
  body : Object;
  query_id : option string
}.

Inductive Json :=
| Message (message : string)
| Records (records : list JSON_text).

Record Response := { status : Z; json : Json }.

(** [res.status(code).json({ message })]. *)
Definition res_status_json (code : Z) (message : string) : Response :=
  {| status := code; json := Message message |}.

(** [res.json(value)]: status 200. *)
Definition res_json (value : Json) : Response := {| status := 200; json := value |}.

(** [!identifier] on a query parameter: it is absent or the empty string. *)
Definition falsy (identifier : option string) : bool :=
  match identifier with
  | None => true
  | Some s => Str.is_empty s
  end.

(** The text bound to a placeholder for a query parameter that is there. *)
Definition bound (identifier : option string) : string := default "" identifier.

(** The outcome of the checks of a loop for one field. *)
Inductive Check :=
| Passes
| Rejects (message : string)
| Throws.

(* ===================================================================== *)
(** * The controller *)
(* ===================================================================== *)

Section Controller.

(** [Date.parse], whose reading of a text other than the ISO format is
    left to the engine. *)
Variable Date_parse : Value -> number.

(** The comparison [endpoint_name = ?] of MySQL, under the collation of
    the column. *)
Variable sql_name_equals : string -> string -> bool.

(** The comparison [data_id = ?] of MySQL between the integer column and
    the text of [req.query.id] bound to the placeholder. *)
Variable sql_id_equals : Z -> string -> bool.

(** What [validateDataType(value, data_type)] returns, when it returns. *)
Definition validateDataType (value : Value) (data_type : string) : bool :=
  let t := Str.toUpperCase data_type in
  if String.eqb t "INT" then Num.isInteger (Number value)
  else if String.eqb t "FLOAT" then negb (isNaN (parseFloat value))
  else if String.eqb t "VARCHAR" || String.eqb t "TEXT" then
    String.eqb (typeof value) "string"
  else if String.eqb t "BOOLEAN" then
    (value === VString "true") || (value === VString "false")
    || String.eqb (typeof value) "boolean"
  else if String.eqb t "DATE" || String.eqb t "DATETIME" then
    negb (isNaN (Date_parse value))
  else false.

(** [validateDataType(value, data_type)] throws a TypeError instead: the
    case of the type is one that coerces the value ([Number], [parseFloat],
    [Date.parse]), and the coercion of the value throws. *)
Definition validateDataType_throws (value : Value) (data_type : string) : bool :=
  let t := Str.toUpperCase data_type in
  (String.eqb t "INT" || String.eqb t "FLOAT"
   || String.eqb t "DATE" || String.eqb t "DATETIME")
  && throws value.

(** ** Statements *)

(** [SELECT * FROM api_endpoints WHERE endpoint_name = ? AND user_id = ?] *)
Definition select_endpoints (endpoint_name : string) (user_id : Z) : M (list api_endpoints.row) :=
  query (fun w =>
    filter (fun e => sql_name_equals (api_endpoints.endpoint_name e) endpoint_name
                     && (api_endpoints.user_id e =? user_id))
           (tbl_api_endpoints w)).

(** The rows [select_endpoints] finds for a request. *)
Definition found (req : Request) (w : World) : list api_endpoints.row :=
  filter (fun e => sql_name_equals (api_endpoints.endpoint_name e) (endpoint_name req)
                   && (api_endpoints.user_id e =? user_id req))
         (tbl_api_endpoints w).

(** The request names an endpoint of the requesting tenant. *)
Definition resolves (req : Request) (w : World) : Prop :=
  exists e, e ∈ tbl_api_endpoints w
            /\ sql_name_equals (api_endpoints.endpoint_name e) (endpoint_name req) = true
            /\ api_endpoints.user_id e = user_id req.

(** [SELECT * FROM fields WHERE endpoint_id = ?] *)
Definition select_fields (endpoint_id : Z) : M (list fields.row) :=
  query (fun w => filter (fun f => fields.endpoint_id f =? endpoint_id) (tbl_fields w)).

(** [INSERT INTO data_storage (endpoint_id, data) VALUES (?, ?)] *)
Definition insert_data (endpoint_id : Z) (data : JSON_text) : M unit :=
  execute (fun w =>
    (tt, with_data_storage w
           (tbl_data_storage w ++
              [ {| data_storage.data_id := auto_increment w;
                   data_storage.endpoint_id := endpoint_id;
                   data_storage.data := data |} ])
           (auto_increment w + 1))).

(** [SELECT data_id, data FROM data_storage WHERE endpoint_id = ?] *)
Definition select_data (endpoint_id : Z) : M (list data_storage.row) :=
  query (fun w =>
    filter (fun r => data_storage.endpoint_id r =? endpoint_id) (tbl_data_storage w)).

Definition matches (identifier : string) (endpoint_id : Z) (r : data_storage.row) : bool :=
  sql_id_equals (data_storage.data_id r) identifier
  && (data_storage.endpoint_id r =? endpoint_id).

(** [SELECT data FROM data_storage WHERE data_id = ? AND endpoint_id = ?] *)
Definition select_data_by_id (identifier : string) (endpoint_id : Z) : M (list data_storage.row) :=
  query (fun w => filter (matches identifier endpoint_id) (tbl_data_storage w)).

(** [UPDATE data_storage SET data = ? WHERE data_id = ? AND endpoint_id = ?] *)
Definition update_data (data : JSON_text) (identifier : string) (endpoint_id : Z) : M unit :=
  execute (fun w =>
    (tt, with_data_storage w
           (map (fun r =>
                   if matches identifier endpoint_id r
                   then data_storage.with_data r data else r)
                (tbl_data_storage w))
           (auto_increment w))).

(** [DELETE FROM data_storage WHERE data_id = ? AND endpoint_id = ?],
    giving [result.affectedRows]. *)
Definition delete_data (identifier : string) (endpoint_id : Z) : M Z :=
  execute (fun w =>
    (Z.of_nat (length (filter (matches identifier endpoint_id) (tbl_data_storage w))),
     with_data_storage w
       (filter (fun r => negb (matches identifier endpoint_id r)) (tbl_data_storage w))
       (auto_increment w))).

(** ** Messages *)

Definition required_message (field_name : string) : string :=
  "Field '" +:+ field_name +:+ "' is required.".

Definition invalid_type_message (field_name data_type : string) : string :=
  "Invalid data type for field '" +:+ field_name +:+ "'. Expected " +:+ data_type +:+ ".".

Definition server_error : Response := res_status_json 500 "Server error.".

(** ** handleCreate *)

(** [value === undefined || value === null || value === ''] *)
Definition missing (value : Value) : bool :=
  (value === VUndefined) || (value === VNull) || (value === VString "").

(** [value !== undefined && value !== null && value !== ''] *)
Definition present (value : Value) : bool :=
  (value !== VUndefined) && (value !== VNull) && (value !== VString "").

(** The loop over [fields] of [handleCreate], from [jsonData] as built so
    far: nothing when a call of the validator throws, or else the response
    of the first [return] reached, or [jsonData] when the loop ends. *)
Fixpoint create_loop (data : Object) (fields : list fields.row) (jsonData : Object)
  : option (Response + Object) :=
  match fields with
  | [] => Some (inr jsonData)
  | field :: rest =>
      let field_name := fields.field_name field in
      let data_type := fields.data_type field in
      let is_required := fields.is_required field in
      let default_value := fields.default_value field in
      let value := get data field_name in
      if is_required && missing value then
        Some (inl (res_status_json 400 (required_message field_name)))
      else if present value then
        if validateDataType_throws value data_type then None
        else if negb (validateDataType value data_type) then
          Some (inl (res_status_json 400 (invalid_type_message field_name data_type)))
        else create_loop data rest (put jsonData field_name value)
      else if default_value !== VNull then
        create_loop data rest (put jsonData field_name default_value)
      else create_loop data rest jsonData
  end.

(** The loop stands before the [try]: what the validator throws,
    [handleCreate] throws. *)
Definition handleCreate (req : Request) (endpoint_id : Z) (fields : list fields.row) : M Response :=
  let data := body req in
  let jsonData : Object := ∅ in
  match create_loop data fields jsonData with
  | None => throw
  | Some (inl res) => mret res
  | Some (inr jsonData) =>
      try_catch
        (_ ← insert_data endpoint_id (JSON_stringify jsonData);
         mret (res_status_json 201 "Data created successfully."))
        (mret server_error)
  end.

(** ** handleRead *)

Definition handleRead (req : Request) (endpoint_id : Z) (fields : list fields.row) : M Response :=
  try_catch
    (rows ← select_data endpoint_id;
     let data :=
       map (fun row =>
              let parsedData := JSON_parse (data_storage.data row) in
              spread {[ "data_id" := VNumber (Num.of_Z (data_storage.data_id row)) ]} parsedData)
           rows in
     mret (res_json (Records (map JSON_stringify data))))
    (mret server_error).

(** ** handleUpdate *)

(** The loop over [fields] of [handleUpdate]: nothing when a call of the
    validator throws. *)
Fixpoint update_loop (data : Object) (fields : list fields.row) (existingData : Object)
  : option (Response + Object) :=
  match fields with
  | [] => Some (inr existingData)
  | field :: rest =>
      let field_name := fields.field_name field in
      let data_type := fields.data_type field in
      if get data field_name !== VUndefined then
        let value := get data field_name in
        if validateDataType_throws value data_type then None
        else if negb (validateDataType value data_type) then
          Some (inl (res_status_json 400 (invalid_type_message field_name data_type)))
        else update_loop data rest (put existingData field_name value)
      else update_loop data rest existingData
  end.

Definition handleUpdate (req : Request) (endpoint_id : Z) (fields : list fields.row) : M Response :=
  let data := body req in
  let identifier := query_id req in
  if falsy identifier then
    mret (res_status_json 400 "Data ID is required for update.")
  else
    existingRows ← select_data_by_id (bound identifier) endpoint_id;
    match existingRows with
    | [] => mret (res_status_json 404 "Data not found.")
    | row0 :: _ =>
        let existingData := JSON_parse (data_storage.data row0) in
        match update_loop data fields existingData with
        | None => throw
        | Some (inl res) => mret res
        | Some (inr existingData) =>
            try_catch
              (_ ← update_data (JSON_stringify existingData) (bound identifier) endpoint_id;
               mret (res_json (Message "Data updated successfully.")))
              (mret server_error)
        end
    end.

(** ** handleDelete *)

Definition handleDelete (req : Request) (endpoint_id : Z) (fields : list fields.row) : M Response :=
  let identifier := query_id req in
  if falsy identifier then
    mret (res_status_json 400 "Data ID is required for deletion.")
  else
    try_catch
      (affectedRows ← delete_data (bound identifier) endpoint_id;
       if affectedRows =? 0 then mret (res_status_json 404 "Data not found.")
       else mret (res_json (Message "Data deleted successfully.")))
      (mret server_error).

(** ** handleRequest *)

(** The [switch] on [http_method]. *)
Definition switch_method (http_method : string) (req : Request)
           (endpoint : api_endpoints.row) (fields : list fields.row) : M Response :=
  if String.eqb http_method "GET" then
    handleRead req (api_endpoints.endpoint_id endpoint) fields
  else if String.eqb http_method "POST" then
    handleCreate req (api_endpoints.endpoint_id endpoint) fields
  else if String.eqb http_method "PUT" then
    handleUpdate req (api_endpoints.endpoint_id endpoint) fields
  else if String.eqb http_method "DELETE" then
    handleDelete req (api_endpoints.endpoint_id endpoint) fields
  else mret (res_status_json 405 "Method Not Allowed").

Definition handleRequest (req : Request) : M Response :=
  let user_id := user_id req in
  let endpoint_name := endpoint_name req in
  let http_method := Str.toUpperCase (method req) in
  try_catch
    (endpoints ← select_endpoints endpoint_name user_id;
     match endpoints with
     | [] => mret (res_status_json 404 "API endpoint not found.")
     | endpoint :: _ =>
         fields ← select_fields (api_endpoints.endpoint_id endpoint);
         switch_method http_method req endpoint fields
     end)
    (mret server_error).

(** ** The checks of one field, read off the two loops *)

(** What the checks of the loop of [handleCreate] come to for [field]: the
    field passes, or it is rejected with the message of the [return] it
    reaches, or the validator throws on its value. *)
Definition field_check (data : Object) (field : fields.row) : Check :=
  let value := get data (fields.field_name field) in
  if fields.is_required field && missing value then
    Rejects (required_message (fields.field_name field))
  else if present value then
    if validateDataType_throws value (fields.data_type field) then Throws
    else if negb (validateDataType value (fields.data_type field)) then
      Rejects (invalid_type_message (fields.field_name field) (fields.data_type field))
    else Passes
  else Passes.

(** What the check of the loop of [handleUpdate] comes to for [field]. *)
Definition update_check (data : Object) (field : fields.row) : Check :=
  let value := get data (fields.field_name field) in
  if value !== VUndefined then
    if validateDataType_throws value (fields.data_type field) then Throws
    else if negb (validateDataType value (fields.data_type field)) then
      Rejects (invalid_type_message (fields.field_name field) (fields.data_type field))
    else Passes
  else Passes.

(** What one turn of the loop of [handleCreate] does to [jsonData] when
    the field passes. *)
Definition create_step (data : Object) (field : fields.row) (jsonData : Object) : Object :=
  let value := get data (fields.field_name field) in
  if present value then put jsonData (fields.field_name field) value
  else if fields.default_value field !== VNull then
    put jsonData (fields.field_name field) (fields.default_value field)
  else jsonData.

(** What one turn of the loop of [handleUpdate] does to [existingData]
    when the field passes. *)
Definition update_step (data : Object) (field : fields.row) (existingData : Object) : Object :=
  let value := get data (fields.field_name field) in
  if value !== VUndefined then put existingData (fields.field_name field) value
  else existingData.

(** The key [k] is the name of a declared field for which the body has a
    value other than [undefined]. *)
Definition supplied (data : Object) (fields : list fields.row) (k : string) : bool :=
  existsb (fun f => String.eqb (fields.field_name f) k) fields
  && (get data k !== VUndefined).

End Controller.


(** The payload is one that [JSON.stringify] writes. *)
Definition JSON_written (text : JSON_text) : Prop :=
  forall k v, text !! k = Some v -> JSON_value v = Some v.

(** Every stored payload is one that [JSON.stringify] writes: so it is
    of the rows that the controller has inserted or updated. *)
Definition payloads_written (w : World) : Prop :=
  Forall (fun r => JSON_written (data_storage.data r)) (tbl_data_storage w).

(** The verbs the dispatcher has a handler for. *)
Definition supported_methods : list string := ["GET"; "POST"; "PUT"; "DELETE"].

(** An engine and a database to run the controller on: no text is read as
    a date, and an identifier matches a row when it reads as the number of
    the row. *)
Definition no_date (value : Value) : number := Num.NaN.

Definition numeric_id_equals (data_id : Z) (identifier : string) : bool :=
  SFeqb (Num.StringToNumber identifier) (Num.of_Z data_id).


(* ===================================================================== *)
(** * A database to run the controller on *)
(* ===================================================================== *)

Module Demo.

Definition endpoint (id user : Z) (name : string) : api_endpoints.row :=
  {| api_endpoints.endpoint_id := id; api_endpoints.user_id := user;
     api_endpoints.endpoint_name := name; api_endpoints.http_method := "GET" |}.

Definition field (id endpoint : Z) (name type : string) (required : bool) (default : Value)
  : fields.row :=
  {| fields.field_id := id; fields.endpoint_id := endpoint; fields.field_name := name;
     fields.data_type := type; fields.is_required := required;
     fields.default_value := default |}.

Definition request (user : Z) (name method : string) (body : Object) (id : option string)
  : Request :=
  {| user_id := user; endpoint_name := name; method := method; body := body;
     query_id := id |}.

Definition num (z : Z) : Value := VNumber (Num.of_Z z).

(** Tenant 10 has the endpoints [people] and [notes], tenant 20 has
    [tasks]; [tasks] holds one document, [{a: 1, b: 2}]. *)
Definition people_fields : list fields.row :=
  [ field 1 1 "age" "INT" true VNull;
    field 2 1 "status" "VARCHAR" true (VString "active");
    field 3 1 "active" "BOOLEAN" false VNull ].

Definition notes_fields : list fields.row :=
  [ field 4 2 "data_id" "VARCHAR" false VNull ].

Definition tasks_fields : list fields.row :=
  [ field 5 3 "a" "INT" true VNull; field 6 3 "b" "INT" false (VString "0") ].

Definition world : World :=
  {| tbl_api_endpoints := [ endpoint 1 10 "people"; endpoint 2 10 "notes"; endpoint 3 20 "tasks" ];
     tbl_fields := people_fields ++ notes_fields ++ tasks_fields;
     tbl_data_storage :=
       [ {| data_storage.data_id := 1; data_storage.endpoint_id := 3;
            data_storage.data := <[ "a" := num 1 ]> {[ "b" := num 2 ]} |} ];
     auto_increment := 2;
     failures := [] |}.



Definition post_person : Request :=
  request 10 "people" "POST"
    (<[ "age" := VString "30" ]>
       (<[ "status" := VString "new" ]> {[ "active" := VString "true" ]}))
    None.

(** [PUT /api/tasks?id=1] with the body [{b: 3}], by tenant 20. *)
Definition put_b : Request := request 20 "tasks" "PUT" {[ "b" := num 3 ]} (Some "1").


Definition updated (payload : JSON_text) : World :=
  {| tbl_api_endpoints := tbl_api_endpoints world;
     tbl_fields := tbl_fields world;
     tbl_data_storage :=
       [ {| data_storage.data_id := 1; data_storage.endpoint_id := 3;
            data_storage.data := payload |} ];
     auto_increment := 2;
     failures := [] |}.

Definition done : Response := res_json (Message "Data updated successfully.").

(** [POST /api/notes] with the body [{data_id: "x"}], then [GET
    /api/notes], by tenant 10. *)
Definition post_note : Request :=
  request 10 "notes" "POST" {[ "data_id" := VString "x" ]} None.

Definition get_notes : Request := request 10 "notes" "GET" ∅ None.

Definition not_found : Response := res_status_json 404 "API endpoint not found.".

Definition not_allowed : Response := res_status_json 405 "Method Not Allowed".

End Demo.

(* ===================================================================== *)
(** * Further notions, for the properties of the handlers *)
(* ===================================================================== *)

(** [validDataTypes] of [addFields] and [updateField]
    (controllers/endpointController.js): the type names the administrative
    routes let into the [data_type] column. *)
Definition validDataTypes : list string :=
  ["INT"; "VARCHAR"; "TEXT"; "DATE"; "DATETIME"; "BOOLEAN"; "FLOAT"].

(** The statuses the controller writes. *)
Definition statuses : list Z := [200; 201; 400; 404; 405; 500].

(** The computation leaves every world related by [P] to the world it
    started from, whether it returns or throws. *)
Definition keeps {A} (P : World -> World -> Prop) (m : M A) : Prop :=
  forall w r w', m w = (r, w') -> P w w'.

(** The rows of [data_storage] that belong to an endpoint. *)
Definition of_endpoint (endpoint_id : Z) (rows : list data_storage.row) : list data_storage.row :=
  filter (fun r => data_storage.endpoint_id r =? endpoint_id) rows.

(** The record [handleRead] returns for a row. *)
Definition record (row : data_storage.row) : JSON_text :=
  JSON_stringify
    (spread {[ "data_id" := VNumber (Num.of_Z (data_storage.data_id row)) ]}
            (JSON_parse (data_storage.data row))).

(** The key is the name of a field of the schema. *)
Definition declared (fields : list fields.row) (k : string) : Prop :=
  exists f, f ∈ fields /\ fields.field_name f = k.

(** The worlds a list of requests leads through, one request after the
    other; the responses are dropped. *)
Definition run_requests (Date_parse : Value -> number)
           (sql_name_equals : string -> string -> bool)
           (sql_id_equals : Z -> string -> bool)
           (reqs : list Request) (w : World) : World :=
  fold_left (fun w req => (handleRequest Date_parse sql_name_equals sql_id_equals req w).2)
            reqs w.

(** The row of [api_endpoints] with another [http_method]. *)
Definition with_http_method (e : api_endpoints.row) (http_method : string) : api_endpoints.row :=
  {| api_endpoints.endpoint_id := api_endpoints.endpoint_id e;
     api_endpoints.user_id := api_endpoints.user_id e;
     api_endpoints.endpoint_name := api_endpoints.endpoint_name e;
     api_endpoints.http_method := http_method |}.

Definition with_api_endpoints (w : World) (rows : list api_endpoints.row) : World :=
  {| tbl_api_endpoints := rows; tbl_fields := tbl_fields w;
     tbl_data_storage := tbl_data_storage w; auto_increment := auto_increment w;
     failures := failures w |}.

(** The world in which every endpoint has the [http_method] that
    [http_method_of] gives it, and is otherwise as it was. *)
Definition relabelled (http_method_of : api_endpoints.row -> string) (w : World) : World :=
  with_api_endpoints w
    (map (fun e => with_http_method e (http_method_of e)) (tbl_api_endpoints w)).

(** The computation does not look at the table [api_endpoints], and
    leaves it as it is. *)
Definition frames {A} (m : M A) : Prop :=
  forall w rows, m (with_api_endpoints w rows) = ((m w).1, with_api_endpoints (m w).2 rows).

(** The identities of the stored documents are distinct, and below the
    identity the next inserted row gets. *)
Definition identities_fresh (w : World) : Prop :=
  NoDup (map data_storage.data_id (tbl_data_storage w))
  /\ Forall (fun r => data_storage.data_id r < auto_increment w) (tbl_data_storage w).

(** An engine that reads every text as the epoch. *)
Definition epoch_date (value : Value) : number := S754_zero false.

(** The request with its verb in upper case. *)
Definition with_upper_method (req : Request) : Request :=
  {| user_id := user_id req; endpoint_name := endpoint_name req;
     method := Str.toUpperCase (method req); body := body req;
     query_id := query_id req |}.

(** A byte outside ASCII. *)
Definition high (c : ascii) : bool := (128 <=? Str.code c)%N.

(** The upper case of a character of [upper2] or [upper3] is made of the
    letters A to Z. *)
Definition capitals (u : string) : Prop :=
  (exists c u', u = String c u' /\ high c = false)
  /\ forall x, Str.toUpperCase (u ++ x)%string = (u ++ Str.toUpperCase x)%string.

Module Trial.

(** A schema with an INT field whose default is no integer, and an
    optional field without default. *)
Definition stock_fields : list fields.row :=
  [ Demo.field 7 4 "count" "INT" false (VString "n/a");
    Demo.field 8 4 "label" "VARCHAR" false VNull;
    Demo.field 9 4 "shape" "POLYGON" false VNull ].

Definition post_empty : Request := Demo.request 10 "stock" "POST" ∅ None.

Definition post_extra : Request :=
  Demo.request 10 "stock" "POST"
    (<[ "label" := VString "box" ]> {[ "colour" := VString "red" ]}) None.

Definition post_shape : Request :=
  Demo.request 10 "stock" "POST" {[ "shape" := VString "square" ]} None.

Definition get_tasks : Request := Demo.request 20 "tasks" "GET" ∅ None.

Definition delete_task : Request := Demo.request 20 "tasks" "DELETE" ∅ (Some "1").

Definition delete_nothing : Request := Demo.request 20 "tasks" "DELETE" ∅ (Some "").

Definition put_nothing : Request :=
  Demo.request 20 "tasks" "PUT" {[ "c" := Demo.num 7 ]} (Some "1").

Definition put_blank : Request :=
  Demo.request 20 "tasks" "PUT" {[ "a" := VString "" ]} (Some "1").

(** [PUT /api/notes?id=1] by tenant 10: the identity 1 is the one of a
    document of [tasks], an endpoint of tenant 20. *)
Definition put_foreign : Request :=
  Demo.request 10 "notes" "PUT" {[ "data_id" := VString "x" ]} (Some "1").

(** [DELETE /api/notes?id=2] by tenant 10. *)
Definition delete_note : Request := Demo.request 10 "notes" "DELETE" ∅ (Some "2").





(** [POST /api/people] with an object whose own [toString] is no function
    as the age. *)
Definition post_object_age : Request :=
  Demo.request 10 "people" "POST"
    {[ "age" := VObject [("toString", Demo.num 5)] ]} None.

(** [Demo.world] with a pool whose first call fails. *)
Definition failing_world : World := with_failures Demo.world [true].

End Trial.

(* ===================================================================== *)
(** * Numbers: integers and rounding *)
(* ===================================================================== *)

Lemma isInteger_represents (n : number) :
  Num.isInteger n = true <-> exists z : Z, Num.represents n z.
Proof.
  destruct n as [s | s | | s m e]; simpl.
  - split; [intros _; now exists 0 | reflexivity].
  - split; [discriminate | intros [? []]].
  - split; [discriminate | intros [? []]].
  - destruct (Z.leb_spec 0 e) as [He | He].
    + split; [intros _ | reflexivity].
      exists (cond_Zopp s (Z.pos m) * 2 ^ e).
      rewrite Z.max_l, Z.max_r by lia. now rewrite Z.pow_0_r, Z.mul_1_r.
    + rewrite Z.max_r, Z.max_l by lia. rewrite Z.pow_0_r, Z.mul_1_r.
      assert (Hk : 0 < 2 ^ (- e)) by (apply Z.pow_pos_nonneg; lia).
      rewrite Z.eqb_eq. split.
      * intros Hm. apply Z.mod_divide in Hm; [| lia].
        destruct Hm as [q Hq]. exists (cond_Zopp s q).
        destruct s; simpl; rewrite Hq; ring.
      * intros [z Hz]. apply Z.mod_divide; [lia |].
        destruct s; simpl in Hz.
        -- exists (- z). lia.
        -- exists z. lia.
Qed.

Lemma iter_pos_invariant {A} (P : A -> Prop) (f : A -> A) :
  (forall x, P x -> P (f x)) -> forall p x, P x -> P (SpecFloat.iter_pos f p x).
Proof.
  intros Hf. induction p as [p IH | p IH |]; intros x Hx; simpl; auto.
Qed.

Lemma shr_1_nonneg (mrs : shr_record) : 0 <= shr_m mrs -> 0 <= shr_m (shr_1 mrs).
Proof.
  destruct mrs as [m r s]. simpl. destruct m as [| [p | p |] | p]; simpl; lia.
Qed.

Lemma shr_fexp_nonneg (m e : Z) (l : location) :
  0 <= m -> 0 <= shr_m (fst (shr_fexp Num.prec Num.emax m e l)).
Proof.
  intros Hm. unfold shr_fexp, shr.
  assert (H0 : 0 <= shr_m (shr_record_of_loc m l)) by (destruct l as [| []]; exact Hm).
  destruct (_ - e) as [| p | p]; simpl; auto.
  apply (iter_pos_invariant (fun x => 0 <= shr_m x)); auto using shr_1_nonneg.
Qed.

Lemma round_nearest_even_nonneg (m : Z) (l : location) :
  0 <= m -> 0 <= round_nearest_even m l.
Proof.
  intros Hm. destruct l as [| []]; simpl; try lia. destruct (Z.even m); lia.
Qed.

Lemma binary_round_aux_not_nan (s : bool) (m e : Z) (l : location) :
  0 <= m -> binary_round_aux Num.prec Num.emax s m e l <> S754_nan.
Proof.
  intros Hm. unfold binary_round_aux.
  pose proof (shr_fexp_nonneg m e l Hm) as H1.
  destruct (shr_fexp Num.prec Num.emax m e l) as [mrs' e']. simpl in H1.
  pose proof (shr_fexp_nonneg _ e' loc_Exact
                (round_nearest_even_nonneg _ (loc_of_shr_record mrs') H1)) as H2.
  destruct (shr_fexp Num.prec Num.emax _ e' loc_Exact) as [mrs'' e'']. simpl in H2.
  destruct (shr_m mrs'') as [| p | p]; [discriminate | | lia].
  destruct (e'' <=? _); discriminate.
Qed.

Lemma round_ratio_not_nan (negative : bool) (n d : positive) :
  Num.round_ratio negative n d <> S754_nan.
Proof.
  unfold Num.round_ratio, SFdiv, SFdiv_core_binary.
  set (m' := match _ - _ - _ with Z0 => Z.pos n | Z.pos _ => _ | Z.neg _ => 0 end).
  assert (Hm' : 0 <= m').
  { subst m'. destruct (_ - _ - _); try lia. apply Z.shiftl_nonneg. lia. }
  pose proof (Z.div_pos m' (Z.pos d) Hm' ltac:(lia)) as Hq.
  unfold Z.div in Hq. destruct (Z.div_eucl m' (Z.pos d)) as [q r]. simpl in Hq.
  now apply binary_round_aux_not_nan.
Qed.

Lemma of_literal_not_nan (negative : bool) (l : Num.literal) :
  Num.of_literal negative l <> S754_nan.
Proof.
  destruct l as [| m e]; simpl; [discriminate |].
  unfold Num.of_decimal. destruct m; [discriminate |].
  destruct (0 <=? e); apply round_ratio_not_nan.
Qed.

(* ===================================================================== *)
(** * The type validator *)
(* ===================================================================== *)

Section ValidatorFacts.

Variable Date_parse : Value -> number.

Lemma validateDataType_INT (data_type : string) (value : Value) :
  Str.toUpperCase data_type = "INT" ->
  validateDataType Date_parse value data_type = Num.isInteger (Number value).
Proof. intros Ht. unfold validateDataType. now rewrite Ht. Qed.

Lemma validateDataType_FLOAT (data_type : string) (value : Value) :
  Str.toUpperCase data_type = "FLOAT" ->
  validateDataType Date_parse value data_type = negb (isNaN (parseFloat value)).
Proof. intros Ht. unfold validateDataType. now rewrite Ht. Qed.

Lemma validateDataType_BOOLEAN (data_type : string) (value : Value) :
  Str.toUpperCase data_type = "BOOLEAN" ->
  validateDataType Date_parse value data_type
  = (value === VString "true") || (value === VString "false")
    || String.eqb (typeof value) "boolean".
Proof. intros Ht. unfold validateDataType. now rewrite Ht. Qed.

Lemma not_numeric_is_NaN (s : string) :
  Num.numeric_string s = false -> Num.StringToNumber s = Num.NaN.
Proof.
  unfold Num.numeric_string, Num.StringToNumber. intros H.
  destruct (Str.is_empty (Str.trim s)); [discriminate |].
  destruct (Num.NonDecimalIntegerLiteral (Str.trim s)); [discriminate |].
  destruct (Num.StrDecimalLiteral (Str.trim s)) as [[[negative l] rest] |]; [| reflexivity].
  simpl in H. now rewrite H.
Qed.

(** What a leading digit rules out: it is no white space, no sign and
    not the first letter of [Infinity]. *)
Lemma digit_first (c : ascii) :
  Str.between 48 57 c = true ->
  Str.ws1 c = false
  /\ (forall c2, Str.ws2 c c2 = false)
  /\ (forall c2 c3, Str.ws3 c c2 c3 = false)
  /\ Num.is_char "+" c = false /\ Num.is_char "-" c = false
  /\ Num.is_char "I" c = false
  /\ exists d, Num.digit_val 10 c = Some d.
Proof.
  destruct c as [[] [] [] [] [] [] [] []]; try discriminate; intros _;
    (repeat split; [eexists; reflexivity]).
Qed.

Lemma Digits_len (radix : N) (s : string) :
  forall acc len, len <= snd (fst (Num.Digits radix s acc len)).
Proof.
  induction s as [| c r IH]; intros acc len; simpl; [lia |].
  destruct (Num.digit_val radix c); simpl; [| lia].
  specialize (IH (radix * acc + n)%N (len + 1)). lia.
Qed.

Lemma leading_digit_is_literal (c : ascii) (rest : string) :
  Str.between 48 57 c = true ->
  is_Some (Num.StrDecimalLiteral (Str.trimStart (String c rest))).
Proof.
  intros Hc. destruct (digit_first c Hc) as (W1 & W2 & W3 & Hp & Hm & Hi & d & Hd).
  assert (Ht : Str.trimStart (String c rest) = String c rest).
  { simpl. rewrite W1. destruct rest as [| c2 r2]; [reflexivity |].
    rewrite W2. destruct r2 as [| c3 r3]; [reflexivity |]. now rewrite W3. }
  rewrite Ht. unfold Num.StrDecimalLiteral. rewrite Hp, Hm.
  unfold Num.StrUnsignedDecimalLiteral.
  assert (Hs : Str.strip "Infinity" (String c rest) = None).
  { change (Str.strip "Infinity" (String c rest))
      with (if Ascii.eqb "I" c then Str.strip "nfinity" rest else None).
    unfold Num.is_char in Hi. now rewrite Hi. }
  rewrite Hs. simpl Num.Digits. rewrite Hd.
  pose proof (Digits_len 10 rest (10 * 0 + d)%N (0 + 1)) as Hl.
  destruct (Num.Digits 10 rest (10 * 0 + d)%N (0 + 1)) as [[ip il] r1]. simpl in Hl.
  assert (Hil : (il =? 0) = false) by (apply Z.eqb_neq; lia).
  rewrite Hil. destruct r1 as [| c1 r2]; [eauto |].
  destruct (Num.is_char "." c1).
  - destruct (Num.Digits 10 r2 ip 0) as [[m fl] r3]. simpl.
    destruct (Num.ExponentPart r3); eauto.
  - destruct (Num.ExponentPart (String c1 r2)); eauto.
Qed.

Lemma parseFloat_string_NaN (s : string) :
  Num.isNaN (Num.parseFloat_string s) = false
  <-> is_Some (Num.StrDecimalLiteral (Str.trimStart s)).
Proof.
  unfold Num.parseFloat_string.
  destruct (Num.StrDecimalLiteral (Str.trimStart s)) as [[[negative l] rest] |].
  - split; [eauto |]. intros _.
    pose proof (of_literal_not_nan negative l) as H.
    destruct (Num.of_literal negative l); try reflexivity. now destruct H.
  - split; [discriminate |]. intros [x Hx]. discriminate.
Qed.

End ValidatorFacts.

(* ===================================================================== *)
(** * The connection pool *)
(* ===================================================================== *)

Lemma calls_succeed_tick (n : nat) (w : World) :
  calls_succeed (S n) w = true ->
  calls_succeed 1 w = true /\ calls_succeed n (tick w) = true.
Proof.
  unfold calls_succeed, tick. destruct (failures w) as [| b fs] eqn:E; simpl.
  - intros _. rewrite E. now destruct n.
  - destruct b; simpl; [discriminate |]. intros H. split; [reflexivity | exact H].
Qed.


(* ===================================================================== *)
(** * JSON text *)
(* ===================================================================== *)

(** Induction on a value, through the elements of an array and the
    properties of an object. *)
Lemma Value_nested_ind (P : Value -> Prop) :
  P VUndefined -> P VNull -> (forall b, P (VBoolean b)) -> (forall n, P (VNumber n)) ->
  (forall s, P (VString s)) ->
  (forall elements, Forall P elements -> P (VArray elements)) ->
  (forall properties, Forall (fun p => P p.2) properties -> P (VObject properties)) ->
  (forall name, P (VFunction name)) -> P VObjectPrototype ->
  forall v, P v.
Proof.
  intros HU HN HB HNum HS HA HO HF HP. fix IH 1. intros v.
  destruct v as [| | b | n | s | elements | properties | name |];
    [exact HU | exact HN | apply HB | apply HNum | apply HS | | | apply HF | exact HP].
  - apply HA. induction elements as [| e l IHl]; constructor; [apply IH | exact IHl].
  - apply HO. induction properties as [| [k e] l IHl]; constructor; [apply IH | exact IHl].
Qed.

Lemma JSON_value_idempotent (v u : Value) : JSON_value v = Some u -> JSON_value u = Some u.
Proof.
  revert u. induction v as [| | b | n | s | elements IH | properties IH | name |]
    using Value_nested_ind; intros u; simpl; try (intros [= <-]; reflexivity).
  - destruct n; intros [= <-]; reflexivity.
  - intros [= <-]. simpl. do 2 f_equal.
    induction IH as [| e l He _ IHl]; [reflexivity |]. simpl. rewrite IHl. f_equal.
    destruct (JSON_value e) as [w |] eqn:E; simpl; [| reflexivity].
    now rewrite (He _ eq_refl).
  - intros [= <-]. simpl. do 2 f_equal.
    induction IH as [| [k e] l He _ IHl]; [reflexivity |]. simpl in *.
    destruct (JSON_value e) as [w |] eqn:E; [| exact IHl].
    now rewrite (He _ eq_refl), IHl.
Qed.

(** What [JSON.stringify] writes is read back and written again as it is. *)
Lemma JSON_stringify_written (obj : Object) : JSON_written (JSON_stringify obj).
Proof.
  intros k v. unfold JSON_stringify. rewrite lookup_omap.
  destruct (obj !! k) as [u |]; simpl; [apply JSON_value_idempotent | discriminate].
Qed.

Lemma JSON_stringify_parse (text : JSON_text) :
  JSON_written text -> JSON_stringify (JSON_parse text) = text.
Proof.
  intros H. apply map_eq. intros k. unfold JSON_stringify, JSON_parse.
  rewrite lookup_omap. destruct (text !! k) as [v |] eqn:E; simpl; eauto.
Qed.

(* ===================================================================== *)
(** * Create *)
(* ===================================================================== *)

Section CreateFacts.

Variable Date_parse : Value -> number.

Lemma missing_present (value : Value) : missing value = negb (present value).
Proof.
  unfold missing, present.
  now destruct (value === VUndefined), (value === VNull), (value === VString "").
Qed.

(** ** Writing a key *)

Lemma put_ne (obj : Object) (key k : string) (value : Value) :
  key <> k -> put obj key value !! k = obj !! k.
Proof.
  intros Hne. unfold put. destruct (_ && _); [reflexivity |]. now apply lookup_insert_ne.
Qed.

Lemma put_eq (obj : Object) (key : string) (value : Value) :
  key <> "__proto__" -> put obj key value !! key = Some value.
Proof.
  intros Hne. unfold put. destruct (String.eqb_spec key "__proto__"); [contradiction |].
  apply lookup_insert_eq.
Qed.

Lemma put_own (obj : Object) (key : string) (value : Value) :
  is_Some (obj !! key) -> put obj key value !! key = Some value.
Proof.
  intros Hown. unfold put. rewrite (bool_decide_eq_true_2 _ Hown), andb_false_r.
  apply lookup_insert_eq.
Qed.

Lemma put_proto (obj : Object) (value : Value) :
  obj !! "__proto__" = None -> put obj "__proto__" value = obj.
Proof.
  intros Hnone. unfold put. rewrite bool_decide_eq_false_2; [reflexivity |].
  rewrite Hnone. now intros [x [=]].
Qed.

(** ** The loop *)

Lemma create_loop_cons (data : Object) (field : fields.row) (rest : list fields.row)
      (jsonData : Object) :
  create_loop Date_parse data (field :: rest) jsonData
  = match field_check Date_parse data field with
    | Rejects message => Some (inl (res_status_json 400 message))
    | Throws => None
    | Passes => create_loop Date_parse data rest (create_step data field jsonData)
    end.
Proof.
  unfold field_check, create_step. simpl.
  rewrite missing_present.
  destruct (fields.is_required field), (present (get data (fields.field_name field)));
    simpl; try reflexivity;
    try (destruct (validateDataType_throws _ _); [reflexivity |];
         destruct (validateDataType Date_parse _ _); reflexivity);
    destruct (fields.default_value field !== VNull); reflexivity.
Qed.


Lemma create_loop_first_throw (data : Object) (pre : list fields.row) (field : fields.row)
      (post : list fields.row) :
  Forall (fun g => field_check Date_parse data g = Passes) pre ->
  field_check Date_parse data field = Throws ->
  forall jsonData, create_loop Date_parse data (pre ++ field :: post) jsonData = None.
Proof.
  intros Hpre Hf. induction Hpre as [| g pre Hg _ IH]; intros jsonData.
  - simpl app. rewrite create_loop_cons. now rewrite Hf.
  - change ((g :: pre) ++ field :: post) with (g :: (pre ++ field :: post)).
    rewrite create_loop_cons, Hg. apply IH.
Qed.

(** The loop does not throw on a body none of whose values makes a
    coercion throw. *)
Lemma create_loop_returns (data : Object) (fields : list fields.row) :
  (forall k, throws (get data k) = false) ->
  forall jsonData, create_loop Date_parse data fields jsonData <> None.
Proof.
  intros Hdata. induction fields as [| g rest IH]; intros jsonData; [discriminate |].
  rewrite create_loop_cons. unfold field_check, validateDataType_throws.
  rewrite Hdata, andb_false_r.
  destruct (_ && missing _); [discriminate |].
  destruct (present _); [| apply IH].
  destruct (negb _); [discriminate | apply IH].
Qed.

(** Where the loop stops, it stops at the first field that does not pass. *)
Lemma create_loop_stops (data : Object) (fields : list fields.row) :
  forall jsonData,
    match create_loop Date_parse data fields jsonData with
    | Some (inr _) => Forall (fun g => field_check Date_parse data g = Passes) fields
    | stopped =>
        exists pre field post,
          fields = pre ++ field :: post
          /\ Forall (fun g => field_check Date_parse data g = Passes) pre
          /\ match stopped with
             | None => field_check Date_parse data field = Throws
             | Some (inl res) =>
                 exists message, field_check Date_parse data field = Rejects message
                                 /\ res = res_status_json 400 message
             | Some (inr _) => True
             end
    end.
Proof.
  induction fields as [| g rest IH]; intros jsonData; [constructor |].
  rewrite create_loop_cons.
  destruct (field_check Date_parse data g) as [| message |] eqn:Hg.
  - specialize (IH (create_step data g jsonData)).
    destruct (create_loop Date_parse data rest _) as [[res | result] |].
    + destruct IH as (pre & f & post & -> & Hpre & Hf).
      exists (g :: pre), f, post. split; [reflexivity |]. split; [now constructor | exact Hf].
    + now constructor.
    + destruct IH as (pre & f & post & -> & Hpre & Hf).
      exists (g :: pre), f, post. split; [reflexivity |]. split; [now constructor | exact Hf].
  - exists [], g, rest. split; [reflexivity |]. split; [constructor | eauto].
  - exists [], g, rest. split; [reflexivity |]. split; [constructor | exact Hg].
Qed.

Lemma create_loop_error_status (data : Object) (fields : list fields.row) :
  forall jsonData res,
    create_loop Date_parse data fields jsonData = Some (inl res) ->
    exists field message,
      field ∈ fields /\ field_check Date_parse data field = Rejects message
      /\ res = res_status_json 400 message.
Proof.
  intros jsonData res H. pose proof (create_loop_stops data fields jsonData) as Hstop.
  rewrite H in Hstop. destruct Hstop as (pre & f & post & -> & _ & message & Hf & ->).
  exists f, message. split; [| auto].
  apply elem_of_app. right. left.
Qed.



(** A key that holds the value of the body, when that value is there to
    stay, holds it at the end of the loop. *)
Lemma create_loop_keeps (data : Object) (fields : list fields.row) (k : string) :
  present (get data k) = true ->
  forall jsonData result,
    create_loop Date_parse data fields jsonData = Some (inr result) ->
    jsonData !! k = Some (get data k) ->
    result !! k = Some (get data k).
Proof.
  intros Hk. induction fields as [| g rest IH]; intros jsonData result.
  - now intros [= <-].
  - rewrite create_loop_cons. destruct (field_check Date_parse data g); try discriminate.
    intros H Hj. apply (IH _ _ H). unfold create_step.
    destruct (decide (fields.field_name g = k)) as [-> | Hne].
    + rewrite Hk. apply put_own. now rewrite Hj.
    + destruct (present (get data (fields.field_name g)));
        [| destruct (fields.default_value g !== VNull)];
        rewrite ?put_ne by exact Hne; exact Hj.
Qed.

Lemma field_check_Passes (data : Object) (g : fields.row) :
  field_check Date_parse data g = Passes ->
  present (get data (fields.field_name g)) = true ->
  validateDataType Date_parse (get data (fields.field_name g)) (fields.data_type g) = true
  /\ validateDataType_throws (get data (fields.field_name g)) (fields.data_type g) = false.
Proof.
  unfold field_check. intros H Hp. rewrite Hp in H.
  destruct (_ && missing _); [discriminate |].
  destruct (validateDataType_throws _ _); [discriminate |].
  destruct (validateDataType _ _ _); [auto | discriminate].
Qed.

Lemma create_loop_stores (data : Object) (fields : list fields.row) (field : fields.row) :
  field ∈ fields ->
  fields.field_name field <> "__proto__" ->
  present (get data (fields.field_name field)) = true ->
  forall jsonData result,
    create_loop Date_parse data fields jsonData = Some (inr result) ->
    result !! fields.field_name field = Some (get data (fields.field_name field))
    /\ validateDataType Date_parse (get data (fields.field_name field))
                        (fields.data_type field) = true.
Proof.
  intros Hin Hname Hk. induction fields as [| g rest IH]; intros jsonData result.
  - now apply not_elem_of_nil in Hin.
  - rewrite create_loop_cons.
    destruct (field_check Date_parse data g) eqn:Hf; try discriminate. intros H.
    apply elem_of_cons in Hin as [<- | Hin]; [| now apply (IH Hin _ _ H)].
    split.
    + apply (create_loop_keeps _ _ _ Hk _ _ H).
      unfold create_step. rewrite Hk. now apply put_eq.
    + now apply field_check_Passes.
Qed.

(** Nothing is stored under the name [__proto__]. *)
Lemma create_loop_proto (data : Object) (fields : list fields.row) :
  forall jsonData result,
    create_loop Date_parse data fields jsonData = Some (inr result) ->
    jsonData !! "__proto__" = None ->
    result !! "__proto__" = None.
Proof.
  induction fields as [| g rest IH]; intros jsonData result.
  - now intros [= <-].
  - rewrite create_loop_cons. destruct (field_check Date_parse data g); try discriminate.
    intros H Hj. apply (IH _ _ H). unfold create_step.
    destruct (decide (fields.field_name g = "__proto__")) as [-> | Hne].
    + destruct (present _); [| destruct (_ !== _)]; rewrite ?put_proto by exact Hj; exact Hj.
    + destruct (present _); [| destruct (_ !== _)]; rewrite ?put_ne by exact Hne; exact Hj.
Qed.

(** The answers of [(handleCreate Date_parse)]. *)
Lemma handleCreate_cases (req : Request) (endpoint_id : Z) (fields : list fields.row)
      (w w' : World) (res : option Response) :
  handleCreate Date_parse req endpoint_id fields w = (res, w') ->
  (res = None /\ create_loop Date_parse (body req) fields ∅ = None /\ w' = w)
  \/ (exists r, res = Some r /\ create_loop Date_parse (body req) fields ∅ = Some (inl r)
                /\ w' = w)
  \/ (exists jsonData,
        create_loop Date_parse (body req) fields ∅ = Some (inr jsonData)
        /\ ((res = Some (res_status_json 201 "Data created successfully.")
             /\ tbl_data_storage w'
                = tbl_data_storage w ++
                    [ {| data_storage.data_id := auto_increment w;
                         data_storage.endpoint_id := endpoint_id;
                         data_storage.data := JSON_stringify jsonData |} ])
            \/ (res = Some server_error /\ tbl_data_storage w' = tbl_data_storage w))).
Proof.
  unfold handleCreate.
  destruct (create_loop Date_parse (body req) fields ∅) as [[r | jsonData] |].
  - intros [= <- <-]. right. left. eauto.
  - right. right. exists jsonData. split; [reflexivity |]. revert H.
    unfold try_catch, mbind, M_bind, insert_data, execute, mret, M_ret.
    destruct (failures w) as [| [] fs]; simpl; intros [= <- <-]; simpl; auto.
  - intros [= <- <-]. left. auto.
Qed.

End CreateFacts.

(* ===================================================================== *)
(** * Update, read, delete and the switch on the verb *)
(* ===================================================================== *)

(** Unfolds the sequencing of statements and splits on whether the next
    call of [pool.execute] fails. *)
Ltac run_pool w :=
  unfold try_catch, mbind, M_bind, mret, M_ret, query, execute;
  let fs := fresh "fs" in
  let E := fresh "Efail" in
  destruct (failures w) as [| [] fs] eqn:E; simpl.

Lemma handleRead_status (req : Request) (endpoint_id : Z) (fields : list fields.row)
      (w w' : World) (res : Response) :
  handleRead req endpoint_id fields w = (Some res, w') -> status res ∈ [200; 500].
Proof.
  unfold handleRead, select_data.
  run_pool w; intros [= <- <-]; simpl; rewrite !elem_of_cons; auto.
Qed.

Section UpdateFacts.

Variable Date_parse : Value -> number.
Variable sql_id_equals : Z -> string -> bool.


Lemma put_takes (obj : Object) (key : string) (value : Value) :
  put obj key value = if takes obj key then <[key := value]> obj else obj.
Proof.
  unfold put, takes. destruct (String.eqb key "__proto__"); [| reflexivity].
  now destruct (bool_decide _).
Qed.

Lemma update_loop_cons (data : Object) (field : fields.row) (rest : list fields.row)
      (existingData : Object) :
  update_loop Date_parse data (field :: rest) existingData
  = match update_check Date_parse data field with
    | Rejects message => Some (inl (res_status_json 400 message))
    | Throws => None
    | Passes => update_loop Date_parse data rest (update_step data field existingData)
    end.
Proof.
  unfold update_check, update_step. simpl.
  destruct (get data (fields.field_name field) !== VUndefined); [| reflexivity].
  destruct (validateDataType_throws _ _); [reflexivity |].
  now destruct (validateDataType Date_parse _ _).
Qed.

Lemma update_loop_error_status (data : Object) (fields : list fields.row) :
  forall existingData res,
    update_loop Date_parse data fields existingData = Some (inl res) -> status res = 400.
Proof.
  induction fields as [| g rest IH]; intros existingData res; [discriminate |].
  rewrite update_loop_cons.
  destruct (update_check Date_parse data g); [apply IH | | discriminate].
  now intros [= <-].
Qed.

Lemma update_loop_first_throw (data : Object) (pre : list fields.row) (field : fields.row)
      (post : list fields.row) :
  Forall (fun g => update_check Date_parse data g = Passes) pre ->
  update_check Date_parse data field = Throws ->
  forall existingData,
    update_loop Date_parse data (pre ++ field :: post) existingData = None.
Proof.
  intros Hpre Hf. induction Hpre as [| g pre Hg _ IH]; intros existingData.
  - simpl app. rewrite update_loop_cons. now rewrite Hf.
  - change ((g :: pre) ++ field :: post) with (g :: (pre ++ field :: post)).
    rewrite update_loop_cons, Hg. apply IH.
Qed.

(** The loop does not throw on a body none of whose values makes a
    coercion throw. *)
Lemma update_loop_returns (data : Object) (fields : list fields.row) :
  (forall k, throws (get data k) = false) ->
  forall existingData, update_loop Date_parse data fields existingData <> None.
Proof.
  intros Hdata. induction fields as [| g rest IH]; intros existingData; [discriminate |].
  rewrite update_loop_cons. unfold update_check, validateDataType_throws.
  rewrite Hdata, andb_false_r.
  destruct (_ !== _); [| apply IH].
  destruct (negb _); [discriminate | apply IH].
Qed.

(** Where the loop stops, it stops at the first field that does not pass. *)
Lemma update_loop_stops (data : Object) (fields : list fields.row) :
  forall existingData,
    match update_loop Date_parse data fields existingData with
    | Some (inr _) => Forall (fun g => update_check Date_parse data g = Passes) fields
    | stopped =>
        exists pre field post,
          fields = pre ++ field :: post
          /\ Forall (fun g => update_check Date_parse data g = Passes) pre
          /\ match stopped with
             | None => update_check Date_parse data field = Throws
             | Some (inl res) =>
                 exists message, update_check Date_parse data field = Rejects message
                                 /\ res = res_status_json 400 message
             | Some (inr _) => True
             end
    end.
Proof.
  induction fields as [| g rest IH]; intros existingData; [constructor |].
  rewrite update_loop_cons.
  destruct (update_check Date_parse data g) as [| message |] eqn:Hg.
  - specialize (IH (update_step data g existingData)).
    destruct (update_loop Date_parse data rest _) as [[res | result] |].
    + destruct IH as (pre & f & post & -> & Hpre & Hf).
      exists (g :: pre), f, post. split; [reflexivity |]. split; [now constructor | exact Hf].
    + now constructor.
    + destruct IH as (pre & f & post & -> & Hpre & Hf).
      exists (g :: pre), f, post. split; [reflexivity |]. split; [now constructor | exact Hf].
  - exists [], g, rest. split; [reflexivity |]. split; [constructor | eauto].
  - exists [], g, rest. split; [reflexivity |]. split; [constructor | exact Hg].
Qed.

Lemma supplied_cons (data : Object) (g : fields.row) (rest : list fields.row) (k : string) :
  supplied data (g :: rest) k
  = (String.eqb (fields.field_name g) k && (get data k !== VUndefined))
    || supplied data rest k.
Proof.
  unfold supplied. simpl.
  now destruct (String.eqb _ k), (existsb _ rest), (get data k !== VUndefined).
Qed.

Lemma update_check_Passes (data : Object) (g : fields.row) :
  update_check Date_parse data g = Passes ->
  (get data (fields.field_name g) !== VUndefined) = true ->
  validateDataType Date_parse (get data (fields.field_name g)) (fields.data_type g) = true
  /\ validateDataType_throws (get data (fields.field_name g)) (fields.data_type g) = false.
Proof.
  unfold update_check. intros H Hp. rewrite Hp in H.
  destruct (validateDataType_throws _ _); [discriminate |].
  destruct (validateDataType _ _ _); [auto | discriminate].
Qed.

(** The payload at the end of the loop: a key the body supplies holds the
    value of the body, if the assignment makes it an own key; every other
    key holds what it held. *)
Lemma update_loop_result (data : Object) (fields : list fields.row) :
  forall existingData result,
    update_loop Date_parse data fields existingData = Some (inr result) ->
    (forall f, f ∈ fields -> (get data (fields.field_name f) !== VUndefined) = true ->
               validateDataType Date_parse (get data (fields.field_name f))
                                (fields.data_type f) = true)
    /\ (forall k, result !! k
                  = if supplied data fields k && takes existingData k
                    then Some (get data k) else existingData !! k).
Proof.
  induction fields as [| g rest IH]; intros existingData result.
  - intros [= <-]. split; [intros f Hf; now apply not_elem_of_nil in Hf | reflexivity].
  - rewrite update_loop_cons.
    destruct (update_check Date_parse data g) eqn:Hg; try discriminate.
    intros H. destruct (IH _ _ H) as [IH1 IH2]. split.
    + intros f Hf Hp. apply elem_of_cons in Hf as [-> | Hf]; [| auto].
      now apply update_check_Passes.
    + intros k. rewrite IH2, supplied_cons. unfold update_step.
      destruct (String.eqb_spec (fields.field_name g) k) as [<- | Hne].
      * destruct (get data (fields.field_name g) !== VUndefined) eqn:Hsup; simpl;
          [| reflexivity].
        rewrite put_takes. destruct (takes existingData (fields.field_name g)) eqn:Ht.
        -- unfold takes at 1. rewrite lookup_insert_eq.
           rewrite bool_decide_eq_true_2 by eauto. rewrite orb_true_r, andb_true_r.
           now destruct (supplied data rest _).
        -- now rewrite Ht, andb_false_r.
      * simpl. destruct (get data (fields.field_name g) !== VUndefined); [| reflexivity].
        unfold takes. now rewrite !put_ne by exact Hne.
Qed.



(** The answer 200 of [handleUpdate]: the loop went through, and every row
    the statement matches holds the payload it built. *)
Lemma handleUpdate_ok (req : Request) (endpoint_id : Z) (fields : list fields.row)
      (w w' : World) (res : Response) :
  handleUpdate Date_parse sql_id_equals req endpoint_id fields w = (Some res, w') ->
  status res = 200 ->
  exists row0 rest result,
    falsy (query_id req) = false
    /\ filter (fun r => matches sql_id_equals (bound (query_id req)) endpoint_id r)
              (tbl_data_storage w)
       = row0 :: rest
    /\ update_loop Date_parse (body req) fields (JSON_parse (data_storage.data row0))
       = Some (inr result)
    /\ tbl_data_storage w'
       = map (fun r => if matches sql_id_equals (bound (query_id req)) endpoint_id r
                       then data_storage.with_data r (JSON_stringify result) else r)
             (tbl_data_storage w).
Proof.
  unfold handleUpdate, select_data_by_id, update_data, throw.
  destruct (falsy (query_id req)) eqn:Hid.
  { intros [= <- <-]. discriminate. }
  run_pool w; try discriminate.
  - destruct (filter _ (tbl_data_storage w)) as [| row0 rest] eqn:Hrows.
    { intros [= <- <-]. discriminate. }
    destruct (update_loop _ _ _ _) as [[r | result] |] eqn:Hloop; [| | discriminate].
    { intros [= <- <-] Hs. apply update_loop_error_status in Hloop. lia. }
    rewrite Efail. intros [= <- <-] _. exists row0, rest, result. auto.
  - destruct (filter _ (tbl_data_storage w)) as [| row0 rest] eqn:Hrows.
    { intros [= <- <-]. discriminate. }
    destruct (update_loop _ _ _ _) as [[r | result] |] eqn:Hloop; [| | discriminate].
    { intros [= <- <-] Hs. apply update_loop_error_status in Hloop. lia. }
    destruct fs as [| [] fs']; simpl; intros [= <- <-]; try discriminate;
      intros _; exists row0, rest, result; auto.
Qed.


Lemma supplied_true (data : Object) (fields : list fields.row) (field : fields.row) :
  field ∈ fields ->
  (get data (fields.field_name field) !== VUndefined) = true ->
  supplied data fields (fields.field_name field) = true.
Proof.
  intros Hin Hp. unfold supplied. rewrite Hp, andb_true_r.
  apply existsb_exists. exists field. split; [now apply list_elem_of_In |].
  apply String.eqb_refl.
Qed.


Lemma handleUpdate_status (req : Request) (endpoint_id : Z) (fields : list fields.row)
      (w w' : World) (res : Response) :
  handleUpdate Date_parse sql_id_equals req endpoint_id fields w = (Some res, w') ->
  status res ∈ [200; 400; 404; 500].
Proof.
  unfold handleUpdate, select_data_by_id, update_data, throw.
  destruct (falsy (query_id req)).
  { intros [= <- <-]. simpl. rewrite !elem_of_cons. auto. }
  run_pool w; try discriminate.
  - destruct (filter _ (tbl_data_storage w)) as [| row0 rest].
    { intros [= <- <-]. simpl. rewrite !elem_of_cons. auto. }
    destruct (update_loop _ _ _ _) as [[r | result] |] eqn:Hloop; [| | discriminate].
    { intros [= <- <-]. apply update_loop_error_status in Hloop.
      rewrite Hloop, !elem_of_cons. auto. }
    rewrite Efail. intros [= <- <-]. simpl. rewrite !elem_of_cons. auto.
  - destruct (filter _ (tbl_data_storage w)) as [| row0 rest].
    { intros [= <- <-]. simpl. rewrite !elem_of_cons. auto. }
    destruct (update_loop _ _ _ _) as [[r | result] |] eqn:Hloop; [| | discriminate].
    { intros [= <- <-]. apply update_loop_error_status in Hloop.
      rewrite Hloop, !elem_of_cons. auto. }
    destruct fs as [| [] fs']; simpl; intros [= <- <-]; simpl; rewrite !elem_of_cons; auto.
Qed.

Lemma handleDelete_status (req : Request) (endpoint_id : Z) (fields : list fields.row)
      (w w' : World) (res : Response) :
  handleDelete sql_id_equals req endpoint_id fields w = (Some res, w') ->
  status res ∈ [200; 400; 404; 500].
Proof.
  unfold handleDelete, delete_data.
  destruct (falsy (query_id req)).
  { intros [= <- <-]. simpl. rewrite !elem_of_cons. auto. }
  run_pool w; try (destruct (_ =? 0)); intros [= <- <-]; simpl; rewrite !elem_of_cons; auto.
Qed.

Lemma handleCreate_status (req : Request) (endpoint_id : Z) (fields : list fields.row)
      (w w' : World) (res : Response) :
  handleCreate Date_parse req endpoint_id fields w = (Some res, w') ->
  status res ∈ [201; 400; 500].
Proof.
  intros H.
  apply handleCreate_cases in H as [([=] & _) | [(r & [= ->] & Hloop & _) | (j & _ & H)]].
  - apply create_loop_error_status in Hloop as (f & m & _ & _ & ->).
    simpl. rewrite !elem_of_cons. auto.
  - destruct H as [[[= ->] _] | [[= ->] _]]; simpl; rewrite !elem_of_cons; auto.
Qed.

Lemma switch_method_status (http_method : string) (req : Request)
      (endpoint : api_endpoints.row) (fields : list fields.row) (w w' : World)
      (res : Response) :
  switch_method Date_parse sql_id_equals http_method req endpoint fields w = (Some res, w') ->
  status res = 405 ->
  http_method ∉ supported_methods.
Proof.
  unfold switch_method, supported_methods.
  destruct (String.eqb_spec http_method "GET").
  { intros H%handleRead_status Hs. rewrite Hs, !elem_of_cons, elem_of_nil in H. lia. }
  destruct (String.eqb_spec http_method "POST").
  { intros H%handleCreate_status Hs. rewrite Hs, !elem_of_cons, elem_of_nil in H. lia. }
  destruct (String.eqb_spec http_method "PUT").
  { intros H%handleUpdate_status Hs. rewrite Hs, !elem_of_cons, elem_of_nil in H. lia. }
  destruct (String.eqb_spec http_method "DELETE").
  { intros H%handleDelete_status Hs. rewrite Hs, !elem_of_cons, elem_of_nil in H. lia. }
  intros _ _. rewrite !elem_of_cons, elem_of_nil. tauto.
Qed.

Lemma switch_method_unsupported (http_method : string) (req : Request)
      (endpoint : api_endpoints.row) (fields : list fields.row) (w : World) :
  http_method ∉ supported_methods ->
  switch_method Date_parse sql_id_equals http_method req endpoint fields w
  = (Some (res_status_json 405 "Method Not Allowed"), w).
Proof.
  unfold switch_method, supported_methods.
  rewrite !elem_of_cons, elem_of_nil. intros H.
  destruct (String.eqb_spec http_method "GET"); [tauto |].
  destruct (String.eqb_spec http_method "POST"); [tauto |].
  destruct (String.eqb_spec http_method "PUT"); [tauto |].
  destruct (String.eqb_spec http_method "DELETE"); [tauto |].
  reflexivity.
Qed.

End UpdateFacts.

(* ===================================================================== *)
(** * The dispatcher *)
(* ===================================================================== *)

Section DispatcherFacts.

Variable Date_parse : Value -> number.
Variable sql_name_equals : string -> string -> bool.
Variable sql_id_equals : Z -> string -> bool.


Lemma query_run {A} (read : World -> A) (w : World) :
  query read w = (if next_fails w then None else Some (read (tick w)), tick w).
Proof.
  unfold query, execute, next_fails, tick. now destruct (failures w) as [| [] fs].
Qed.

Lemma tick_tables (w : World) :
  tbl_api_endpoints (tick w) = tbl_api_endpoints w
  /\ tbl_fields (tick w) = tbl_fields w
  /\ tbl_data_storage (tick w) = tbl_data_storage w.
Proof. unfold tick. now destruct (failures w). Qed.

Lemma calls_succeed_next (w : World) : calls_succeed 1 w = negb (next_fails w).
Proof.
  unfold calls_succeed, next_fails. destruct (failures w) as [| [] fs]; reflexivity.
Qed.

Lemma found_resolves (req : Request) (w : World) :
  found sql_name_equals req w <> [] <-> resolves sql_name_equals req w.
Proof.
  unfold found, resolves. split.
  - intros H. destruct (filter _ _) as [| e l] eqn:E; [congruence |].
    assert (He : e ∈ e :: l) by left. rewrite <- E in He.
    apply list_elem_of_filter in He as [Hp He]. exists e.
    apply Is_true_true, andb_true_iff in Hp as [Hn Hu].
    apply Z.eqb_eq in Hu. auto.
  - intros (e & He & Hn & Hu) H.
    assert (Hin : e ∈ filter (fun e => sql_name_equals (api_endpoints.endpoint_name e)
                                                       (endpoint_name req)
                                       && (api_endpoints.user_id e =? user_id req))
                             (tbl_api_endpoints w)).
    { apply list_elem_of_filter. split; [| exact He].
      apply Is_true_true, andb_true_iff. split; [exact Hn | now apply Z.eqb_eq]. }
    rewrite H in Hin. now apply not_elem_of_nil in Hin.
Qed.

Lemma handleRequest_run (req : Request) (w : World) :
  handleRequest Date_parse sql_name_equals sql_id_equals req w
  = if next_fails w then (Some server_error, tick w)
    else match found sql_name_equals req w with
         | [] => (Some (res_status_json 404 "API endpoint not found."), tick w)
         | endpoint :: _ =>
             if next_fails (tick w) then (Some server_error, tick (tick w))
             else
               try_catch
                 (switch_method Date_parse sql_id_equals (Str.toUpperCase (method req)) req endpoint
                    (filter (fun f => fields.endpoint_id f =? api_endpoints.endpoint_id endpoint)
                            (tbl_fields w)))
                 (mret server_error) (tick (tick w))
         end.
Proof.
  unfold handleRequest, select_endpoints, select_fields, found.
  unfold try_catch at 1. unfold mbind at 1, M_bind at 1.
  rewrite query_run. destruct (next_fails w); [reflexivity |].
  destruct (tick_tables w) as (-> & _ & _).
  destruct (filter _ (tbl_api_endpoints w)) as [| endpoint l]; [reflexivity |].
  unfold mbind, M_bind. rewrite query_run.
  destruct (next_fails (tick w)); [reflexivity |].
  destruct (tick_tables (tick w)) as (_ & -> & _).
  destruct (tick_tables w) as (_ & -> & _).
  unfold try_catch. now destruct (switch_method _ _ _ _ _ _ _) as [[res |] w2].
Qed.

Lemma handleRequest_never_throws (req : Request) (w : World) :
  exists res, (handleRequest Date_parse sql_name_equals sql_id_equals req w).1 = Some res.
Proof.
  rewrite handleRequest_run.
  destruct (next_fails w); [now eexists |].
  destruct (found sql_name_equals req w); [now eexists |].
  destruct (next_fails (tick w)); [now eexists |].
  unfold try_catch. destruct (switch_method _ _ _ _ _ _ _) as [[res |] w2];
    now eexists.
Qed.

End DispatcherFacts.

(* ===================================================================== *)
(** * The stored payloads stay JSON text of the controller *)
(* ===================================================================== *)

Section StorageInvariant.

Variable Date_parse : Value -> number.
Variable sql_name_equals : string -> string -> bool.
Variable sql_id_equals : Z -> string -> bool.

Lemma payloads_written_same (w w' : World) :
  tbl_data_storage w' = tbl_data_storage w -> payloads_written w -> payloads_written w'.
Proof. unfold payloads_written. now intros ->. Qed.

Lemma payloads_written_tick (w : World) : payloads_written w -> payloads_written (tick w).
Proof. apply payloads_written_same. apply tick_tables. Qed.

Lemma handleCreate_written (req : Request) (endpoint_id : Z) (fields : list fields.row)
      (w w' : World) (res : option Response) :
  handleCreate Date_parse req endpoint_id fields w = (res, w') ->
  payloads_written w -> payloads_written w'.
Proof.
  intros H Hw.
  apply handleCreate_cases in H as [(_ & _ & ->) | [(r & _ & _ & ->) | (j & _ & H)]];
    [exact Hw | exact Hw |].
  destruct H as [[_ H] | [_ H]]; [| now apply (payloads_written_same w)].
  unfold payloads_written. rewrite H. apply Forall_app. split; [exact Hw |].
  constructor; [apply JSON_stringify_written | constructor].
Qed.

Lemma handleRead_written (req : Request) (endpoint_id : Z) (fields : list fields.row)
      (w w' : World) (res : option Response) :
  handleRead req endpoint_id fields w = (res, w') ->
  payloads_written w -> payloads_written w'.
Proof.
  unfold handleRead, select_data. run_pool w; intros [= <- <-]; exact id.
Qed.

Lemma update_data_written (text : JSON_text) (identifier : string) (endpoint_id : Z)
      (w : World) :
  JSON_written text ->
  payloads_written w ->
  Forall (fun r => JSON_written (data_storage.data r))
         (map (fun r => if matches sql_id_equals identifier endpoint_id r
                        then data_storage.with_data r text else r)
              (tbl_data_storage w)).
Proof.
  intros Ht Hw. apply Forall_fmap. eapply Forall_impl; [exact Hw |].
  intros r Hr. simpl. now destruct (matches _ _ _ r).
Qed.

Lemma handleUpdate_written (req : Request) (endpoint_id : Z) (fields : list fields.row)
      (w w' : World) (res : option Response) :
  handleUpdate Date_parse sql_id_equals req endpoint_id fields w = (res, w') ->
  payloads_written w -> payloads_written w'.
Proof.
  unfold handleUpdate, select_data_by_id, update_data, throw.
  destruct (falsy (query_id req)); [now intros [= <- <-] |].
  run_pool w; try (now intros [= <- <-]).
  - destruct (filter _ (tbl_data_storage w)) as [| row0 rest]; [now intros [= <- <-] |].
    destruct (update_loop _ _ _ _) as [[r | result] |];
      [now intros [= <- <-] | | now intros [= <- <-]].
    rewrite Efail. intros [= <- <-] Hw.
    apply update_data_written; [apply JSON_stringify_written | exact Hw].
  - destruct (filter _ (tbl_data_storage w)) as [| row0 rest]; [now intros [= <- <-] |].
    destruct (update_loop _ _ _ _) as [[r | result] |];
      [now intros [= <- <-] | | now intros [= <- <-]].
    destruct fs as [| [] fs']; simpl; intros [= <- <-] Hw; try exact Hw;
      (apply update_data_written; [apply JSON_stringify_written | exact Hw]).
Qed.

Lemma handleDelete_written (req : Request) (endpoint_id : Z) (fields : list fields.row)
      (w w' : World) (res : option Response) :
  handleDelete sql_id_equals req endpoint_id fields w = (res, w') ->
  payloads_written w -> payloads_written w'.
Proof.
  unfold handleDelete, delete_data.
  destruct (falsy (query_id req)); [now intros [= <- <-] |].
  run_pool w; try (destruct (_ =? 0)); intros [= <- <-] Hw; try exact Hw;
    (apply Forall_forall; intros r [_ Hr]%list_elem_of_filter;
     revert r Hr; now apply Forall_forall).
Qed.

Lemma switch_method_written (http_method : string) (req : Request)
      (endpoint : api_endpoints.row) (fields : list fields.row) (w w' : World)
      (res : option Response) :
  switch_method Date_parse sql_id_equals http_method req endpoint fields w = (res, w') ->
  payloads_written w -> payloads_written w'.
Proof.
  unfold switch_method.
  destruct (String.eqb http_method "GET"); [apply handleRead_written |].
  destruct (String.eqb http_method "POST"); [apply handleCreate_written |].
  destruct (String.eqb http_method "PUT"); [apply handleUpdate_written |].
  destruct (String.eqb http_method "DELETE"); [apply handleDelete_written |].
  now intros [= <- <-].
Qed.

(** Whatever the request and its outcome, the stored payloads remain ones
    that [JSON.stringify] writes. *)
Lemma handleRequest_written (req : Request) (w w' : World) (res : option Response) :
  handleRequest Date_parse sql_name_equals sql_id_equals req w = (res, w') ->
  payloads_written w -> payloads_written w'.
Proof.
  rewrite handleRequest_run. intros H Hw.
  destruct (next_fails w); [injection H as <- <-; now apply payloads_written_tick |].
  destruct (found sql_name_equals req w);
    [injection H as <- <-; now apply payloads_written_tick |].
  destruct (next_fails (tick w));
    [injection H as <- <-; now do 2 apply payloads_written_tick |].
  unfold try_catch in H.
  destruct (switch_method _ _ _ _ _ _ _) as [[answer |] w2] eqn:Hswitch;
    injection H as <- <-;
    (eapply switch_method_written; [exact Hswitch | now do 2 apply payloads_written_tick]).
Qed.

End StorageInvariant.

(* ===================================================================== *)
(** * The handlers, call by call *)
(* ===================================================================== *)

Lemma execute_run {A} (statement : World -> A * World) (w : World) :
  execute statement w
  = if next_fails w then (None, tick w)
    else (Some (statement (tick w)).1, (statement (tick w)).2).
Proof.
  unfold execute, next_fails, tick.
  destruct (failures w) as [| [] fs]; try reflexivity; now destruct (statement _).
Qed.

Lemma tick_auto_increment (w : World) : auto_increment (tick w) = auto_increment w.
Proof. unfold tick. now destruct (failures w). Qed.

(** The answers of [handleDelete] once it has an identifier. *)
Lemma handleDelete_run (sql_id_equals : Z -> string -> bool) (req : Request)
      (endpoint_id : Z) (fields : list fields.row) (w : World) :
  falsy (query_id req) = false ->
  handleDelete sql_id_equals req endpoint_id fields w
  = if next_fails w then (Some server_error, tick w)
    else
      (Some (if Z.of_nat (length (filter (matches sql_id_equals (bound (query_id req))
                                                  endpoint_id)
                                         (tbl_data_storage w))) =? 0
             then res_status_json 404 "Data not found."
             else res_json (Message "Data deleted successfully.")),
       with_data_storage (tick w)
         (filter (fun r => negb (matches sql_id_equals (bound (query_id req)) endpoint_id r))
                 (tbl_data_storage w))
         (auto_increment (tick w))).
Proof.
  intros Hid. unfold handleDelete, delete_data. rewrite Hid.
  unfold try_catch, mbind, M_bind. rewrite execute_run.
  destruct (next_fails w); [reflexivity |]. simpl.
  destruct (tick_tables w) as (_ & _ & ->).
  now destruct (_ =? 0).
Qed.

(** The answers of [handleUpdate] once it has an identifier. *)
Lemma handleUpdate_run (Date_parse : Value -> number) (sql_id_equals : Z -> string -> bool)
      (req : Request) (endpoint_id : Z) (fields : list fields.row) (w : World) :
  falsy (query_id req) = false ->
  handleUpdate Date_parse sql_id_equals req endpoint_id fields w
  = if next_fails w then (None, tick w)
    else
      match filter (matches sql_id_equals (bound (query_id req)) endpoint_id)
                   (tbl_data_storage w) with
      | [] => (Some (res_status_json 404 "Data not found."), tick w)
      | row0 :: _ =>
          match update_loop Date_parse (body req) fields (JSON_parse (data_storage.data row0)) with
          | None => (None, tick w)
          | Some (inl res) => (Some res, tick w)
          | Some (inr result) =>
              if next_fails (tick w) then (Some server_error, tick (tick w))
              else
                (Some (res_json (Message "Data updated successfully.")),
                 with_data_storage (tick (tick w))
                   (map (fun r => if matches sql_id_equals (bound (query_id req)) endpoint_id r
                                  then data_storage.with_data r (JSON_stringify result) else r)
                        (tbl_data_storage w))
                   (auto_increment w))
          end
      end.
Proof.
  intros Hid. unfold handleUpdate, select_data_by_id, update_data. rewrite Hid.
  unfold mbind at 1, M_bind at 1. rewrite query_run.
  destruct (next_fails w); [reflexivity |].
  destruct (tick_tables w) as (_ & _ & ->).
  destruct (filter _ _) as [| row0 rest]; [reflexivity |].
  destruct (update_loop _ _ _ _) as [[res | result] |]; [reflexivity | | reflexivity].
  unfold try_catch, mbind, M_bind. rewrite execute_run.
  destruct (next_fails (tick w)); [reflexivity |]. simpl.
  destruct (tick_tables (tick w)) as (_ & _ & ->).
  destruct (tick_tables w) as (_ & _ & ->).
  now rewrite !tick_auto_increment.
Qed.

(** The answers of [handleCreate]. *)
Lemma handleCreate_run (Date_parse : Value -> number) (req : Request) (endpoint_id : Z)
      (fields : list fields.row) (w : World) :
  handleCreate Date_parse req endpoint_id fields w
  = match create_loop Date_parse (body req) fields ∅ with
    | None => (None, w)
    | Some (inl res) => (Some res, w)
    | Some (inr jsonData) =>
        if next_fails w then (Some server_error, tick w)
        else
          (Some (res_status_json 201 "Data created successfully."),
           with_data_storage (tick w)
             (tbl_data_storage w ++
                [ {| data_storage.data_id := auto_increment w;
                     data_storage.endpoint_id := endpoint_id;
                     data_storage.data := JSON_stringify jsonData |} ])
             (auto_increment w + 1))
    end.
Proof.
  unfold handleCreate.
  destruct (create_loop _ _ _ _) as [[res | jsonData] |]; [reflexivity | | reflexivity].
  unfold try_catch, mbind, M_bind, insert_data. rewrite execute_run.
  destruct (next_fails w); [reflexivity |]. simpl.
  destruct (tick_tables w) as (_ & _ & ->). now rewrite tick_auto_increment.
Qed.

(* ===================================================================== *)
(** * The properties of the specification *)
(* ===================================================================== *)

(** ** Type validation *)

(** C8, as the code has it.  For a field declared INT (in any letter
    case), validation accepts a value exactly when the value, read as a
    number, is a finite number whose mathematical value is an integer: "3"
    and 3 are accepted, "3.5" is rejected, and a string that is no numeric
    literal is rejected; the empty string and a string of white space alone
    are numeric literals, read as 0, and are accepted. *)
Theorem INT_accepts_integers (Date_parse : Value -> number) (data_type : string) :
  Str.toUpperCase data_type = "INT" ->
  (forall value,
      validateDataType Date_parse value data_type = true
      <-> exists z : Z, Num.represents (Number value) z)
  /\ validateDataType Date_parse (VString "3") data_type = true
  /\ validateDataType Date_parse (VNumber (Num.of_Z 3)) data_type = true
  /\ validateDataType Date_parse (VString "3.5") data_type = false
  /\ (forall s, Num.numeric_string s = false ->
                validateDataType Date_parse (VString s) data_type = false)
  /\ (forall s, Str.is_empty (Str.trim s) = true ->
                Num.numeric_string s = true
                /\ Num.represents (Number (VString s)) 0
                /\ validateDataType Date_parse (VString s) data_type = true).
Proof.
  intros Ht. repeat split.
  - rewrite (validateDataType_INT _ _ _ Ht). apply isInteger_represents.
  - rewrite (validateDataType_INT _ _ _ Ht). apply isInteger_represents.
  - now rewrite (validateDataType_INT _ _ _ Ht).
  - now rewrite (validateDataType_INT _ _ _ Ht).
  - now rewrite (validateDataType_INT _ _ _ Ht).
  - intros s Hs. rewrite (validateDataType_INT _ _ _ Ht). simpl.
    now rewrite (not_numeric_is_NaN s Hs).
  - unfold Num.numeric_string. now rewrite H.
  - simpl. unfold Num.StringToNumber. now rewrite H.
  - rewrite (validateDataType_INT _ _ _ Ht). simpl. unfold Num.StringToNumber.
    now rewrite H.
Qed.

Lemma INT_accepts_integers_witness :
  Str.toUpperCase "int" = "INT"
  /\ Num.numeric_string "3 apples" = false
  /\ validateDataType no_date (VString "3 apples") "int" = false.
Proof.
  split; [reflexivity |]. split; [reflexivity |].
  destruct (INT_accepts_integers no_date "int" eq_refl) as (_ & _ & _ & _ & H).
  apply H. reflexivity.
Defined.

(** C8, as stated, fails: the empty string and a string of two spaces
    have no numeral in them, and both are accepted for INT. *)
Lemma INT_accepts_blank_string :
  Num.StrDecimalLiteral (Str.trim "  ") = None
  /\ Num.NonDecimalIntegerLiteral (Str.trim "  ") = None
  /\ validateDataType no_date (VString "  ") "INT" = true
  /\ validateDataType no_date (VString "") "INT" = true.
Proof. repeat split; reflexivity. Qed.

(** C5, as the code has it.  For a field declared FLOAT, validation accepts
    a string exactly when, after leading white space, it starts with a
    decimal literal or with [Infinity], each with an optional sign; what
    follows that start is not looked at.  So a string that starts with a
    digit is accepted whatever follows, "Infinity" and "3abc" are accepted,
    "abc" is rejected; a number is accepted unless it is NaN; a boolean and
    [null] are rejected. *)
Theorem FLOAT_accepts_decimal_prefix (Date_parse : Value -> number) (data_type : string) :
  Str.toUpperCase data_type = "FLOAT" ->
  (forall s,
      validateDataType Date_parse (VString s) data_type = true
      <-> is_Some (Num.StrDecimalLiteral (Str.trimStart s)))
  /\ (forall c rest,
         Str.between 48 57 c = true ->
         validateDataType Date_parse (VString (String c rest)) data_type = true)
  /\ (forall n, validateDataType Date_parse (VNumber n) data_type = negb (Num.isNaN n))
  /\ (forall b, validateDataType Date_parse (VBoolean b) data_type = false)
  /\ validateDataType Date_parse VNull data_type = false
  /\ validateDataType Date_parse (VString "Infinity") data_type = true
  /\ validateDataType Date_parse (VString "3abc") data_type = true
  /\ validateDataType Date_parse (VString "abc") data_type = false.
Proof.
  intros Ht.
  assert (Hs : forall s, validateDataType Date_parse (VString s) data_type = true
                         <-> is_Some (Num.StrDecimalLiteral (Str.trimStart s))).
  { intros s. rewrite (validateDataType_FLOAT _ _ _ Ht), <- parseFloat_string_NaN.
    simpl. unfold isNaN. now destruct (Num.isNaN _). }
  split; [exact Hs |]. split.
  { intros c rest Hc. apply Hs. now apply leading_digit_is_literal. }
  split.
  { intros n. rewrite (validateDataType_FLOAT _ _ _ Ht). now destruct n. }
  split.
  { intros b. rewrite (validateDataType_FLOAT _ _ _ Ht). now destruct b. }
  repeat split; now rewrite (validateDataType_FLOAT _ _ _ Ht).
Qed.

Lemma FLOAT_accepts_decimal_prefix_witness :
  Str.toUpperCase "float" = "FLOAT"
  /\ Str.between 48 57 "7" = true
  /\ validateDataType no_date (VString "7 days") "float" = true.
Proof.
  split; [reflexivity |]. split; [reflexivity |].
  destruct (FLOAT_accepts_decimal_prefix no_date "float" eq_refl) as (_ & H & _).
  apply H. reflexivity.
Defined.

(** C5, as stated, fails: the claim has "Infinity" and a string that is
    not entirely a decimal number rejected; both are accepted. *)
Lemma FLOAT_accepts_Infinity_and_trailing_text :
  validateDataType no_date (VString "Infinity") "FLOAT" = true
  /\ validateDataType no_date (VString "3abc") "FLOAT" = true.
Proof. split; reflexivity. Qed.

(** C4, as the code has it.  For a field declared BOOLEAN, validation
    accepts a value exactly when it is a boolean or one of the strings
    "true" and "false"; and the payload that a successful create stores
    holds, for such a field, the value of the request as it came (the
    string "true" stays the string "true"), except under the name
    [__proto__], under which the assignment stores nothing. *)
Theorem BOOLEAN_accepted_stored_unchanged (Date_parse : Value -> number) :
  (forall data_type value,
      Str.toUpperCase data_type = "BOOLEAN" ->
      (validateDataType Date_parse value data_type = true
       <-> (exists b, value = VBoolean b)
           \/ value = VString "true" \/ value = VString "false"))
  /\ (forall req endpoint_id fields field w res w',
         field ∈ fields ->
         Str.toUpperCase (fields.data_type field) = "BOOLEAN" ->
         present (get (body req) (fields.field_name field)) = true ->
         handleCreate Date_parse req endpoint_id fields w = (Some res, w') ->
         status res = 201 ->
         exists row,
           tbl_data_storage w' = tbl_data_storage w ++ [row]
           /\ data_storage.data row !! fields.field_name field
              = if String.eqb (fields.field_name field) "__proto__" then None
                else Some (get (body req) (fields.field_name field))).
Proof.
  assert (Hacc : forall data_type value,
             Str.toUpperCase data_type = "BOOLEAN" ->
             (validateDataType Date_parse value data_type = true
              <-> (exists b, value = VBoolean b)
                  \/ value = VString "true" \/ value = VString "false")).
  { intros data_type value Ht. rewrite (validateDataType_BOOLEAN _ _ _ Ht).
    destruct value as [| | b | n | s | elements | properties | name |]; simpl;
      try (split; [discriminate | intros [[b' [=]] | [[=] | [=]]]]).
    - split; [eauto | reflexivity].
    - rewrite orb_false_r, orb_true_iff, !String.eqb_eq. split.
      + intros [-> | ->]; auto.
      + intros [[b [=]] | [[= ->] | [= ->]]]; auto. }
  split; [exact Hacc |].
  intros req endpoint_id fields field w res w' Hin Ht Hp Hrun Hs.
  apply handleCreate_cases in Hrun
    as [([=] & _) | [(r & [= ->] & Hloop & _) | (jsonData & Hloop & Hrun)]].
  - apply create_loop_error_status in Hloop as (f & m & _ & _ & ->). discriminate.
  - destruct Hrun as [[_ Htbl] | [[= ->] _]]; [| discriminate].
    eexists. split; [exact Htbl |]. simpl.
    unfold JSON_stringify. rewrite lookup_omap.
    destruct (String.eqb_spec (fields.field_name field) "__proto__") as [-> | Hname].
    + now rewrite (create_loop_proto _ _ _ _ _ Hloop).
    + destruct (create_loop_stores _ _ _ _ Hin Hname Hp _ _ Hloop) as [Hk Hv].
      rewrite Hk. simpl.
      apply (Hacc _ _ Ht) in Hv as [[b ->] | [-> | ->]]; reflexivity.
Qed.

Lemma BOOLEAN_accepted_stored_unchanged_witness :
  exists w',
    handleCreate no_date Demo.post_person 1 Demo.people_fields Demo.world
    = (Some (res_status_json 201 "Data created successfully."), w')
    /\ exists row,
         tbl_data_storage w' = tbl_data_storage Demo.world ++ [row]
         /\ data_storage.data row !! "active" = Some (VString "true").
Proof.
  eexists. split; [vm_compute; reflexivity |].
  destruct (BOOLEAN_accepted_stored_unchanged no_date) as [_ H].
  refine (H Demo.post_person 1 Demo.people_fields (Demo.field 3 1 "active" "BOOLEAN" false VNull)
            Demo.world _ _ _ _ _ _ _).
  - unfold Demo.people_fields. rewrite !elem_of_cons. auto.
  - reflexivity.
  - reflexivity.
  - vm_compute. reflexivity.
  - reflexivity.
Defined.

(** C4, as stated, fails: a create with the string "true" for a BOOLEAN
    field succeeds and stores the string "true", not the boolean. *)
Lemma create_stores_string_true_for_BOOLEAN :
  exists w' row,
    handleCreate no_date Demo.post_person 1 Demo.people_fields Demo.world
    = (Some (res_status_json 201 "Data created successfully."), w')
    /\ tbl_data_storage w' = tbl_data_storage Demo.world ++ [row]
    /\ data_storage.data row !! "active" = Some (VString "true")
    /\ data_storage.data row !! "active" <> Some (VBoolean true).
Proof.
  do 2 eexists. split; [vm_compute; reflexivity |]. split; [reflexivity |].
  split; [reflexivity | discriminate].
Qed.

(** ** Create *)






(** ** Update *)







(** ** Read *)

Lemma handleRead_records (req : Request) (endpoint_id : Z) (fields : list fields.row)
      (w : World) :
  calls_succeed 1 w = true ->
  handleRead req endpoint_id fields w
  = (Some (res_json (Records
       (map (fun row =>
               JSON_stringify
                 (spread {[ "data_id" := VNumber (Num.of_Z (data_storage.data_id row)) ]}
                         (JSON_parse (data_storage.data row))))
            (filter (fun r => data_storage.endpoint_id r =? endpoint_id)
                    (tbl_data_storage w))))),
     tick w).
Proof.
  intros H. unfold handleRead, select_data, try_catch, mbind, M_bind.
  rewrite query_run. rewrite calls_succeed_next in H.
  destruct (next_fails w); [discriminate |].
  destruct (tick_tables w) as (_ & _ & ->). unfold mret, M_ret. now rewrite map_map.
Qed.

(** The [data_id] of a returned record is the one of the payload when the
    payload has such a key, and the identity of the row otherwise. *)
Lemma record_data_id (identity : Z) (payload : Object) :
  JSON_stringify (spread {[ "data_id" := VNumber (Num.of_Z identity) ]} payload) !! "data_id"
  = match payload !! "data_id" with
    | Some v => JSON_value v
    | None => JSON_value (VNumber (Num.of_Z identity))
    end.
Proof.
  unfold JSON_stringify, spread. rewrite lookup_omap, lookup_union.
  destruct (payload !! "data_id") as [v |]; simpl.
  - now rewrite lookup_singleton_eq.
  - now rewrite lookup_singleton_eq.
Qed.

(** C1, at an input where the code departs from it: tenant 10 declares a
    field named [data_id] on [notes] and posts [{data_id: "x"}]; the
    document is stored under the generated identity 2, and the read-all
    that follows returns a record whose [data_id] is "x", the value of the
    payload, not the identity. *)
Theorem read_payload_data_id_shadows_identity :
  exists w1 w2,
    handleRequest no_date String.eqb numeric_id_equals Demo.post_note Demo.world
    = (Some (res_status_json 201 "Data created successfully."), w1)
    /\ map (fun r => (data_storage.data_id r, data_storage.endpoint_id r)) (tbl_data_storage w1)
       = [(1, 3); (2, 2)]
    /\ handleRequest no_date String.eqb numeric_id_equals Demo.get_notes w1
       = (Some (res_json (Records [ {[ "data_id" := VString "x" ]} ])), w2).
Proof.
  do 2 eexists. split; [vm_compute; reflexivity |]. split; vm_compute; reflexivity.
Qed.

(** ** The dispatcher *)

Lemma not_resolves_found (sql_name_equals : string -> string -> bool) (req : Request)
      (w : World) :
  ~ resolves sql_name_equals req w -> found sql_name_equals req w = [].
Proof.
  intros H. destruct (found sql_name_equals req w) as [| e l] eqn:E; [reflexivity |].
  exfalso. apply H, found_resolves. now rewrite E.
Qed.

(** C2.  Let every endpoint whose name the database takes for [X] belong
    to tenant [A], and no endpoint have a name it takes for [Y].  For a
    tenant [B] other than [A], a request for [X] has the very outcome of
    the same request for [Y], whatever the verb, the body and the query
    are: the same response and the same database; and when the lookup is
    answered, that response is the 404 of an endpoint that is not found. *)
Theorem foreign_endpoint_is_not_found (Date_parse : Value -> number)
        (sql_name_equals : string -> string -> bool)
        (sql_id_equals : Z -> string -> bool) (A B : Z) (X Y : string)
        (verb : string) (payload : Object) (id : option string) (w : World) :
  A <> B ->
  (forall e, e ∈ tbl_api_endpoints w ->
             sql_name_equals (api_endpoints.endpoint_name e) X = true ->
             api_endpoints.user_id e = A) ->
  (forall e, e ∈ tbl_api_endpoints w ->
             sql_name_equals (api_endpoints.endpoint_name e) Y = false) ->
  handleRequest Date_parse sql_name_equals sql_id_equals
    {| user_id := B; endpoint_name := X; method := verb; body := payload; query_id := id |} w
  = handleRequest Date_parse sql_name_equals sql_id_equals
      {| user_id := B; endpoint_name := Y; method := verb; body := payload; query_id := id |} w
  /\ (calls_succeed 1 w = true ->
      handleRequest Date_parse sql_name_equals sql_id_equals
        {| user_id := B; endpoint_name := X; method := verb; body := payload; query_id := id |} w
      = (Some (res_status_json 404 "API endpoint not found."), tick w)).
Proof.
  intros HAB HX HY.
  set (reqX := {| user_id := B; endpoint_name := X; method := verb; body := payload;
                  query_id := id |}).
  set (reqY := {| user_id := B; endpoint_name := Y; method := verb; body := payload;
                  query_id := id |}).
  assert (FX : found sql_name_equals reqX w = []).
  { apply not_resolves_found. intros (e & He & Hn & Hu). apply HAB.
    rewrite <- (HX e He Hn). exact Hu. }
  assert (FY : found sql_name_equals reqY w = []).
  { apply not_resolves_found. intros (e & He & Hn & _). simpl in Hn.
    rewrite (HY e He) in Hn. discriminate. }
  rewrite !handleRequest_run, FX, FY. split; [reflexivity |].
  rewrite calls_succeed_next. now destruct (next_fails w).
Qed.

Lemma foreign_endpoint_is_not_found_witness :
  (10 <> 20)%Z
  /\ Demo.endpoint 1 10 "people" ∈ tbl_api_endpoints Demo.world
  /\ calls_succeed 1 Demo.world = true
  /\ handleRequest no_date String.eqb numeric_id_equals
       (Demo.request 20 "people" "DELETE" ∅ (Some "1")) Demo.world
     = handleRequest no_date String.eqb numeric_id_equals
         (Demo.request 20 "ghosts" "DELETE" ∅ (Some "1")) Demo.world
  /\ handleRequest no_date String.eqb numeric_id_equals
       (Demo.request 20 "people" "DELETE" ∅ (Some "1")) Demo.world
     = (Some Demo.not_found, tick Demo.world).
Proof.
  split; [lia |]. split; [left |]. split; [reflexivity |].
  assert (HX : forall e, e ∈ tbl_api_endpoints Demo.world ->
                         String.eqb (api_endpoints.endpoint_name e) "people" = true ->
                         api_endpoints.user_id e = 10).
  { intros e He. simpl in He. rewrite !elem_of_cons, elem_of_nil in He.
    destruct He as [-> | [-> | [-> | []]]]; simpl; intros; congruence. }
  assert (HY : forall e, e ∈ tbl_api_endpoints Demo.world ->
                         String.eqb (api_endpoints.endpoint_name e) "ghosts" = false).
  { intros e He. simpl in He. rewrite !elem_of_cons, elem_of_nil in He.
    destruct He as [-> | [-> | [-> | []]]]; reflexivity. }
  destruct (foreign_endpoint_is_not_found no_date String.eqb numeric_id_equals 10 20
              "people" "ghosts" "DELETE" ∅ (Some "1") Demo.world ltac:(lia) HX HY)
    as [H1 H2].
  split; [exact H1 | exact (H2 eq_refl)].
Defined.

(** C3.  A request whose endpoint name does not resolve for its tenant is
    answered 404 under every verb, once the lookup is answered; an answer
    405 is given only to a request whose endpoint resolves and whose verb
    is none of GET, POST, PUT and DELETE; and such a request is answered
    405 once the two lookups are answered. *)
Theorem not_found_precedes_method_not_allowed (Date_parse : Value -> number)
        (sql_name_equals : string -> string -> bool)
        (sql_id_equals : Z -> string -> bool) (req : Request) (w : World) :
  (~ resolves sql_name_equals req w -> calls_succeed 1 w = true ->
   handleRequest Date_parse sql_name_equals sql_id_equals req w
   = (Some (res_status_json 404 "API endpoint not found."), tick w))
  /\ (forall res w',
         handleRequest Date_parse sql_name_equals sql_id_equals req w = (Some res, w') ->
         status res = 405 ->
         resolves sql_name_equals req w /\ Str.toUpperCase (method req) ∉ supported_methods)
  /\ (resolves sql_name_equals req w -> Str.toUpperCase (method req) ∉ supported_methods ->
      calls_succeed 2 w = true ->
      handleRequest Date_parse sql_name_equals sql_id_equals req w
      = (Some (res_status_json 405 "Method Not Allowed"), tick (tick w))).
Proof.
  rewrite handleRequest_run. split; [| split].
  - intros Hno Hok. rewrite calls_succeed_next in Hok.
    destruct (next_fails w); [discriminate |]. now rewrite (not_resolves_found _ _ _ Hno).
  - intros res w'. destruct (next_fails w); [intros [= <- <-]; discriminate |].
    destruct (found sql_name_equals req w) as [| endpoint l] eqn:Hfound;
      [intros [= <- <-]; discriminate |].
    destruct (next_fails (tick w)); [intros [= <- <-]; discriminate |].
    unfold try_catch.
    destruct (switch_method _ _ _ _ _ _ _) as [[r |] w2] eqn:Hswitch;
      intros [= <- <-]; [| discriminate].
    intros Hs. split.
    + apply found_resolves. now rewrite Hfound.
    + eapply switch_method_status; eauto.
  - intros Hres Hverb Hok. apply calls_succeed_tick in Hok as [H1 H2].
    rewrite calls_succeed_next in H1, H2.
    destruct (next_fails w); [discriminate |].
    destruct (found sql_name_equals req w) as [| endpoint l] eqn:Hfound.
    { apply found_resolves in Hres. congruence. }
    destruct (next_fails (tick w)); [discriminate |].
    unfold try_catch. now rewrite switch_method_unsupported.
Qed.

Lemma not_found_precedes_method_not_allowed_witness :
  (~ resolves String.eqb (Demo.request 20 "people" "PATCH" ∅ None) Demo.world)
  /\ resolves String.eqb (Demo.request 10 "people" "PATCH" ∅ None) Demo.world
  /\ (Str.toUpperCase "PATCH" ∉ supported_methods)
  /\ calls_succeed 2 Demo.world = true
  /\ handleRequest no_date String.eqb numeric_id_equals
       (Demo.request 20 "people" "PATCH" ∅ None) Demo.world
     = (Some Demo.not_found, tick Demo.world)
  /\ handleRequest no_date String.eqb numeric_id_equals
       (Demo.request 10 "people" "PATCH" ∅ None) Demo.world
     = (Some Demo.not_allowed, tick (tick Demo.world)).
Proof.
  assert (Hno : ~ resolves String.eqb (Demo.request 20 "people" "PATCH" ∅ None) Demo.world).
  { intros (e & He & Hn & Hu). simpl in He, Hn, Hu.
    rewrite !elem_of_cons, elem_of_nil in He.
    destruct He as [-> | [-> | [-> | []]]]; simpl in *; congruence. }
  assert (Hyes : resolves String.eqb (Demo.request 10 "people" "PATCH" ∅ None) Demo.world).
  { exists (Demo.endpoint 1 10 "people"). split; [left | split; reflexivity]. }
  assert (Hverb : Str.toUpperCase "PATCH" ∉ supported_methods).
  { unfold supported_methods. rewrite !elem_of_cons, elem_of_nil.
    intros [H | [H | [H | [H | []]]]]; discriminate. }
  split; [exact Hno |]. split; [exact Hyes |]. split; [exact Hverb |].
  split; [reflexivity |]. split.
  - exact (proj1 (not_found_precedes_method_not_allowed no_date String.eqb numeric_id_equals _ _)
             Hno eq_refl).
  - exact (proj2 (proj2 (not_found_precedes_method_not_allowed
                           no_date String.eqb numeric_id_equals _ _))
             Hyes Hverb eq_refl).
Defined.

(* ===================================================================== *)
(** * Further properties of the controller *)
(* ===================================================================== *)

(** ** What a computation keeps *)

Section Keeps.

Variable P : World -> World -> Prop.
Hypothesis P_refl : forall w, P w w.
Hypothesis P_trans : forall w1 w2 w3, P w1 w2 -> P w2 w3 -> P w1 w3.
Hypothesis P_failures : forall w fs, P w (with_failures w fs).

Lemma keeps_mret {A} (a : A) : keeps P (mret a).
Proof. intros w r w' [= <- <-]. apply P_refl. Qed.

Lemma keeps_throw {A} : keeps P (@throw A).
Proof. intros w r w' [= <- <-]. apply P_refl. Qed.

Lemma keeps_bind {A B} (m : M A) (k : A -> M B) :
  keeps P m -> (forall a, keeps P (k a)) -> keeps P (m ≫= k).
Proof.
  intros Hm Hk w r w'. unfold mbind, M_bind.
  destruct (m w) as [[a |] w1] eqn:E.
  - intros H. exact (P_trans _ _ _ (Hm _ _ _ E) (Hk a _ _ _ H)).
  - intros [= <- <-]. exact (Hm _ _ _ E).
Qed.

Lemma keeps_try_catch {A} (body handler : M A) :
  keeps P body -> keeps P handler -> keeps P (try_catch body handler).
Proof.
  intros Hb Hh w r w'. unfold try_catch.
  destruct (body w) as [[a |] w1] eqn:E.
  - intros [= <- <-]. exact (Hb _ _ _ E).
  - intros H. exact (P_trans _ _ _ (Hb _ _ _ E) (Hh _ _ _ H)).
Qed.

Lemma keeps_execute {A} (statement : World -> A * World) :
  (forall w, P w (statement w).2) -> keeps P (execute statement).
Proof.
  intros Hs w r w'. unfold execute.
  destruct (failures w) as [| [] fs].
  - specialize (Hs w). destruct (statement w) as [a w1]. now intros [= <- <-].
  - intros [= <- <-]. apply P_failures.
  - specialize (Hs (with_failures w fs)).
    destruct (statement (with_failures w fs)) as [a w1]. intros [= <- <-].
    exact (P_trans _ _ _ (P_failures w fs) Hs).
Qed.

Lemma keeps_query {A} (read : World -> A) : keeps P (query read).
Proof. apply keeps_execute. intros w. apply P_refl. Qed.

Lemma P_tick (w : World) : P w (tick w).
Proof. unfold tick. destruct (failures w); [apply P_refl | apply P_failures]. Qed.

Variable Date_parse : Value -> number.
Variable sql_name_equals : string -> string -> bool.
Variable sql_id_equals : Z -> string -> bool.

(** The endpoints for which the three statements that write keep [P]. *)
Variable writable : Z -> Prop.

Hypothesis P_insert : forall endpoint_id data w,
  writable endpoint_id ->
  P w (with_data_storage w
         (tbl_data_storage w ++
            [ {| data_storage.data_id := auto_increment w;
                 data_storage.endpoint_id := endpoint_id;
                 data_storage.data := data |} ])
         (auto_increment w + 1)).

Hypothesis P_update : forall endpoint_id data identifier w,
  writable endpoint_id ->
  P w (with_data_storage w
         (map (fun r => if matches sql_id_equals identifier endpoint_id r
                        then data_storage.with_data r data else r)
              (tbl_data_storage w))
         (auto_increment w)).

Hypothesis P_delete : forall endpoint_id identifier w,
  writable endpoint_id ->
  P w (with_data_storage w
         (filter (fun r => negb (matches sql_id_equals identifier endpoint_id r))
                 (tbl_data_storage w))
         (auto_increment w)).

Lemma keeps_handleRead (req : Request) (endpoint_id : Z) (fields : list fields.row) :
  keeps P (handleRead req endpoint_id fields).
Proof.
  apply keeps_try_catch; [| apply keeps_mret].
  apply keeps_bind; [apply keeps_query | intros rows; apply keeps_mret].
Qed.

Lemma keeps_handleCreate (req : Request) (endpoint_id : Z) (fields : list fields.row) :
  writable endpoint_id -> keeps P (handleCreate Date_parse req endpoint_id fields).
Proof.
  intros Hw. unfold handleCreate.
  destruct (create_loop _ _ _ _) as [[r | jsonData] |];
    [apply keeps_mret | | apply keeps_throw].
  apply keeps_try_catch; [| apply keeps_mret].
  apply keeps_bind; [| intros []; apply keeps_mret].
  apply keeps_execute. intros w. now apply P_insert.
Qed.

Lemma keeps_handleUpdate (req : Request) (endpoint_id : Z) (fields : list fields.row) :
  writable endpoint_id ->
  keeps P (handleUpdate Date_parse sql_id_equals req endpoint_id fields).
Proof.
  intros Hw. unfold handleUpdate. destruct (falsy _); [apply keeps_mret |].
  apply keeps_bind; [apply keeps_query |]. intros [| row0 rest]; [apply keeps_mret |].
  destruct (update_loop _ _ _ _) as [[r | result] |];
    [apply keeps_mret | | apply keeps_throw].
  apply keeps_try_catch; [| apply keeps_mret].
  apply keeps_bind; [| intros []; apply keeps_mret].
  apply keeps_execute. intros w. now apply P_update.
Qed.

Lemma keeps_handleDelete (req : Request) (endpoint_id : Z) (fields : list fields.row) :
  writable endpoint_id -> keeps P (handleDelete sql_id_equals req endpoint_id fields).
Proof.
  intros Hw. unfold handleDelete. destruct (falsy _); [apply keeps_mret |].
  apply keeps_try_catch; [| apply keeps_mret].
  apply keeps_bind.
  - apply keeps_execute. intros w. now apply P_delete.
  - intros n. destruct (n =? 0); apply keeps_mret.
Qed.

Lemma keeps_switch_method (http_method : string) (req : Request)
      (endpoint : api_endpoints.row) (fields : list fields.row) :
  writable (api_endpoints.endpoint_id endpoint) ->
  keeps P (switch_method Date_parse sql_id_equals http_method req endpoint fields).
Proof.
  intros Hw. unfold switch_method.
  destruct (String.eqb _ "GET"); [apply keeps_handleRead |].
  destruct (String.eqb _ "POST"); [now apply keeps_handleCreate |].
  destruct (String.eqb _ "PUT"); [now apply keeps_handleUpdate |].
  destruct (String.eqb _ "DELETE"); [now apply keeps_handleDelete |].
  apply keeps_mret.
Qed.

Lemma keeps_handleRequest (req : Request) (w : World) :
  (forall e l, found sql_name_equals req w = e :: l ->
               writable (api_endpoints.endpoint_id e)) ->
  P w (handleRequest Date_parse sql_name_equals sql_id_equals req w).2.
Proof.
  intros Hw. rewrite handleRequest_run.
  destruct (next_fails w); [apply P_tick |].
  destruct (found sql_name_equals req w) as [| e l]; [apply P_tick |].
  assert (P2 : P w (tick (tick w))) by exact (P_trans _ _ _ (P_tick w) (P_tick (tick w))).
  destruct (next_fails (tick w)); [exact P2 |].
  apply (P_trans _ _ _ P2).
  destruct (try_catch _ _ _) as [r w'] eqn:E. simpl.
  revert E. apply keeps_try_catch; [| apply keeps_mret].
  apply keeps_switch_method. now apply (Hw e l).
Qed.

End Keeps.

(** ** Filters on the rows of [data_storage] *)

Lemma filter_bool_cons {A} (b : A -> bool) (x : A) (l : list A) :
  filter (fun y => b y) (x :: l)
  = if b x then x :: filter (fun y => b y) l else filter (fun y => b y) l.
Proof.
  rewrite filter_cons. case_decide as H; destruct (b x); simpl in H;
    try reflexivity; now exfalso.
Qed.

Lemma of_endpoint_insert (other endpoint_id : Z) (rows : list data_storage.row)
      (row : data_storage.row) :
  data_storage.endpoint_id row = endpoint_id ->
  of_endpoint other (rows ++ [row])
  = of_endpoint other rows ++ (if endpoint_id =? other then [row] else []).
Proof.
  intros <-. unfold of_endpoint. rewrite filter_app, filter_bool_cons, filter_nil.
  reflexivity.
Qed.

Lemma of_endpoint_update (sql_id_equals : Z -> string -> bool) (other endpoint_id : Z)
      (identifier : string) (data : JSON_text) (rows : list data_storage.row) :
  endpoint_id <> other ->
  of_endpoint other
    (map (fun r => if matches sql_id_equals identifier endpoint_id r
                   then data_storage.with_data r data else r) rows)
  = of_endpoint other rows.
Proof.
  intros Hne. unfold of_endpoint. induction rows as [| r rows IH]; [reflexivity |].
  simpl map. rewrite !filter_bool_cons, IH.
  destruct (matches sql_id_equals identifier endpoint_id r) eqn:Hm; [| reflexivity].
  apply andb_true_iff in Hm as [_ He]. apply Z.eqb_eq in He. simpl.
  rewrite He. now destruct (Z.eqb_spec endpoint_id other).
Qed.

Lemma of_endpoint_delete (sql_id_equals : Z -> string -> bool) (other endpoint_id : Z)
      (identifier : string) (rows : list data_storage.row) :
  endpoint_id <> other ->
  of_endpoint other
    (filter (fun r => negb (matches sql_id_equals identifier endpoint_id r)) rows)
  = of_endpoint other rows.
Proof.
  intros Hne. unfold of_endpoint. induction rows as [| r rows IH]; [reflexivity |].
  rewrite (filter_bool_cons (fun r => negb (matches sql_id_equals identifier endpoint_id r))).
  rewrite (filter_bool_cons (fun r => data_storage.endpoint_id r =? other) r rows).
  destruct (matches sql_id_equals identifier endpoint_id r) eqn:Hm; simpl.
  - apply andb_true_iff in Hm as [_ He]. apply Z.eqb_eq in He.
    rewrite He. destruct (Z.eqb_spec endpoint_id other); [contradiction | exact IH].
  - rewrite filter_bool_cons, IH. reflexivity.
Qed.

(** ** What no request does *)

(** X1.  Whatever the request and its outcome, the dispatcher leaves the
    tables [api_endpoints] and [fields] as they are: it reads the schema
    and never writes it. *)
Theorem schema_is_read_only (Date_parse : Value -> number)
        (sql_name_equals : string -> string -> bool)
        (sql_id_equals : Z -> string -> bool) (req : Request) (w : World) :
  tbl_api_endpoints (handleRequest Date_parse sql_name_equals sql_id_equals req w).2
  = tbl_api_endpoints w
  /\ tbl_fields (handleRequest Date_parse sql_name_equals sql_id_equals req w).2
     = tbl_fields w.
Proof.
  apply (keeps_handleRequest
           (fun w w' => tbl_api_endpoints w' = tbl_api_endpoints w
                        /\ tbl_fields w' = tbl_fields w))
    with (writable := fun _ => True); try (intros; split; reflexivity).
  intros w1 w2 w3 [H1 H2] [H3 H4]. split; congruence.
Qed.

(** X2.  A request changes no document of an endpoint other than the one
    it resolves to: the rows of [data_storage] of any other endpoint are
    after the request what they were before, whatever the outcome. *)
Theorem other_endpoints_untouched (Date_parse : Value -> number)
        (sql_name_equals : string -> string -> bool)
        (sql_id_equals : Z -> string -> bool) (req : Request) (w : World) (other : Z) :
  (forall e l, found sql_name_equals req w = e :: l ->
               api_endpoints.endpoint_id e <> other) ->
  of_endpoint other
    (tbl_data_storage (handleRequest Date_parse sql_name_equals sql_id_equals req w).2)
  = of_endpoint other (tbl_data_storage w).
Proof.
  intros Hother.
  apply (keeps_handleRequest
           (fun w w' => of_endpoint other (tbl_data_storage w')
                        = of_endpoint other (tbl_data_storage w)))
    with (writable := fun endpoint_id => endpoint_id <> other); try reflexivity.
  - intros w1 w2 w3 H1 H2. congruence.
  - intros endpoint_id data w0 Hne. simpl.
    rewrite (of_endpoint_insert other endpoint_id) by reflexivity.
    destruct (Z.eqb_spec endpoint_id other); [contradiction | apply app_nil_r].
  - intros endpoint_id data identifier w0 Hne. simpl. now apply of_endpoint_update.
  - intros endpoint_id identifier w0 Hne. simpl. now apply of_endpoint_delete.
  - exact Hother.
Qed.

Lemma other_endpoints_untouched_witness :
  (forall e l, found String.eqb Trial.delete_task Demo.world = e :: l ->
               api_endpoints.endpoint_id e <> 1)
  /\ of_endpoint 1
       (tbl_data_storage (handleRequest no_date String.eqb numeric_id_equals
                            Trial.delete_task Demo.world).2)
     = of_endpoint 1 (tbl_data_storage Demo.world).
Proof.
  assert (H : forall e l, found String.eqb Trial.delete_task Demo.world = e :: l ->
                          api_endpoints.endpoint_id e <> 1).
  { intros e l. vm_compute. intros [= <- _]. discriminate. }
  split; [exact H |].
  exact (other_endpoints_untouched no_date String.eqb numeric_id_equals _ _ _ H).
Defined.

(** X3.  The dispatcher never throws, and the status of its response is one
    of 200, 201, 400, 404, 405 and 500. *)
Theorem handleRequest_answers (Date_parse : Value -> number)
        (sql_name_equals : string -> string -> bool)
        (sql_id_equals : Z -> string -> bool) (req : Request) (w : World) :
  exists res,
    (handleRequest Date_parse sql_name_equals sql_id_equals req w).1 = Some res
    /\ status res ∈ statuses.
Proof.
  rewrite handleRequest_run. unfold statuses.
  destruct (next_fails w); [eexists; split; [reflexivity | simpl; rewrite !elem_of_cons; auto 10] |].
  destruct (found sql_name_equals req w) as [| e l];
    [eexists; split; [reflexivity | simpl; rewrite !elem_of_cons; auto 10] |].
  destruct (next_fails (tick w));
    [eexists; split; [reflexivity | simpl; rewrite !elem_of_cons; auto 10] |].
  unfold try_catch.
  destruct (switch_method _ _ _ _ _ _ _) as [[r |] w2] eqn:E;
    [| eexists; split; [reflexivity | simpl; rewrite !elem_of_cons; auto 10]].
  exists r. split; [reflexivity |]. revert E. unfold switch_method.
  destruct (String.eqb _ "GET").
  { intros H%handleRead_status. rewrite !elem_of_cons in *. tauto. }
  destruct (String.eqb _ "POST").
  { intros H%handleCreate_status. rewrite !elem_of_cons in *. tauto. }
  destruct (String.eqb _ "PUT").
  { intros H%handleUpdate_status. rewrite !elem_of_cons in *. tauto. }
  destruct (String.eqb _ "DELETE").
  { intros H%handleDelete_status. rewrite !elem_of_cons in *. tauto. }
  intros [= <- _]. simpl. rewrite !elem_of_cons. auto 10.
Qed.

(** X4.  What the handlers throw.  [handleRead] and [handleDelete] never
    throw.  [handleCreate] throws exactly when its loop, which stands before
    its [try], reaches a field on whose value the validator throws, the
    fields before it passing.  [handleUpdate] throws exactly when it has an
    identifier and either its lookup of the document, which stands before
    its [try], fails, or the lookup finds a row and the loop reaches a field
    on whose value the validator throws. *)
Theorem what_the_handlers_throw (Date_parse : Value -> number)
        (sql_id_equals : Z -> string -> bool) (req : Request) (endpoint_id : Z)
        (fields : list fields.row) (w : World) :
  (handleRead req endpoint_id fields w).1 <> None
  /\ (handleDelete sql_id_equals req endpoint_id fields w).1 <> None
  /\ ((handleCreate Date_parse req endpoint_id fields w).1 = None
      <-> exists pre field post,
            fields = pre ++ field :: post
            /\ Forall (fun g => field_check Date_parse (body req) g = Passes) pre
            /\ field_check Date_parse (body req) field = Throws)
  /\ ((handleUpdate Date_parse sql_id_equals req endpoint_id fields w).1 = None
      <-> falsy (query_id req) = false
          /\ (next_fails w = true
              \/ exists row0 rest pre field post,
                   filter (fun r => matches sql_id_equals (bound (query_id req)) endpoint_id r)
                          (tbl_data_storage w) = row0 :: rest
                   /\ fields = pre ++ field :: post
                   /\ Forall (fun g => update_check Date_parse (body req) g = Passes) pre
                   /\ update_check Date_parse (body req) field = Throws)).
Proof.
  split; [| split; [| split]].
  - unfold handleRead, select_data. run_pool w; discriminate.
  - unfold handleDelete, delete_data. destruct (falsy _); [discriminate |].
    run_pool w; try (destruct (_ =? 0)); discriminate.
  - rewrite handleCreate_run.
    pose proof (create_loop_stops Date_parse (body req) fields ∅) as Hstop.
    destruct (create_loop Date_parse (body req) fields ∅) as [[res | jsonData] |] eqn:Hloop.
    + split; [discriminate |]. intros (pre & f & post & -> & Hpre & Hf).
      now rewrite (create_loop_first_throw _ _ _ _ _ Hpre Hf) in Hloop.
    + split; [destruct (next_fails w); discriminate |].
      intros (pre & f & post & -> & Hpre & Hf).
      now rewrite (create_loop_first_throw _ _ _ _ _ Hpre Hf) in Hloop.
    + split; [intros _; exact Hstop | reflexivity].
  - destruct (falsy (query_id req)) eqn:Hid.
    { unfold handleUpdate. rewrite Hid. split; [discriminate | intros [[=] _]]. }
    rewrite (handleUpdate_run _ _ _ _ _ _ Hid).
    destruct (next_fails w); [split; auto |].
    change (filter (matches sql_id_equals (bound (query_id req)) endpoint_id)
                   (tbl_data_storage w))
      with (filter (fun r => matches sql_id_equals (bound (query_id req)) endpoint_id r)
                   (tbl_data_storage w)).
    destruct (filter _ _) as [| row0 rest] eqn:Hrows.
    { split; [discriminate |]. intros [_ [[=] | (r0 & l & _ & _ & _ & [=] & _)]]. }
    pose proof (update_loop_stops Date_parse (body req) fields
                  (JSON_parse (data_storage.data row0))) as Hstop.
    destruct (update_loop _ _ _ _) as [[res | result] |] eqn:Hloop.
    + split; [discriminate |].
      intros [_ [[=] | (r0 & l & pre & f & post & [= <- <-] & -> & Hpre & Hf)]].
      now rewrite (update_loop_first_throw _ _ _ _ _ Hpre Hf) in Hloop.
    + split; [destruct (next_fails (tick w)); discriminate |].
      intros [_ [[=] | (r0 & l & pre & f & post & [= <- <-] & -> & Hpre & Hf)]].
      now rewrite (update_loop_first_throw _ _ _ _ _ Hpre Hf) in Hloop.
    + split; [| reflexivity]. intros _. split; [reflexivity |]. right.
      destruct Hstop as (pre & f & post & -> & Hpre & Hf).
      exists row0, rest, pre, f, post. auto.
Qed.

Lemma what_the_handlers_throw_witness :
  (handleUpdate no_date numeric_id_equals Demo.put_b 3 Demo.tasks_fields
     Trial.failing_world).1 = None
  /\ (handleCreate no_date Trial.post_object_age 1 Demo.people_fields Demo.world).1 = None.
Proof.
  split.
  - apply (what_the_handlers_throw no_date numeric_id_equals Demo.put_b 3
             Demo.tasks_fields Trial.failing_world).
    split; [reflexivity | left; reflexivity].
  - apply (what_the_handlers_throw no_date numeric_id_equals Trial.post_object_age 1
             Demo.people_fields Demo.world).
    exists [], (Demo.field 1 1 "age" "INT" true VNull),
      [ Demo.field 2 1 "status" "VARCHAR" true (VString "active");
        Demo.field 3 1 "active" "BOOLEAN" false VNull ].
    split; [reflexivity |]. split; [constructor | reflexivity].
Defined.

(** ** Create: what is stored *)

(** What holds of the values the loop writes holds of all of [jsonData]. *)
Lemma create_loop_invariant (Date_parse : Value -> number) (I : string -> Value -> Prop)
      (data : Object) (fields : list fields.row) :
  (forall f, f ∈ fields ->
             present (get data (fields.field_name f)) = true ->
             validateDataType Date_parse (get data (fields.field_name f))
                              (fields.data_type f) = true ->
             I (fields.field_name f) (get data (fields.field_name f))) ->
  (forall f, f ∈ fields ->
             present (get data (fields.field_name f)) = false ->
             I (fields.field_name f) (fields.default_value f)) ->
  forall jsonData result,
    (forall k v, jsonData !! k = Some v -> I k v) ->
    create_loop Date_parse data fields jsonData = Some (inr result) ->
    forall k v, result !! k = Some v -> I k v.
Proof.
  induction fields as [| g rest IH]; intros Hbody Hdefault jsonData result Hacc.
  - now intros [= <-].
  - rewrite create_loop_cons.
    destruct (field_check Date_parse data g) eqn:Hg; try discriminate.
    apply IH.
    + intros f Hf. apply Hbody. now right.
    + intros f Hf. apply Hdefault. now right.
    + intros k v. unfold create_step. rewrite !put_takes.
      destruct (present (get data (fields.field_name g))) eqn:Hp.
      * destruct (takes jsonData (fields.field_name g)); [| apply Hacc].
        destruct (decide (fields.field_name g = k)) as [<- | Hne].
        -- rewrite lookup_insert_eq. intros [= <-].
           apply Hbody; [left | exact Hp | now apply field_check_Passes].
        -- rewrite lookup_insert_ne by exact Hne. apply Hacc.
      * destruct (fields.default_value g !== VNull); [| apply Hacc].
        destruct (takes jsonData (fields.field_name g)); [| apply Hacc].
        destruct (decide (fields.field_name g = k)) as [<- | Hne].
        -- rewrite lookup_insert_eq. intros [= <-]. apply Hdefault; [left | exact Hp].
        -- rewrite lookup_insert_ne by exact Hne. apply Hacc.
Qed.

Lemma create_loop_untouched (Date_parse : Value -> number) (data : Object)
      (fields : list fields.row) (k : string) :
  (forall g, g ∈ fields -> fields.field_name g <> k) ->
  forall jsonData result,
    create_loop Date_parse data fields jsonData = Some (inr result) ->
    result !! k = jsonData !! k.
Proof.
  induction fields as [| g rest IH]; intros Hk jsonData result.
  - now intros [= <-].
  - rewrite create_loop_cons. destruct (field_check Date_parse data g); try discriminate.
    intros H. rewrite (IH (fun f Hf => Hk f (proj2 (elem_of_cons _ _ _) (or_intror Hf))) _ _ H).
    assert (Hne : fields.field_name g <> k) by (apply Hk; left).
    unfold create_step.
    destruct (present _); [| destruct (_ !== _)];
      rewrite ?put_ne by exact Hne; reflexivity.
Qed.

Lemma create_loop_field (Date_parse : Value -> number) (data : Object)
      (fields : list fields.row) (f : fields.row) :
  NoDup (map fields.field_name fields) ->
  f ∈ fields ->
  fields.field_name f <> "__proto__" ->
  forall jsonData result,
    create_loop Date_parse data fields jsonData = Some (inr result) ->
    result !! fields.field_name f
    = if present (get data (fields.field_name f)) then Some (get data (fields.field_name f))
      else if fields.default_value f !== VNull then Some (fields.default_value f)
      else jsonData !! fields.field_name f.
Proof.
  intros Hnd Hin Hname. revert Hnd Hin.
  induction fields as [| g rest IH]; intros Hnd Hin jsonData result.
  - now apply not_elem_of_nil in Hin.
  - simpl in Hnd. apply NoDup_cons in Hnd as [Hg Hnd].
    rewrite create_loop_cons. destruct (field_check Date_parse data g); try discriminate.
    intros H. apply elem_of_cons in Hin as [-> | Hin].
    + rewrite (create_loop_untouched _ _ _ (fields.field_name g)) with (2 := H).
      * unfold create_step.
        destruct (present _); [| destruct (_ !== _)];
          rewrite ?put_eq by exact Hname; reflexivity.
      * intros g' Hg' Heq. apply Hg. rewrite <- Heq.
        apply list_elem_of_fmap. now exists g'.
    + rewrite (IH Hnd Hin _ _ H).
      assert (Hne : fields.field_name g <> fields.field_name f).
      { intros Heq. apply Hg. rewrite Heq. apply list_elem_of_fmap. now exists f. }
      unfold create_step.
      destruct (present (get data (fields.field_name f))); [reflexivity |].
      destruct (fields.default_value f !== VNull); [reflexivity |].
      destruct (present _); [| destruct (_ !== _)];
        rewrite ?put_ne by exact Hne; reflexivity.
Qed.

Lemma create_loop_passes (Date_parse : Value -> number) (data : Object)
      (fields : list fields.row) :
  forall jsonData,
    Forall (fun g => field_check Date_parse data g = Passes) fields
    <-> exists result, create_loop Date_parse data fields jsonData = Some (inr result).
Proof.
  induction fields as [| g rest IH]; intros jsonData.
  - split; [now eexists | constructor].
  - rewrite create_loop_cons, Forall_cons.
    destruct (field_check Date_parse data g).
    + rewrite <- IH. tauto.
    + split; [intros [[=] _] | intros [r [=]]].
    + split; [intros [[=] _] | intros [r [=]]].
Qed.

(** X5.  A create that answers 201 has appended one row, under the next
    identity and the endpoint of the request; every key of its payload is
    the name of a declared field (a key of the body that no field declares
    is dropped), and its value is the value of the body for that key, which
    then is neither [null] nor empty, or else the default of a field of that
    name. *)
Theorem create_stores_declared_keys (Date_parse : Value -> number) (req : Request)
        (endpoint_id : Z) (fields : list fields.row) (w w' : World) (res : Response) :
  handleCreate Date_parse req endpoint_id fields w = (Some res, w') ->
  status res = 201 ->
  exists row,
    tbl_data_storage w' = tbl_data_storage w ++ [row]
    /\ data_storage.data_id row = auto_increment w
    /\ data_storage.endpoint_id row = endpoint_id
    /\ forall k v,
         data_storage.data row !! k = Some v ->
         declared fields k
         /\ ((present (get (body req) k) = true /\ JSON_value (get (body req) k) = Some v)
             \/ (present (get (body req) k) = false
                 /\ exists f, f ∈ fields /\ fields.field_name f = k
                              /\ JSON_value (fields.default_value f) = Some v)).
Proof.
  intros Hrun Hs.
  apply handleCreate_cases in Hrun
    as [([=] & _) | [(r & [= ->] & Hloop & _) | (jsonData & Hloop & Hrun)]].
  { apply create_loop_error_status in Hloop as (f & m & _ & _ & ->). discriminate. }
  destruct Hrun as [[_ Htbl] | [[= ->] _]]; [| discriminate].
  eexists. split; [exact Htbl |]. split; [reflexivity |]. split; [reflexivity |].
  simpl. intros k v. unfold JSON_stringify. rewrite lookup_omap.
  destruct (jsonData !! k) as [u |] eqn:Hk; [simpl | discriminate]. intros Hv.
  revert k u Hk v Hv.
  apply (create_loop_invariant Date_parse
           (fun k u => forall v, JSON_value u = Some v ->
              declared fields k
              /\ ((present (get (body req) k) = true /\ JSON_value (get (body req) k) = Some v)
                  \/ (present (get (body req) k) = false
                      /\ exists f, f ∈ fields /\ fields.field_name f = k
                                   /\ JSON_value (fields.default_value f) = Some v)))
           (body req) fields) with (jsonData := ∅) (4 := Hloop).
  - intros f Hf Hp _ v Hv. split; [now exists f | left; auto].
  - intros f Hf Hp v Hv. split; [now exists f |]. right. split; [exact Hp |]. now exists f.
  - intros k u. rewrite lookup_empty. discriminate.
Qed.

Lemma create_stores_declared_keys_witness :
  exists w' row,
    handleCreate no_date Trial.post_extra 4 (take 2 Trial.stock_fields) Demo.world
    = (Some (res_status_json 201 "Data created successfully."), w')
    /\ tbl_data_storage w' = tbl_data_storage Demo.world ++ [row]
    /\ data_storage.data row !! "colour" = None.
Proof.
  assert (H : handleCreate no_date Trial.post_extra 4 (take 2 Trial.stock_fields) Demo.world
              = (Some (res_status_json 201 "Data created successfully."),
                 (handleCreate no_date Trial.post_extra 4 (take 2 Trial.stock_fields)
                    Demo.world).2))
    by (vm_compute; reflexivity).
  destruct (create_stores_declared_keys no_date _ _ _ _ _ _ H eq_refl)
    as (row & Htbl & _ & _ & Hkeys).
  exists (handleCreate no_date Trial.post_extra 4 (take 2 Trial.stock_fields) Demo.world).2, row.
  split; [exact H |]. split; [exact Htbl |].
  destruct (data_storage.data row !! "colour") as [v |] eqn:E; [| reflexivity].
  destruct (Hkeys _ _ E) as [(f & Hf & Hn) _]. exfalso.
  simpl in Hf. rewrite !elem_of_cons, elem_of_nil in Hf.
  destruct Hf as [-> | [-> | []]]; discriminate.
Defined.

(** X6.  When the names of the fields are distinct and a create answers
    201, a field for which the body has [undefined], [null] or the empty
    string holds its default in the stored payload, whatever the declared
    type of the field is (the default is not checked against it), and is
    left out of the payload when its default is [null]; under the name
    [__proto__] nothing is stored. *)
Theorem default_is_stored_unchecked (Date_parse : Value -> number) (req : Request)
        (endpoint_id : Z) (fields : list fields.row) (f : fields.row) (w w' : World)
        (res : Response) :
  NoDup (map fields.field_name fields) ->
  f ∈ fields ->
  missing (get (body req) (fields.field_name f)) = true ->
  handleCreate Date_parse req endpoint_id fields w = (Some res, w') ->
  status res = 201 ->
  exists row,
    tbl_data_storage w' = tbl_data_storage w ++ [row]
    /\ data_storage.data row !! fields.field_name f
       = if String.eqb (fields.field_name f) "__proto__" then None
         else if fields.default_value f !== VNull then JSON_value (fields.default_value f)
         else None.
Proof.
  intros Hnd Hin Hmiss Hrun Hs.
  apply handleCreate_cases in Hrun
    as [([=] & _) | [(r & [= ->] & Hloop & _) | (jsonData & Hloop & Hrun)]].
  { apply create_loop_error_status in Hloop as (g & m & _ & _ & ->). discriminate. }
  destruct Hrun as [[_ Htbl] | [[= ->] _]]; [| discriminate].
  eexists. split; [exact Htbl |]. simpl.
  unfold JSON_stringify. rewrite lookup_omap.
  destruct (String.eqb_spec (fields.field_name f) "__proto__") as [-> | Hname].
  { now rewrite (create_loop_proto _ _ _ _ _ Hloop). }
  rewrite (create_loop_field _ _ _ _ Hnd Hin Hname _ _ Hloop).
  rewrite missing_present in Hmiss. apply negb_true_iff in Hmiss. rewrite Hmiss.
  destruct (fields.default_value f !== VNull); [reflexivity |]. now rewrite lookup_empty.
Qed.

Lemma default_is_stored_unchecked_witness :
  NoDup (map fields.field_name (take 2 Trial.stock_fields))
  /\ validateDataType no_date (VString "n/a") "INT" = false
  /\ exists w' row,
       handleCreate no_date Trial.post_empty 4 (take 2 Trial.stock_fields) Demo.world
       = (Some (res_status_json 201 "Data created successfully."), w')
       /\ tbl_data_storage w' = tbl_data_storage Demo.world ++ [row]
       /\ data_storage.data row !! "count" = Some (VString "n/a").
Proof.
  assert (Hnd : NoDup (map fields.field_name (take 2 Trial.stock_fields))).
  { simpl. repeat (apply NoDup_cons; split);
      [rewrite !elem_of_cons, elem_of_nil; intros [[=] | []]
      | rewrite elem_of_nil; tauto | apply NoDup_nil_2]. }
  split; [exact Hnd |]. split; [reflexivity |].
  assert (H : handleCreate no_date Trial.post_empty 4 (take 2 Trial.stock_fields) Demo.world
              = (Some (res_status_json 201 "Data created successfully."),
                 (handleCreate no_date Trial.post_empty 4 (take 2 Trial.stock_fields)
                    Demo.world).2))
    by (vm_compute; reflexivity).
  destruct (default_is_stored_unchecked no_date Trial.post_empty 4
              (take 2 Trial.stock_fields) (Demo.field 7 4 "count" "INT" false (VString "n/a"))
              Demo.world _ _ Hnd ltac:(left) eq_refl H eq_refl) as (row & Htbl & Hrow).
  eexists _, row. split; [exact H |]. split; [exact Htbl | exact Hrow].
Defined.

(** X7.  When the INSERT is answered, a create answers 201 exactly when
    every field of the schema passes the checks of the loop: it is not
    required and missing, and the validator, if the field has a value,
    returns true for it. *)
Theorem create_accepts_iff_fields_pass (Date_parse : Value -> number) (req : Request)
        (endpoint_id : Z) (fields : list fields.row) (w : World) :
  calls_succeed 1 w = true ->
  (Forall (fun g => field_check Date_parse (body req) g = Passes) fields
   <-> (handleCreate Date_parse req endpoint_id fields w).1
       = Some (res_status_json 201 "Data created successfully.")).
Proof.
  intros Hok. rewrite (create_loop_passes Date_parse (body req) fields ∅).
  rewrite handleCreate_run.
  destruct (create_loop Date_parse (body req) fields ∅) as [[r | jsonData] |] eqn:Hloop.
  - apply create_loop_error_status in Hloop as (f & m & _ & _ & ->).
    split; [intros [x [=]] | discriminate].
  - split; [intros _ | now eexists].
    rewrite calls_succeed_next in Hok. apply negb_true_iff in Hok. now rewrite Hok.
  - split; [intros [x [=]] | discriminate].
Qed.

Lemma create_accepts_iff_fields_pass_witness :
  calls_succeed 1 Demo.world = true
  /\ Forall (fun g => field_check no_date (body Demo.post_person) g = Passes)
            Demo.people_fields
  /\ (handleCreate no_date Demo.post_person 1 Demo.people_fields Demo.world).1
     = Some (res_status_json 201 "Data created successfully.").
Proof.
  assert (H : Forall (fun g => field_check no_date (body Demo.post_person) g = Passes)
                     Demo.people_fields) by (repeat constructor).
  split; [reflexivity |]. split; [exact H |].
  exact (proj1 (create_accepts_iff_fields_pass no_date Demo.post_person 1 Demo.people_fields
                  Demo.world eq_refl) H).
Defined.

(** ** Read *)

Lemma handleRead_ok (req : Request) (endpoint_id : Z) (fields : list fields.row)
      (w w' : World) (res : Response) :
  handleRead req endpoint_id fields w = (Some res, w') ->
  status res = 200 ->
  calls_succeed 1 w = true.
Proof.
  unfold handleRead, select_data, calls_succeed.
  run_pool w; intros [= <- <-]; try reflexivity; discriminate.
Qed.

(** X9.  A read-all that answers 200 returns one record for each row of
    the endpoint, in the order of the table, and for no other row; the
    tables are left as they are; and the record of a row whose payload has
    no key [data_id] holds the identity of the row under [data_id] and,
    under every other key, what the payload holds. *)
Theorem read_returns_the_rows_of_the_endpoint (req : Request) (endpoint_id : Z)
        (fields : list fields.row) (w w' : World) (res : Response) :
  handleRead req endpoint_id fields w = (Some res, w') ->
  status res = 200 ->
  json res = Records (map record (of_endpoint endpoint_id (tbl_data_storage w)))
  /\ tbl_data_storage w' = tbl_data_storage w
  /\ forall row,
       data_storage.data row !! "data_id" = None ->
       JSON_written (data_storage.data row) ->
       record row !! "data_id" = JSON_value (VNumber (Num.of_Z (data_storage.data_id row)))
       /\ forall k, k <> "data_id" -> record row !! k = data_storage.data row !! k.
Proof.
  intros Hrun Hs. pose proof (handleRead_ok _ _ _ _ _ _ Hrun Hs) as Hok.
  rewrite (handleRead_records _ _ _ _ Hok) in Hrun. injection Hrun as <- <-.
  split; [reflexivity |]. split; [apply tick_tables |].
  intros row Hid Hw. split.
  - unfold record, JSON_parse. now rewrite record_data_id, Hid.
  - intros k Hk. unfold record, JSON_stringify, spread, JSON_parse.
    rewrite lookup_omap, lookup_union, lookup_singleton_ne by congruence.
    destruct (data_storage.data row !! k) as [v |] eqn:E; simpl; [eauto | reflexivity].
Qed.

Lemma read_returns_the_rows_of_the_endpoint_witness :
  handleRead Trial.get_tasks 3 Demo.tasks_fields Demo.world
  = (Some (res_json (Records [ <[ "data_id" := Demo.num 1 ]>
                                 (<[ "a" := Demo.num 1 ]> {[ "b" := Demo.num 2 ]}) ])),
     Demo.world)
  /\ json (res_json (Records [ <[ "data_id" := Demo.num 1 ]>
                                 (<[ "a" := Demo.num 1 ]> {[ "b" := Demo.num 2 ]}) ]))
     = Records (map record (of_endpoint 3 (tbl_data_storage Demo.world))).
Proof.
  assert (H : handleRead Trial.get_tasks 3 Demo.tasks_fields Demo.world
              = (Some (res_json (Records [ <[ "data_id" := Demo.num 1 ]>
                                             (<[ "a" := Demo.num 1 ]> {[ "b" := Demo.num 2 ]}) ])),
                 Demo.world))
    by (vm_compute; reflexivity).
  split; [exact H |].
  exact (proj1 (read_returns_the_rows_of_the_endpoint _ _ _ _ _ _ H eq_refl)).
Defined.

(** X8.  A read-all that follows a create which answered 201 for the same
    endpoint, when its lookup is answered, returns the records the read-all
    would have returned before the create, followed by the record of the
    new document: the one row the create appended, under the next identity
    and the endpoint of the request, whose payload is what [JSON.stringify]
    writes of the object the loop of the create built. *)
Theorem read_after_create (Date_parse : Value -> number) (req req' : Request)
        (endpoint_id : Z) (fields fields' : list fields.row) (w w1 : World)
        (res : Response) :
  handleCreate Date_parse req endpoint_id fields w = (Some res, w1) ->
  status res = 201 ->
  calls_succeed 1 w1 = true ->
  exists row,
    tbl_data_storage w1 = tbl_data_storage w ++ [row]
    /\ data_storage.data_id row = auto_increment w
    /\ data_storage.endpoint_id row = endpoint_id
    /\ (exists jsonData,
          create_loop Date_parse (body req) fields ∅ = Some (inr jsonData)
          /\ data_storage.data row = JSON_stringify jsonData)
    /\ (handleRead req' endpoint_id fields' w1).1
       = Some (res_json (Records
                 (map record (of_endpoint endpoint_id (tbl_data_storage w)) ++ [record row]))).
Proof.
  intros Hrun Hs Hok.
  apply handleCreate_cases in Hrun
    as [([=] & _) | [(r & [= ->] & Hloop & _) | (jsonData & Hloop & Hrun)]].
  { apply create_loop_error_status in Hloop as (g & m & _ & _ & ->). discriminate. }
  destruct Hrun as [[_ Htbl] | [[= ->] _]]; [| discriminate].
  exists {| data_storage.data_id := auto_increment w;
            data_storage.endpoint_id := endpoint_id;
            data_storage.data := JSON_stringify jsonData |}.
  split; [exact Htbl |]. split; [reflexivity |]. split; [reflexivity |].
  split; [now exists jsonData |].
  rewrite (handleRead_records _ _ _ _ Hok). simpl. rewrite Htbl.
  fold (of_endpoint endpoint_id
          (tbl_data_storage w ++
             [ {| data_storage.data_id := auto_increment w;
                  data_storage.endpoint_id := endpoint_id;
                  data_storage.data := JSON_stringify jsonData |} ])).
  rewrite (of_endpoint_insert endpoint_id endpoint_id) by reflexivity.
  rewrite Z.eqb_refl, map_app. reflexivity.
Qed.

Lemma read_after_create_witness :
  exists w1 row,
    handleCreate no_date Demo.post_note 2 Demo.notes_fields Demo.world
    = (Some (res_status_json 201 "Data created successfully."), w1)
    /\ calls_succeed 1 w1 = true
    /\ tbl_data_storage w1 = tbl_data_storage Demo.world ++ [row]
    /\ data_storage.data_id row = 2
    /\ (handleRead Demo.get_notes 2 Demo.notes_fields w1).1
       = Some (res_json (Records
                 (map record (of_endpoint 2 (tbl_data_storage Demo.world)) ++ [record row]))).
Proof.
  assert (H : handleCreate no_date Demo.post_note 2 Demo.notes_fields Demo.world
              = (Some (res_status_json 201 "Data created successfully."),
                 (handleCreate no_date Demo.post_note 2 Demo.notes_fields Demo.world).2))
    by (vm_compute; reflexivity).
  destruct (read_after_create no_date Demo.post_note Demo.get_notes 2 Demo.notes_fields
              Demo.notes_fields Demo.world _ _ H eq_refl eq_refl)
    as (row & Htbl & Hid & _ & _ & Hread).
  eexists _, row. split; [exact H |]. split; [reflexivity |].
  split; [exact Htbl |]. split; [exact Hid | exact Hread].
Defined.

(** ** Delete and update *)

Lemma filter_matches_none {A} (b : A -> bool) (l : list A) :
  filter (fun x => b x) l = [] -> filter (fun x => negb (b x)) l = l.
Proof.
  induction l as [| x l IH]; [reflexivity |].
  rewrite (filter_bool_cons b), (filter_bool_cons (fun x => negb (b x))).
  destruct (b x); [discriminate |]. intros H. simpl. now rewrite IH.
Qed.

Lemma filter_matches_gone {A} (b : A -> bool) (l : list A) :
  filter (fun x => b x) (filter (fun x => negb (b x)) l) = [].
Proof.
  induction l as [| x l IH]; [reflexivity |].
  rewrite (filter_bool_cons (fun x => negb (b x))).
  destruct (b x) eqn:E; simpl; [exact IH |].
  now rewrite (filter_bool_cons b), E.
Qed.

Lemma filter_bool_comm {A} (b c : A -> bool) (l : list A) :
  filter (fun x => b x) (filter (fun x => c x) l)
  = filter (fun x => c x) (filter (fun x => b x) l).
Proof.
  induction l as [| x l IH]; [reflexivity |].
  rewrite (filter_bool_cons c), (filter_bool_cons b).
  destruct (b x) eqn:Eb, (c x) eqn:Ec;
    rewrite ?(filter_bool_cons b), ?(filter_bool_cons c), ?Eb, ?Ec, IH; reflexivity.
Qed.

Lemma length_zero_nil {A} (l : list A) : (Z.of_nat (length l) =? 0) = true -> l = [].
Proof. destruct l; [reflexivity | discriminate]. Qed.

(** X11.  A delete that answers 200 has removed the rows of the endpoint
    that the identifier matches, of which there is at least one, and no
    other row; a delete that answers 404 found no such row and has removed
    nothing. *)
Theorem delete_removes_the_matching_rows (sql_id_equals : Z -> string -> bool)
        (req : Request) (endpoint_id : Z) (fields : list fields.row) (w w' : World)
        (res : Response) :
  handleDelete sql_id_equals req endpoint_id fields w = (Some res, w') ->
  (status res = 200 ->
   (exists r, r ∈ tbl_data_storage w
              /\ matches sql_id_equals (bound (query_id req)) endpoint_id r = true)
   /\ tbl_data_storage w'
      = filter (fun r => negb (matches sql_id_equals (bound (query_id req)) endpoint_id r))
               (tbl_data_storage w))
  /\ (status res = 404 ->
      (forall r, r ∈ tbl_data_storage w ->
                 matches sql_id_equals (bound (query_id req)) endpoint_id r = false)
      /\ tbl_data_storage w' = tbl_data_storage w).
Proof.
  destruct (falsy (query_id req)) eqn:Hid.
  { unfold handleDelete. rewrite Hid. intros [= <- <-]. split; discriminate. }
  rewrite (handleDelete_run _ _ _ _ _ Hid).
  destruct (next_fails w); [intros [= <- <-]; split; discriminate |].
  destruct (filter (matches sql_id_equals (bound (query_id req)) endpoint_id)
                   (tbl_data_storage w)) as [| r0 l] eqn:Hrows;
    simpl; intros [= <- <-]; (split; [| intros Hs; try discriminate]).
  - discriminate.
  - split; [| now apply filter_matches_none].
    intros r Hr. destruct (matches _ _ _ r) eqn:E; [| reflexivity].
    assert (Hin : r ∈ filter (matches sql_id_equals (bound (query_id req)) endpoint_id)
                             (tbl_data_storage w))
      by (apply list_elem_of_filter; split; [now apply Is_true_true | exact Hr]).
    rewrite Hrows in Hin. now apply not_elem_of_nil in Hin.
  - intros _. split; [| reflexivity]. exists r0.
    assert (Hin : r0 ∈ r0 :: l) by left. rewrite <- Hrows in Hin.
    apply list_elem_of_filter in Hin as [Hm Hin]. now apply Is_true_true in Hm.
Qed.

Lemma delete_removes_the_matching_rows_witness :
  (exists r, r ∈ tbl_data_storage Demo.world /\ matches numeric_id_equals "1" 3 r = true)
  /\ tbl_data_storage
       (handleDelete numeric_id_equals Trial.delete_task 3 Demo.tasks_fields Demo.world).2
     = filter (fun r => negb (matches numeric_id_equals "1" 3 r)) (tbl_data_storage Demo.world).
Proof.
  refine (proj1 (delete_removes_the_matching_rows numeric_id_equals Trial.delete_task 3
                   Demo.tasks_fields Demo.world
                   (handleDelete numeric_id_equals Trial.delete_task 3 Demo.tasks_fields
                      Demo.world).2
                   (res_json (Message "Data deleted successfully.")) _) eq_refl).
  vm_compute. reflexivity.
Defined.

(** X12.  Once a delete has answered 200, the identifier names no document
    of the endpoint any more: a second delete and an update with the same
    identifier, when the lookup is answered, both answer 404 and leave the
    table as it is. *)
Theorem deleted_identifier_is_not_found (Date_parse : Value -> number)
        (sql_id_equals : Z -> string -> bool) (req req' : Request) (endpoint_id : Z)
        (fields fields' : list fields.row) (w w1 : World) (res : Response) :
  handleDelete sql_id_equals req endpoint_id fields w = (Some res, w1) ->
  status res = 200 ->
  calls_succeed 1 w1 = true ->
  query_id req' = query_id req ->
  (handleDelete sql_id_equals req' endpoint_id fields' w1).1
  = Some (res_status_json 404 "Data not found.")
  /\ tbl_data_storage (handleDelete sql_id_equals req' endpoint_id fields' w1).2
     = tbl_data_storage w1
  /\ (handleUpdate Date_parse sql_id_equals req' endpoint_id fields' w1).1
     = Some (res_status_json 404 "Data not found.")
  /\ tbl_data_storage (handleUpdate Date_parse sql_id_equals req' endpoint_id fields' w1).2
     = tbl_data_storage w1.
Proof.
  intros Hrun Hs Hok Hq.
  destruct (falsy (query_id req)) eqn:Hid.
  { unfold handleDelete in Hrun. rewrite Hid in Hrun. injection Hrun as <- <-. discriminate. }
  rewrite (handleDelete_run _ _ _ _ _ Hid) in Hrun.
  destruct (next_fails w); [injection Hrun as <- <-; discriminate |].
  injection Hrun as _ Hw1.
  assert (Hgone : filter (matches sql_id_equals (bound (query_id req)) endpoint_id)
                         (tbl_data_storage w1) = []).
  { rewrite <- Hw1. simpl. apply filter_matches_gone. }
  rewrite calls_succeed_next in Hok. apply negb_true_iff in Hok.
  rewrite handleDelete_run, handleUpdate_run by now rewrite Hq.
  rewrite Hok, Hq, Hgone. simpl.
  repeat split; try apply tick_tables.
  now apply filter_matches_none.
Qed.

Lemma deleted_identifier_is_not_found_witness :
  (handleDelete numeric_id_equals Trial.delete_task 3 Demo.tasks_fields
     (handleDelete numeric_id_equals Trial.delete_task 3 Demo.tasks_fields Demo.world).2).1
  = Some (res_status_json 404 "Data not found.")
  /\ (handleUpdate no_date numeric_id_equals Demo.put_b 3 Demo.tasks_fields
        (handleDelete numeric_id_equals Trial.delete_task 3 Demo.tasks_fields Demo.world).2).1
     = Some (res_status_json 404 "Data not found.").
Proof.
  assert (H : handleDelete numeric_id_equals Trial.delete_task 3 Demo.tasks_fields Demo.world
              = (Some (res_json (Message "Data deleted successfully.")),
                 (handleDelete numeric_id_equals Trial.delete_task 3 Demo.tasks_fields
                    Demo.world).2))
    by (vm_compute; reflexivity).
  split.
  - exact (proj1 (deleted_identifier_is_not_found no_date numeric_id_equals Trial.delete_task
                    Trial.delete_task 3 Demo.tasks_fields Demo.tasks_fields _ _ _ H
                    eq_refl eq_refl eq_refl)).
  - exact (proj1 (proj2 (proj2 (deleted_identifier_is_not_found no_date numeric_id_equals
                                  Trial.delete_task Demo.put_b 3 Demo.tasks_fields
                                  Demo.tasks_fields _ _ _ H eq_refl eq_refl eq_refl)))).
Defined.

Lemma of_endpoint_without (sql_id_equals : Z -> string -> bool) (endpoint_id : Z)
      (identifier : string) (rows : list data_storage.row) :
  of_endpoint endpoint_id
    (filter (fun r => negb (matches sql_id_equals identifier endpoint_id r)) rows)
  = filter (fun r => negb (sql_id_equals (data_storage.data_id r) identifier))
           (of_endpoint endpoint_id rows).
Proof.
  unfold of_endpoint. induction rows as [| r rows IH]; [reflexivity |].
  rewrite (filter_bool_cons (fun r => negb (matches sql_id_equals identifier endpoint_id r))),
    (filter_bool_cons (fun r => data_storage.endpoint_id r =? endpoint_id)).
  unfold matches at 1.
  destruct (sql_id_equals (data_storage.data_id r) identifier) eqn:Ei,
           (data_storage.endpoint_id r =? endpoint_id) eqn:Ee; simpl;
    rewrite ?(filter_bool_cons (fun r => data_storage.endpoint_id r =? endpoint_id)),
      ?(filter_bool_cons (fun r => negb (sql_id_equals (data_storage.data_id r) identifier))),
      ?Ei, ?Ee; simpl; now rewrite IH.
Qed.

(** X13.  A read-all that follows a delete which answered 200 for the same
    endpoint, when its lookup is answered, returns the records of the rows
    of the endpoint whose identity the identifier does not equal, and of
    these all, in the order of the table. *)
Theorem read_after_delete (sql_id_equals : Z -> string -> bool) (req req' : Request)
        (endpoint_id : Z) (fields fields' : list fields.row) (w w1 : World)
        (res : Response) :
  handleDelete sql_id_equals req endpoint_id fields w = (Some res, w1) ->
  status res = 200 ->
  calls_succeed 1 w1 = true ->
  (handleRead req' endpoint_id fields' w1).1
  = Some (res_json (Records
            (map record
                 (filter (fun r => negb (sql_id_equals (data_storage.data_id r)
                                                       (bound (query_id req))))
                         (of_endpoint endpoint_id (tbl_data_storage w)))))).
Proof.
  intros Hrun Hs Hok.
  destruct (falsy (query_id req)) eqn:Hid.
  { unfold handleDelete in Hrun. rewrite Hid in Hrun. injection Hrun as <- <-. discriminate. }
  rewrite (handleDelete_run _ _ _ _ _ Hid) in Hrun.
  destruct (next_fails w); [injection Hrun as <- <-; discriminate |].
  injection Hrun as _ Hw1.
  rewrite (handleRead_records _ _ _ _ Hok). simpl. rewrite <- Hw1. simpl.
  fold (of_endpoint endpoint_id
          (filter (fun r => negb (matches sql_id_equals (bound (query_id req)) endpoint_id r))
                  (tbl_data_storage w))).
  now rewrite of_endpoint_without.
Qed.

Lemma read_after_delete_witness :
  (handleRead Trial.get_tasks 3 Demo.tasks_fields
     (handleDelete numeric_id_equals Trial.delete_task 3 Demo.tasks_fields Demo.world).2).1
  = Some (res_json (Records
            (map record
                 (filter (fun r => negb (numeric_id_equals (data_storage.data_id r) "1"))
                         (of_endpoint 3 (tbl_data_storage Demo.world)))))).
Proof.
  assert (H : handleDelete numeric_id_equals Trial.delete_task 3 Demo.tasks_fields Demo.world
              = (Some (res_json (Message "Data deleted successfully.")),
                 (handleDelete numeric_id_equals Trial.delete_task 3 Demo.tasks_fields
                    Demo.world).2))
    by (vm_compute; reflexivity).
  exact (read_after_delete numeric_id_equals Trial.delete_task Trial.get_tasks 3
           Demo.tasks_fields Demo.tasks_fields _ _ _ H eq_refl eq_refl).
Defined.

Lemma filter_matches_foreign (sql_id_equals : Z -> string -> bool) (identifier : string)
      (endpoint_id : Z) (rows : list data_storage.row) :
  (forall r, r ∈ rows -> sql_id_equals (data_storage.data_id r) identifier = true ->
             data_storage.endpoint_id r <> endpoint_id) ->
  filter (matches sql_id_equals identifier endpoint_id) rows = [].
Proof.
  induction rows as [| r rows IH]; intros H; [reflexivity |].
  rewrite (filter_bool_cons (matches sql_id_equals identifier endpoint_id)).
  assert (Hr : matches sql_id_equals identifier endpoint_id r = false).
  { unfold matches. destruct (sql_id_equals _ _) eqn:E; [| reflexivity].
    apply Z.eqb_neq, H; [left | exact E]. }
  rewrite Hr. apply IH. intros r' Hr'. apply H. now right.
Qed.

(** X21.  A document is reached through its own endpoint only: when every
    row the identifier equals belongs to another endpoint, an update and a
    delete, once the lookup is answered, both answer 404 "Data not found."
    whatever the body holds, and the table is as it was. *)
Theorem foreign_document_is_not_found (Date_parse : Value -> number)
        (sql_id_equals : Z -> string -> bool) (req : Request) (endpoint_id : Z)
        (fields : list fields.row) (w : World) :
  falsy (query_id req) = false ->
  calls_succeed 1 w = true ->
  (forall r, r ∈ tbl_data_storage w ->
             sql_id_equals (data_storage.data_id r) (bound (query_id req)) = true ->
             data_storage.endpoint_id r <> endpoint_id) ->
  handleUpdate Date_parse sql_id_equals req endpoint_id fields w
  = (Some (res_status_json 404 "Data not found."), tick w)
  /\ (handleDelete sql_id_equals req endpoint_id fields w).1
     = Some (res_status_json 404 "Data not found.")
  /\ tbl_data_storage (handleDelete sql_id_equals req endpoint_id fields w).2
     = tbl_data_storage w.
Proof.
  intros Hid Hok Hforeign.
  rewrite calls_succeed_next in Hok. apply negb_true_iff in Hok.
  pose proof (filter_matches_foreign _ _ _ _ Hforeign) as Hnone.
  rewrite handleUpdate_run, handleDelete_run by exact Hid.
  rewrite Hok, Hnone. simpl. repeat split.
  now apply filter_matches_none.
Qed.

Lemma foreign_document_is_not_found_witness :
  handleUpdate no_date numeric_id_equals Trial.put_foreign 2 Demo.notes_fields Demo.world
  = (Some (res_status_json 404 "Data not found."), tick Demo.world)
  /\ (handleDelete numeric_id_equals Trial.put_foreign 2 Demo.notes_fields Demo.world).1
     = Some (res_status_json 404 "Data not found.")
  /\ tbl_data_storage
       (handleDelete numeric_id_equals Trial.put_foreign 2 Demo.notes_fields Demo.world).2
     = tbl_data_storage Demo.world.
Proof.
  apply (foreign_document_is_not_found no_date numeric_id_equals Trial.put_foreign 2
           Demo.notes_fields Demo.world); [reflexivity | reflexivity |].
  intros r Hr _. apply list_elem_of_singleton in Hr. subst r. simpl. lia.
Defined.

(** X10.  For an endpoint that resolves, with both lookups answered, a PUT
    or a DELETE whose [id] parameter is absent or empty is answered 400
    with the message of its handler, and no statement is run on the
    documents. *)
Theorem missing_identifier_is_rejected (Date_parse : Value -> number)
        (sql_name_equals : string -> string -> bool)
        (sql_id_equals : Z -> string -> bool) (req : Request) (w : World) :
  resolves sql_name_equals req w ->
  calls_succeed 2 w = true ->
  falsy (query_id req) = true ->
  (Str.toUpperCase (method req) = "PUT" ->
   handleRequest Date_parse sql_name_equals sql_id_equals req w
   = (Some (res_status_json 400 "Data ID is required for update."), tick (tick w)))
  /\ (Str.toUpperCase (method req) = "DELETE" ->
      handleRequest Date_parse sql_name_equals sql_id_equals req w
      = (Some (res_status_json 400 "Data ID is required for deletion."), tick (tick w))).
Proof.
  intros Hres Hok Hid.
  apply calls_succeed_tick in Hok as [Hok1 Hok2].
  rewrite calls_succeed_next in Hok1, Hok2.
  apply negb_true_iff in Hok1. apply negb_true_iff in Hok2.
  apply found_resolves in Hres.
  rewrite handleRequest_run, Hok1.
  destruct (found sql_name_equals req w) as [| endpoint l]; [congruence |].
  rewrite Hok2. unfold switch_method, try_catch.
  split; intros ->; simpl; [unfold handleUpdate | unfold handleDelete];
    rewrite Hid; reflexivity.
Qed.

Lemma missing_identifier_is_rejected_witness :
  handleRequest no_date String.eqb numeric_id_equals Trial.delete_nothing Demo.world
  = (Some (res_status_json 400 "Data ID is required for deletion."), Demo.world).
Proof.
  refine (proj2 (missing_identifier_is_rejected no_date String.eqb numeric_id_equals
                   Trial.delete_nothing Demo.world _ eq_refl eq_refl) eq_refl).
  exists (Demo.endpoint 3 20 "tasks"). split; [| split; reflexivity].
  unfold Demo.world. simpl. rewrite !elem_of_cons. auto.
Defined.

(** ** What is written, and when *)

Lemma handleRead_storage (req : Request) (endpoint_id : Z) (fields : list fields.row)
      (w : World) :
  tbl_data_storage (handleRead req endpoint_id fields w).2 = tbl_data_storage w.
Proof.
  unfold handleRead, select_data. run_pool w; reflexivity.
Qed.

Lemma handleCreate_writes (Date_parse : Value -> number) (req : Request) (endpoint_id : Z)
      (fields : list fields.row) (w : World) :
  tbl_data_storage (handleCreate Date_parse req endpoint_id fields w).2 = tbl_data_storage w
  \/ exists res, (handleCreate Date_parse req endpoint_id fields w).1 = Some res
                 /\ status res = 201.
Proof.
  destruct (handleCreate Date_parse req endpoint_id fields w) as [r w'] eqn:Hrun.
  apply handleCreate_cases in Hrun
    as [(-> & _ & ->) | [(r0 & -> & _ & ->) | (jsonData & _ & [[-> _] | [-> Htbl]])]];
    simpl; eauto.
Qed.

Lemma handleUpdate_writes (Date_parse : Value -> number) (sql_id_equals : Z -> string -> bool)
      (req : Request) (endpoint_id : Z) (fields : list fields.row) (w : World) :
  tbl_data_storage (handleUpdate Date_parse sql_id_equals req endpoint_id fields w).2
  = tbl_data_storage w
  \/ exists res, (handleUpdate Date_parse sql_id_equals req endpoint_id fields w).1 = Some res
                 /\ status res = 200.
Proof.
  destruct (falsy (query_id req)) eqn:Hid.
  { left. unfold handleUpdate. now rewrite Hid. }
  rewrite (handleUpdate_run _ _ _ _ _ _ Hid).
  destruct (next_fails w); [left; apply tick_tables |].
  destruct (filter _ _) as [| row0 rest]; [left; apply tick_tables |].
  destruct (update_loop _ _ _ _) as [[res | result] |];
    [left; apply tick_tables | | left; apply tick_tables].
  destruct (next_fails (tick w)); simpl; [left | eauto].
  destruct (tick_tables (tick w)) as (_ & _ & ->). apply tick_tables.
Qed.

Lemma handleDelete_writes (sql_id_equals : Z -> string -> bool) (req : Request)
      (endpoint_id : Z) (fields : list fields.row) (w : World) :
  tbl_data_storage (handleDelete sql_id_equals req endpoint_id fields w).2
  = tbl_data_storage w
  \/ exists res, (handleDelete sql_id_equals req endpoint_id fields w).1 = Some res
                 /\ status res = 200.
Proof.
  destruct (falsy (query_id req)) eqn:Hid.
  { left. unfold handleDelete. now rewrite Hid. }
  rewrite (handleDelete_run _ _ _ _ _ Hid).
  destruct (next_fails w); [left; apply tick_tables |].
  destruct (Z.of_nat _ =? 0) eqn:Hn; simpl; [left | eauto].
  apply length_zero_nil in Hn. now apply filter_matches_none.
Qed.

(** X14.  The documents change only with a success: after any request the
    table [data_storage] is as it was, unless the response is a 201 to a
    POST or a 200 to a PUT or a DELETE.  So no 400, 404, 405 or 500, and no
    GET, leaves a trace in the documents. *)
Theorem only_a_success_writes (Date_parse : Value -> number)
        (sql_name_equals : string -> string -> bool)
        (sql_id_equals : Z -> string -> bool) (req : Request) (w : World) :
  tbl_data_storage (handleRequest Date_parse sql_name_equals sql_id_equals req w).2
  = tbl_data_storage w
  \/ exists res,
       (handleRequest Date_parse sql_name_equals sql_id_equals req w).1 = Some res
       /\ ((status res = 201 /\ Str.toUpperCase (method req) = "POST")
           \/ (status res = 200
               /\ (Str.toUpperCase (method req) = "PUT"
                   \/ Str.toUpperCase (method req) = "DELETE"))).
Proof.
  rewrite handleRequest_run.
  destruct (next_fails w); [left; apply tick_tables |].
  destruct (found sql_name_equals req w) as [| endpoint l]; [left; apply tick_tables |].
  assert (Htick : tbl_data_storage (tick (tick w)) = tbl_data_storage w).
  { destruct (tick_tables (tick w)) as (_ & _ & ->). apply tick_tables. }
  destruct (next_fails (tick w)); [now left |].
  rewrite <- Htick. generalize (tick (tick w)) as w2. intros w2.
  set (fs := filter _ (tbl_fields w)). clearbody fs.
  set (eid := api_endpoints.endpoint_id endpoint).
  unfold switch_method, try_catch. fold eid.
  destruct (String.eqb_spec (Str.toUpperCase (method req)) "GET") as [_ | _].
  { left. pose proof (handleRead_storage req eid fs w2) as H.
    destruct (handleRead req eid fs w2) as [[r |] w3]; exact H. }
  destruct (String.eqb_spec (Str.toUpperCase (method req)) "POST") as [Hm | _].
  { destruct (handleCreate_writes Date_parse req eid fs w2) as [H | (res & H & Hs)].
    - left. destruct (handleCreate Date_parse req eid fs w2) as [[r |] w3]; exact H.
    - right. destruct (handleCreate Date_parse req eid fs w2) as [[r |] w3];
        [| discriminate]. exists res. auto. }
  destruct (String.eqb_spec (Str.toUpperCase (method req)) "PUT") as [Hm | _].
  { destruct (handleUpdate_writes Date_parse sql_id_equals req eid fs w2)
      as [H | (res & H & Hs)].
    - left. destruct (handleUpdate Date_parse sql_id_equals req eid fs w2) as [[r |] w3];
        exact H.
    - right. destruct (handleUpdate Date_parse sql_id_equals req eid fs w2) as [[r |] w3];
        [| discriminate]. exists res. auto. }
  destruct (String.eqb_spec (Str.toUpperCase (method req)) "DELETE") as [Hm | _].
  { destruct (handleDelete_writes sql_id_equals req eid fs w2) as [H | (res & H & Hs)].
    - left. destruct (handleDelete sql_id_equals req eid fs w2) as [[r |] w3]; exact H.
    - right. destruct (handleDelete sql_id_equals req eid fs w2) as [[r |] w3];
        [| discriminate]. exists res. auto. }
  now left.
Qed.

(** X15.  An update, whatever its outcome, neither adds nor removes nor
    reorders rows: every row keeps its identity and its endpoint, and a
    row the identifier does not match for the endpoint is left as it is. *)
Theorem update_keeps_the_rows (Date_parse : Value -> number)
        (sql_id_equals : Z -> string -> bool) (req : Request) (endpoint_id : Z)
        (fields : list fields.row) (w : World) :
  Forall2 (fun r r' =>
             data_storage.data_id r' = data_storage.data_id r
             /\ data_storage.endpoint_id r' = data_storage.endpoint_id r
             /\ (matches sql_id_equals (bound (query_id req)) endpoint_id r = false -> r' = r))
          (tbl_data_storage w)
          (tbl_data_storage (handleUpdate Date_parse sql_id_equals req endpoint_id fields w).2).
Proof.
  assert (Hsame : forall l : list data_storage.row,
             Forall2 (fun r r' =>
                        data_storage.data_id r' = data_storage.data_id r
                        /\ data_storage.endpoint_id r' = data_storage.endpoint_id r
                        /\ (matches sql_id_equals (bound (query_id req)) endpoint_id r = false
                            -> r' = r)) l l).
  { induction l; constructor; auto. }
  destruct (falsy (query_id req)) eqn:Hid.
  { unfold handleUpdate. rewrite Hid. apply Hsame. }
  rewrite (handleUpdate_run _ _ _ _ _ _ Hid).
  assert (Htick : tbl_data_storage (tick w) = tbl_data_storage w) by apply tick_tables.
  assert (Htick2 : tbl_data_storage (tick (tick w)) = tbl_data_storage w).
  { destruct (tick_tables (tick w)) as (_ & _ & ->). exact Htick. }
  destruct (next_fails w); [simpl; rewrite Htick; apply Hsame |].
  destruct (filter _ _) as [| row0 rest]; [simpl; rewrite Htick; apply Hsame |].
  destruct (update_loop _ _ _ _) as [[res | result] |];
    [simpl; rewrite Htick; apply Hsame | | simpl; rewrite Htick; apply Hsame].
  destruct (next_fails (tick w)); simpl; [rewrite Htick2; apply Hsame |].
  clear Htick Htick2. generalize (tbl_data_storage w) as l.
  induction l as [| r l IH]; simpl; constructor; [| exact IH].
  destruct (matches sql_id_equals (bound (query_id req)) endpoint_id r); auto.
  repeat split. discriminate.
Qed.

Lemma update_loop_nothing_supplied (Date_parse : Value -> number) (data : Object)
      (fields : list fields.row) (existingData : Object) :
  (forall f, f ∈ fields -> get data (fields.field_name f) = VUndefined) ->
  update_loop Date_parse data fields existingData = Some (inr existingData).
Proof.
  induction fields as [| g rest IH]; intros H; [reflexivity |].
  simpl. rewrite (H g) by left. simpl. apply IH.
  intros f Hf. apply H. now right.
Qed.

Lemma map_matching_row {A} (b : A -> bool) (f : A -> A) (l : list A) :
  (forall x, x ∈ l -> b x = true -> f x = x) ->
  map (fun x => if b x then f x else x) l = l.
Proof.
  induction l as [| x l IH]; intros H; [reflexivity |]. simpl.
  rewrite IH by (intros y Hy; apply H; now right).
  destruct (b x) eqn:E; [| reflexivity]. now rewrite H by (auto; left).
Qed.

(** X16.  An update whose body has a value for no field of the schema,
    whatever other keys it holds, is answered 200 and changes nothing: with
    both calls answered, one row matching the identifier, and a payload
    that [JSON.stringify] wrote, the table is afterwards as it was. *)
Theorem update_without_a_field_changes_nothing (Date_parse : Value -> number)
        (sql_id_equals : Z -> string -> bool) (req : Request) (endpoint_id : Z)
        (fields : list fields.row) (w : World) (row0 : data_storage.row) :
  falsy (query_id req) = false ->
  calls_succeed 2 w = true ->
  filter (matches sql_id_equals (bound (query_id req)) endpoint_id) (tbl_data_storage w)
  = [row0] ->
  JSON_written (data_storage.data row0) ->
  (forall f, f ∈ fields -> get (body req) (fields.field_name f) = VUndefined) ->
  (handleUpdate Date_parse sql_id_equals req endpoint_id fields w).1
  = Some (res_json (Message "Data updated successfully."))
  /\ tbl_data_storage (handleUpdate Date_parse sql_id_equals req endpoint_id fields w).2
     = tbl_data_storage w.
Proof.
  intros Hid Hok Hrows Hwritten Hnone.
  apply calls_succeed_tick in Hok as [Hok1 Hok2].
  rewrite calls_succeed_next in Hok1, Hok2.
  apply negb_true_iff in Hok1. apply negb_true_iff in Hok2.
  rewrite (handleUpdate_run _ _ _ _ _ _ Hid), Hok1, Hrows,
    (update_loop_nothing_supplied _ _ _ _ Hnone), Hok2.
  split; [reflexivity |]. simpl.
  rewrite (JSON_stringify_parse _ Hwritten).
  apply map_matching_row. intros r Hr Hm.
  assert (Hin : r ∈ filter (matches sql_id_equals (bound (query_id req)) endpoint_id)
                           (tbl_data_storage w))
    by (apply list_elem_of_filter; split; [now apply Is_true_true | exact Hr]).
  rewrite Hrows in Hin. apply list_elem_of_singleton in Hin. subst r. now destruct row0.
Qed.

Lemma update_without_a_field_changes_nothing_witness :
  (handleUpdate no_date numeric_id_equals Trial.put_nothing 3 Demo.tasks_fields Demo.world).1
  = Some (res_json (Message "Data updated successfully."))
  /\ tbl_data_storage
       (handleUpdate no_date numeric_id_equals Trial.put_nothing 3 Demo.tasks_fields
          Demo.world).2
     = tbl_data_storage Demo.world.
Proof.
  apply (update_without_a_field_changes_nothing no_date numeric_id_equals Trial.put_nothing 3
           Demo.tasks_fields Demo.world
           {| data_storage.data_id := 1; data_storage.endpoint_id := 3;
              data_storage.data := <[ "a" := Demo.num 1 ]> {[ "b" := Demo.num 2 ]} |});
    [reflexivity | reflexivity | vm_compute; reflexivity | |].
  - assert (E : <[ "a" := Demo.num 1 ]> {[ "b" := Demo.num 2 ]}
                = JSON_stringify (<[ "a" := Demo.num 1 ]> {[ "b" := Demo.num 2 ]}))
      by (vm_compute; reflexivity).
    simpl. rewrite E. apply JSON_stringify_written.
  - intros f Hf. unfold Demo.tasks_fields in Hf. rewrite !elem_of_cons in Hf.
    destruct Hf as [-> | [-> | Hf]]; [reflexivity | reflexivity |].
    now apply not_elem_of_nil in Hf.
Defined.

(** ** The validator and the type names *)

Lemma upper_char_idempotent (c : ascii) : Str.upper_char (Str.upper_char c) = Str.upper_char c.
Proof. destruct c as [[] [] [] [] [] [] [] []]; reflexivity. Qed.

Lemma upper_char_high (c : ascii) : high (Str.upper_char c) = true -> Str.upper_char c = c.
Proof. destruct c as [[] [] [] [] [] [] [] []]; vm_compute; congruence. Qed.

Lemma upper2_upper_char (c1 c2 : ascii) : Str.upper2 (Str.upper_char c1) c2 = Str.upper2 c1 c2.
Proof. destruct c1 as [[] [] [] [] [] [] [] []]; reflexivity. Qed.

Lemma upper3_upper_char (c1 c2 c3 : ascii) :
  Str.upper3 (Str.upper_char c1) c2 c3 = Str.upper3 c1 c2 c3.
Proof. destruct c1 as [[] [] [] [] [] [] [] []]; reflexivity. Qed.

Lemma upper2_high (c1 c2 : ascii) : high c2 = false -> Str.upper2 c1 c2 = None.
Proof.
  intros H. destruct c2 as [[] [] [] [] [] [] [] []]; try discriminate H;
    unfold Str.upper2; cbn; now rewrite !andb_false_r.
Qed.

Lemma upper3_high2 (c1 c2 c3 : ascii) : high c2 = false -> Str.upper3 c1 c2 c3 = None.
Proof.
  intros H. destruct c2 as [[] [] [] [] [] [] [] []]; try discriminate H;
    unfold Str.upper3; cbn; now rewrite !andb_false_r.
Qed.

Lemma upper3_high3 (c1 c2 c3 : ascii) : high c3 = false -> Str.upper3 c1 c2 c3 = None.
Proof.
  intros H. destruct c3 as [[] [] [] [] [] [] [] []]; try discriminate H;
    unfold Str.upper3; cbn; now destruct (_ && _).
Qed.

(** One step of [toUpperCase]. *)
Lemma toUpperCase_cons (c1 : ascii) (r1 : string) :
  Str.toUpperCase (String c1 r1)
  = match r1 with
    | EmptyString => String (Str.upper_char c1) EmptyString
    | String c2 r2 =>
        match Str.upper2 c1 c2 with
        | Some u => (u ++ Str.toUpperCase r2)%string
        | None =>
            match r2 with
            | EmptyString => String (Str.upper_char c1) (Str.toUpperCase r1)
            | String c3 r3 =>
                match Str.upper3 c1 c2 c3 with
                | Some u => (u ++ Str.toUpperCase r3)%string
                | None => String (Str.upper_char c1) (Str.toUpperCase r1)
                end
            end
        end
    end.
Proof. reflexivity. Qed.

(** A byte of ASCII starts no character of [upper2] or [upper3]. *)
Lemma toUpperCase_ascii (c : ascii) (r : string) :
  high c = false ->
  Str.toUpperCase (String c r) = String (Str.upper_char c) (Str.toUpperCase r).
Proof.
  intros H. rewrite toUpperCase_cons.
  assert (H2 : forall c2, Str.upper2 c c2 = None).
  { intros c2. destruct c as [[] [] [] [] [] [] [] []]; try discriminate H; reflexivity. }
  assert (H3 : forall c2 c3, Str.upper3 c c2 c3 = None).
  { intros c2 c3. destruct c as [[] [] [] [] [] [] [] []]; try discriminate H; reflexivity. }
  destruct r as [| c2 [| c3 r3]]; [reflexivity | now rewrite H2 | now rewrite H2, H3].
Qed.

Lemma capitals_ascii (c : ascii) (u : string) :
  high c = false -> Str.upper_char c = c ->
  (u = EmptyString \/ capitals u) -> capitals (String c u).
Proof.
  intros Hc Hu Htail. split; [now exists c, u |]. intros x.
  change (String c u ++ x)%string with (String c (u ++ x)%string).
  rewrite toUpperCase_ascii, Hu by exact Hc.
  destruct Htail as [-> | [_ Htail]]; [reflexivity | now rewrite Htail].
Qed.

Lemma upper2_capitals (c1 c2 : ascii) (u : string) :
  Str.upper2 c1 c2 = Some u -> capitals u.
Proof.
  unfold Str.upper2.
  repeat (destruct (_ && _);
          [intros [= <-];
           repeat first [left; reflexivity | right
                        | apply capitals_ascii; [reflexivity | reflexivity |]] |]).
  discriminate.
Qed.

Lemma upper3_capitals (c1 c2 c3 : ascii) (u : string) :
  Str.upper3 c1 c2 c3 = Some u -> capitals u.
Proof.
  unfold Str.upper3. destruct (_ && _); [| discriminate].
  repeat (destruct (Str.is_byte _ c3);
          [intros [= <-];
           repeat first [left; reflexivity | right
                        | apply capitals_ascii; [reflexivity | reflexivity |]] |]).
  discriminate.
Qed.

(** A byte outside ASCII at the head of an upper case is the head of the
    string, kept. *)
Lemma toUpperCase_head_high (r : string) (d : ascii) (t : string) :
  Str.toUpperCase r = String d t ->
  high d = true ->
  exists r', r = String d r' /\ t = Str.toUpperCase r'
             /\ Str.toUpperCase r = String (Str.upper_char d) (Str.toUpperCase r').
Proof.
  destruct r as [| c1 r1]; [discriminate |]. rewrite toUpperCase_cons.
  assert (Hkept : forall t0, String (Str.upper_char c1) t0 = String d t -> high d = true ->
                             c1 = d /\ t0 = t /\ Str.upper_char d = d).
  { intros t0 [= Hc ->] Hd. rewrite <- Hc in Hd. apply upper_char_high in Hd.
    rewrite Hd in Hc. subst. auto. }
  assert (Hcap : forall u x, capitals u -> (u ++ x)%string = String d t -> high d = true -> False).
  { intros u x [(c & u' & -> & Hc) _] [= -> _] Hd. congruence. }
  destruct r1 as [| c2 r2].
  - intros H Hd. destruct (Hkept _ H Hd) as (-> & <- & Hu). exists EmptyString.
    rewrite Hu. auto.
  - destruct (Str.upper2 c1 c2) as [u |] eqn:E2.
    { intros H Hd. destruct (Hcap _ _ (upper2_capitals _ _ _ E2) H Hd). }
    destruct r2 as [| c3 r3].
    + intros H Hd. destruct (Hkept _ H Hd) as (-> & <- & Hu). eexists. rewrite Hu. auto.
    + destruct (Str.upper3 c1 c2 c3) as [u |] eqn:E3.
      { intros H Hd. destruct (Hcap _ _ (upper3_capitals _ _ _ _ E3) H Hd). }
      intros H Hd. destruct (Hkept _ H Hd) as (-> & <- & Hu). eexists. rewrite Hu. auto.
Qed.

Lemma toUpperCase_idempotent (s : string) :
  Str.toUpperCase (Str.toUpperCase s) = Str.toUpperCase s.
Proof.
  remember (String.length s) as n eqn:Hn. revert s Hn.
  induction n as [n IH] using lt_wf_ind. intros s Hn.
  destruct s as [| c1 r1]; [reflexivity |].
  assert (IH' : forall r, (String.length r < String.length (String c1 r1))%nat ->
                          Str.toUpperCase (Str.toUpperCase r) = Str.toUpperCase r).
  { intros r Hr. apply (IH (String.length r)); [now rewrite Hn | reflexivity]. }
  clear IH Hn.
  assert (Hkept : (forall c2 r2, r1 = String c2 r2 -> Str.upper2 c1 c2 = None) ->
                  (forall c2 c3 r3, r1 = String c2 (String c3 r3) ->
                                    Str.upper3 c1 c2 c3 = None) ->
                  Str.toUpperCase (String (Str.upper_char c1) (Str.toUpperCase r1))
                  = String (Str.upper_char c1) (Str.toUpperCase r1)).
  { intros H2 H3. rewrite toUpperCase_cons, upper_char_idempotent.
    rewrite (IH' r1) by (simpl; lia).
    destruct (Str.toUpperCase r1) as [| d2 t2] eqn:Et; [reflexivity |].
    rewrite upper2_upper_char.
    destruct (high d2) eqn:Hd2.
    - destruct (toUpperCase_head_high _ _ _ Et Hd2) as (r1' & -> & -> & _).
      rewrite (H2 _ _ eq_refl).
      destruct (Str.toUpperCase r1') as [| d3 t3] eqn:Et'; [reflexivity |].
      rewrite upper3_upper_char.
      destruct (high d3) eqn:Hd3.
      + destruct (toUpperCase_head_high _ _ _ Et' Hd3) as (r1'' & -> & -> & _).
        now rewrite (H3 _ _ _ eq_refl).
      + now rewrite upper3_high3.
    - rewrite upper2_high by exact Hd2.
      destruct t2 as [| d3 t3]; [reflexivity |].
      rewrite upper3_upper_char. now rewrite upper3_high2. }
  rewrite (toUpperCase_cons c1 r1).
  destruct r1 as [| c2 r2].
  - apply (Hkept ltac:(discriminate) ltac:(discriminate)).
  - destruct (Str.upper2 c1 c2) as [u |] eqn:E2.
    { destruct (upper2_capitals _ _ _ E2) as [_ Hu]. rewrite Hu, IH'; [reflexivity |].
      simpl. lia. }
    destruct r2 as [| c3 r3].
    + apply Hkept; [now intros ? ? [= <- <-] | discriminate].
    + destruct (Str.upper3 c1 c2 c3) as [u |] eqn:E3.
      { destruct (upper3_capitals _ _ _ _ E3) as [_ Hu]. rewrite Hu, IH'; [reflexivity |].
        simpl. lia. }
      apply Hkept; [now intros ? ? [= <- <-] | now intros ? ? ? [= <- <- <-]].
Qed.

Lemma validateDataType_unknown (Date_parse : Value -> number) (value : Value)
      (data_type : string) :
  Str.toUpperCase data_type ∉ validDataTypes ->
  validateDataType Date_parse value data_type = false.
Proof.
  unfold validDataTypes, validateDataType. rewrite !elem_of_cons, elem_of_nil. intros H.
  destruct (String.eqb_spec (Str.toUpperCase data_type) "INT"); [tauto |].
  destruct (String.eqb_spec (Str.toUpperCase data_type) "FLOAT"); [tauto |].
  destruct (String.eqb_spec (Str.toUpperCase data_type) "VARCHAR"); [tauto |].
  destruct (String.eqb_spec (Str.toUpperCase data_type) "TEXT"); [tauto |].
  destruct (String.eqb_spec (Str.toUpperCase data_type) "BOOLEAN"); [tauto |].
  destruct (String.eqb_spec (Str.toUpperCase data_type) "DATE"); [tauto |].
  destruct (String.eqb_spec (Str.toUpperCase data_type) "DATETIME"); [tauto |].
  reflexivity.
Qed.

(** X17.  The validator and the administrative routes agree on the type
    names: when the engine reads some value as a date, a type has a value
    the validator accepts exactly when its name in upper case is one of
    [validDataTypes], the names [addFields] and [updateField] admit. *)
Theorem validator_covers_the_admitted_types (Date_parse : Value -> number)
        (data_type : string) :
  (exists d, isNaN (Date_parse d) = false) ->
  (exists value, validateDataType Date_parse value data_type = true)
  <-> Str.toUpperCase data_type ∈ validDataTypes.
Proof.
  intros [d Hd]. split.
  - intros [value Hv].
    destruct (decide (Str.toUpperCase data_type ∈ validDataTypes)) as [Hin | Hout];
      [exact Hin |].
    rewrite (validateDataType_unknown _ _ _ Hout) in Hv. discriminate.
  - unfold validDataTypes, validateDataType. rewrite !elem_of_cons, elem_of_nil.
    intros [-> | [-> | [-> | [-> | [-> | [-> | [-> | []]]]]]]].
    + exists (VNumber (S754_zero false)). reflexivity.
    + exists (VString ""). reflexivity.
    + exists (VString ""). reflexivity.
    + exists d. simpl. now rewrite Hd.
    + exists d. simpl. now rewrite Hd.
    + exists (VBoolean true). reflexivity.
    + exists (VNumber (S754_zero false)). reflexivity.
Qed.

Lemma validator_covers_the_admitted_types_witness :
  (exists value, validateDataType epoch_date value "datetime" = true)
  <-> Str.toUpperCase "datetime" ∈ validDataTypes.
Proof.
  apply (validator_covers_the_admitted_types epoch_date "datetime").
  exists VNull. reflexivity.
Defined.

(** X18.  Names are matched without regard to the case of the letters a to
    z: the validator gives a type name the verdict of its upper case, and
    the dispatcher gives a request the answer of the same request with its
    verb in upper case.  A text type, VARCHAR or TEXT, accepts the strings,
    of any length, and nothing else. *)
Theorem names_are_matched_without_case (Date_parse : Value -> number)
        (sql_name_equals : string -> string -> bool)
        (sql_id_equals : Z -> string -> bool) :
  (forall value data_type,
      validateDataType Date_parse value data_type
      = validateDataType Date_parse value (Str.toUpperCase data_type))
  /\ (forall req w,
         handleRequest Date_parse sql_name_equals sql_id_equals req w
         = handleRequest Date_parse sql_name_equals sql_id_equals (with_upper_method req) w)
  /\ (forall value data_type,
         Str.toUpperCase data_type ∈ ["VARCHAR"; "TEXT"] ->
         validateDataType Date_parse value data_type = true <-> exists s, value = VString s).
Proof.
  split; [| split].
  - intros value data_type. unfold validateDataType. now rewrite toUpperCase_idempotent.
  - intros req w. unfold handleRequest, with_upper_method. simpl.
    rewrite toUpperCase_idempotent. reflexivity.
  - intros value data_type. rewrite !elem_of_cons, elem_of_nil. unfold validateDataType.
    intros [-> | [-> | []]]; simpl;
      (split; [destruct value; try discriminate; eauto | intros [s ->]; reflexivity]).
Qed.

(** X22.  A field whose type is none of [validDataTypes] takes no value: a
    create whose body has a value for it that is not missing stores
    nothing, every answer it gives is 400, and it gives one unless a value
    of the body throws on coercion; an update whose body has a value for
    the field that is not [undefined] is never answered 200. *)
Theorem unknown_type_takes_no_value (Date_parse : Value -> number)
        (sql_id_equals : Z -> string -> bool) (req : Request) (endpoint_id : Z)
        (fields : list fields.row) (field : fields.row) (w : World) :
  field ∈ fields ->
  Str.toUpperCase (fields.data_type field) ∉ validDataTypes ->
  (present (get (body req) (fields.field_name field)) = true ->
   exists res, handleCreate Date_parse req endpoint_id fields w = (res, w)
               /\ (forall r, res = Some r -> status r = 400)
               /\ ((forall k, throws (get (body req) k) = false) -> res <> None))
  /\ ((get (body req) (fields.field_name field) !== VUndefined) = true ->
      forall res w',
        handleUpdate Date_parse sql_id_equals req endpoint_id fields w = (Some res, w') ->
        status res <> 200).
Proof.
  intros Hin Hout. split.
  - intros Hp. unfold handleCreate.
    destruct (create_loop Date_parse (body req) fields ∅) as [[r | jsonData] |] eqn:Hloop.
    + exists (Some r). split; [reflexivity |]. split; [| discriminate].
      intros r' [= <-].
      now apply create_loop_error_status in Hloop as (f & m & _ & _ & ->).
    + assert (Hall : Forall (fun g => field_check Date_parse (body req) g = Passes) fields)
        by (apply (create_loop_passes Date_parse (body req) fields ∅); eauto).
      rewrite Forall_forall in Hall.
      destruct (field_check_Passes _ _ _ (Hall _ Hin) Hp) as [Hv _].
      rewrite (validateDataType_unknown _ _ _ Hout) in Hv. discriminate.
    + exists None. split; [reflexivity |]. split; [discriminate |].
      intros Hquiet. now destruct (create_loop_returns Date_parse _ fields Hquiet ∅).
  - intros Hsup res w' Hrun Hs.
    destruct (handleUpdate_ok _ _ _ _ _ _ _ _ Hrun Hs)
      as (row0 & rest & result & _ & _ & Hloop & _).
    destruct (update_loop_result _ _ _ _ _ Hloop) as [Hvalid _].
    pose proof (Hvalid _ Hin Hsup) as Hv.
    rewrite (validateDataType_unknown _ _ _ Hout) in Hv. discriminate.
Qed.

Lemma unknown_type_takes_no_value_witness :
  exists res,
    handleCreate no_date Trial.post_shape 4 Trial.stock_fields Demo.world
    = (res, Demo.world)
    /\ (forall r, res = Some r -> status r = 400)
    /\ ((forall k, throws (get (body Trial.post_shape) k) = false) -> res <> None).
Proof.
  refine (proj1 (unknown_type_takes_no_value no_date numeric_id_equals Trial.post_shape 4
                   Trial.stock_fields (Demo.field 9 4 "shape" "POLYGON" false VNull)
                   Demo.world _ _) eq_refl).
  - unfold Trial.stock_fields. rewrite !elem_of_cons. auto.
  - unfold validDataTypes. rewrite !elem_of_cons, elem_of_nil.
    intros [H | [H | [H | [H | [H | [H | [H | []]]]]]]]; discriminate.
Defined.

(** X23.  On update the empty string is a value, whether or not the field
    is required: the type check accepts it for INT (its number is 0),
    VARCHAR and TEXT and rejects it for FLOAT and BOOLEAN; and when the
    update answers 200, the type of a field for which the body has the
    empty string accepts it, and, the field not being named [__proto__],
    every row the identifier matches holds the empty string under the name
    of the field. *)
Theorem update_takes_the_empty_string (Date_parse : Value -> number)
        (sql_id_equals : Z -> string -> bool) :
  (forall data_type,
      Str.toUpperCase data_type ∈ ["INT"; "VARCHAR"; "TEXT"] ->
      validateDataType Date_parse (VString "") data_type = true)
  /\ (forall data_type,
         Str.toUpperCase data_type ∈ ["FLOAT"; "BOOLEAN"] ->
         validateDataType Date_parse (VString "") data_type = false)
  /\ (forall req endpoint_id fields field w res w',
         field ∈ fields ->
         get (body req) (fields.field_name field) = VString "" ->
         handleUpdate Date_parse sql_id_equals req endpoint_id fields w = (Some res, w') ->
         status res = 200 ->
         validateDataType Date_parse (VString "") (fields.data_type field) = true
         /\ (fields.field_name field <> "__proto__" ->
             forall r, r ∈ tbl_data_storage w' ->
                       matches sql_id_equals (bound (query_id req)) endpoint_id r = true ->
                       data_storage.data r !! fields.field_name field = Some (VString ""))).
Proof.
  split; [| split].
  - intros data_type. rewrite !elem_of_cons, elem_of_nil. unfold validateDataType.
    intros [-> | [-> | [-> | []]]]; reflexivity.
  - intros data_type. rewrite !elem_of_cons, elem_of_nil. unfold validateDataType.
    intros [-> | [-> | []]]; reflexivity.
  - intros req endpoint_id fields field w res w' Hin Hget Hrun Hs.
    destruct (handleUpdate_ok _ _ _ _ _ _ _ _ Hrun Hs)
      as (row0 & rest & result & _ & Hrows & Hloop & Htbl).
    destruct (update_loop_result _ _ _ _ _ Hloop) as [Hvalid Hkeys].
    assert (Hsup : (get (body req) (fields.field_name field) !== VUndefined) = true)
      by now rewrite Hget.
    split; [rewrite <- Hget; now apply Hvalid |].
    intros Hname.
    assert (Hnew : JSON_stringify result !! fields.field_name field = Some (VString "")).
    { unfold JSON_stringify. rewrite lookup_omap, Hkeys.
      rewrite (supplied_true _ _ _ Hin Hsup). unfold takes.
      apply String.eqb_neq in Hname. rewrite Hname. simpl. now rewrite Hget. }
    rewrite Htbl. intros r Hr Hm. apply list_elem_of_fmap in Hr as (r0 & -> & _).
    destruct (matches sql_id_equals _ endpoint_id r0) eqn:E; [exact Hnew | congruence].
Qed.

Lemma update_takes_the_empty_string_witness :
  handleUpdate no_date numeric_id_equals Trial.put_blank 3 Demo.tasks_fields Demo.world
  = (Some Demo.done, Demo.updated (<[ "a" := VString "" ]> {[ "b" := Demo.num 2 ]}))
  /\ fields.is_required (Demo.field 5 3 "a" "INT" true VNull) = true
  /\ forall r,
       r ∈ tbl_data_storage (Demo.updated (<[ "a" := VString "" ]> {[ "b" := Demo.num 2 ]})) ->
       matches numeric_id_equals "1" 3 r = true ->
       data_storage.data r !! "a" = Some (VString "").
Proof.
  assert (Hrun : handleUpdate no_date numeric_id_equals Trial.put_blank 3
                   Demo.tasks_fields Demo.world
                 = (Some Demo.done,
                    Demo.updated (<[ "a" := VString "" ]> {[ "b" := Demo.num 2 ]})))
    by (vm_compute; reflexivity).
  split; [exact Hrun |]. split; [reflexivity |].
  destruct (update_takes_the_empty_string no_date numeric_id_equals) as (_ & _ & H).
  exact (proj2 (H Trial.put_blank 3 Demo.tasks_fields (Demo.field 5 3 "a" "INT" true VNull)
                  Demo.world _ _ (list_elem_of_here _ _) eq_refl Hrun eq_refl)
               ltac:(discriminate)).
Defined.

(** ** Sequences of requests *)

Lemma NoDup_map_filter {A B} (g : A -> B) (b : A -> bool) (l : list A) :
  NoDup (map g l) -> NoDup (map g (filter (fun x => b x) l)).
Proof.
  induction l as [| x l IH]; [intros _; constructor |].
  simpl. rewrite NoDup_cons. intros [Hx Hl]. rewrite filter_bool_cons.
  destruct (b x); [| now apply IH]. simpl. apply NoDup_cons. split; [| now apply IH].
  intros Hin. apply Hx. apply list_elem_of_fmap in Hin as (y & -> & Hy).
  apply list_elem_of_filter in Hy as [_ Hy]. apply list_elem_of_fmap. eauto.
Qed.

Lemma Forall_filter_bool {A} (Q : A -> Prop) (b : A -> bool) (l : list A) :
  Forall Q l -> Forall Q (filter (fun x => b x) l).
Proof.
  rewrite !Forall_forall. intros H x Hx. apply list_elem_of_filter in Hx as [_ Hx]. auto.
Qed.

Lemma identities_fresh_step (Date_parse : Value -> number)
      (sql_name_equals : string -> string -> bool)
      (sql_id_equals : Z -> string -> bool) (req : Request) (w : World) :
  identities_fresh w ->
  identities_fresh (handleRequest Date_parse sql_name_equals sql_id_equals req w).2.
Proof.
  apply (keeps_handleRequest (fun w w' => identities_fresh w -> identities_fresh w'))
    with (writable := fun _ => True); auto.
  - intros endpoint_id data w0 _ [Hnd Hlt]. unfold identities_fresh. simpl. split.
    + rewrite map_app. apply NoDup_app. split; [exact Hnd |]. split.
      * intros x Hx Hin. simpl in Hin. apply list_elem_of_singleton in Hin. subst x.
        apply list_elem_of_fmap in Hx as (r & Hr & Hin).
        rewrite Forall_forall in Hlt. specialize (Hlt _ Hin). lia.
      * simpl. apply NoDup_singleton.
    + apply Forall_app. split.
      * eapply Forall_impl; [exact Hlt |]. simpl. intros r Hr. lia.
      * constructor; [simpl; lia | constructor].
  - intros endpoint_id data identifier w0 _ [Hnd Hlt]. unfold identities_fresh. simpl.
    assert (Hids : forall l : list data_storage.row,
               map data_storage.data_id
                   (map (fun r => if matches sql_id_equals identifier endpoint_id r
                                  then data_storage.with_data r data else r) l)
               = map data_storage.data_id l).
    { induction l as [| r l IH]; [reflexivity |]. simpl. rewrite IH.
      now destruct (matches _ _ _ r). }
    split; [now rewrite Hids |].
    rewrite Forall_forall in *. intros r Hr.
    apply list_elem_of_fmap in Hr as (r0 & -> & Hr0). specialize (Hlt _ Hr0).
    now destruct (matches _ _ _ r0).
  - intros endpoint_id identifier w0 _ [Hnd Hlt]. unfold identities_fresh. simpl. split.
    + now apply (NoDup_map_filter data_storage.data_id
                   (fun r => negb (matches sql_id_equals identifier endpoint_id r))).
    + now apply (Forall_filter_bool _
                   (fun r => negb (matches sql_id_equals identifier endpoint_id r))).
Qed.

(** X19.  However many requests are served one after the other, the stored
    documents stay well formed: when every payload is one that
    [JSON.stringify] writes it remains so, and when the identities are
    distinct and below the next identity they remain so; the two tables of
    the schema are at the end what they were at the start. *)
Theorem documents_stay_well_formed (Date_parse : Value -> number)
        (sql_name_equals : string -> string -> bool)
        (sql_id_equals : Z -> string -> bool) (reqs : list Request) (w : World) :
  (payloads_written w ->
   payloads_written (run_requests Date_parse sql_name_equals sql_id_equals reqs w))
  /\ (identities_fresh w ->
      identities_fresh (run_requests Date_parse sql_name_equals sql_id_equals reqs w))
  /\ tbl_api_endpoints (run_requests Date_parse sql_name_equals sql_id_equals reqs w)
     = tbl_api_endpoints w
  /\ tbl_fields (run_requests Date_parse sql_name_equals sql_id_equals reqs w)
     = tbl_fields w.
Proof.
  unfold run_requests. revert w. induction reqs as [| req reqs IH]; intros w; [now simpl |].
  simpl. destruct (IH (handleRequest Date_parse sql_name_equals sql_id_equals req w).2)
    as (IHw & IHf & IHe & IHs).
  assert (Hschema : tbl_api_endpoints
                      (handleRequest Date_parse sql_name_equals sql_id_equals req w).2
                    = tbl_api_endpoints w
                    /\ tbl_fields
                         (handleRequest Date_parse sql_name_equals sql_id_equals req w).2
                       = tbl_fields w).
  { apply (keeps_handleRequest
             (fun w w' => tbl_api_endpoints w' = tbl_api_endpoints w
                          /\ tbl_fields w' = tbl_fields w))
      with (writable := fun _ => True); try (intros; split; reflexivity).
    intros w1 w2 w3 [H1 H2] [H3 H4]. split; congruence. }
  destruct Hschema as [He Hs].
  split; [| split; [| split]].
  - intros Hw. apply IHw.
    destruct (handleRequest Date_parse sql_name_equals sql_id_equals req w) as [r w1] eqn:Hrun.
    exact (handleRequest_written _ _ _ _ _ _ _ Hrun Hw).
  - intros Hf. apply IHf. now apply identities_fresh_step.
  - now rewrite IHe.
  - now rewrite IHs.
Qed.

Lemma documents_stay_well_formed_witness :
  payloads_written
    (run_requests no_date String.eqb numeric_id_equals
       [Demo.post_note; Trial.put_blank; Trial.delete_task] Demo.world)
  /\ identities_fresh
       (run_requests no_date String.eqb numeric_id_equals
          [Demo.post_note; Trial.put_blank; Trial.delete_task] Demo.world).
Proof.
  destruct (documents_stay_well_formed no_date String.eqb numeric_id_equals
              [Demo.post_note; Trial.put_blank; Trial.delete_task] Demo.world)
    as (Hw & Hf & _ & _).
  split.
  - apply Hw. constructor; [| constructor].
    assert (E : <[ "a" := Demo.num 1 ]> {[ "b" := Demo.num 2 ]}
                = JSON_stringify (<[ "a" := Demo.num 1 ]> {[ "b" := Demo.num 2 ]}))
      by (vm_compute; reflexivity).
    simpl. rewrite E. apply JSON_stringify_written.
  - apply Hf. split; simpl.
    + apply NoDup_singleton.
    + constructor; [simpl; lia | constructor].
Defined.

(** ** The [http_method] column *)

Lemma frames_mret {A} (a : A) : frames (mret a).
Proof. intros w rows. reflexivity. Qed.

Lemma frames_throw {A} : frames (@throw A).
Proof. intros w rows. reflexivity. Qed.

Lemma frames_bind {A B} (m : M A) (k : A -> M B) :
  frames m -> (forall a, frames (k a)) -> frames (m ≫= k).
Proof.
  intros Hm Hk w rows. unfold mbind, M_bind. rewrite Hm.
  destruct (m w) as [[a |] w1]; simpl; [apply Hk | reflexivity].
Qed.

Lemma frames_try_catch {A} (body handler : M A) :
  frames body -> frames handler -> frames (try_catch body handler).
Proof.
  intros Hb Hh w rows. unfold try_catch. rewrite Hb.
  destruct (body w) as [[a |] w1]; simpl; [reflexivity | apply Hh].
Qed.

Lemma frames_execute {A} (statement : World -> A * World) :
  (forall w rows, statement (with_api_endpoints w rows)
                  = ((statement w).1, with_api_endpoints (statement w).2 rows)) ->
  frames (execute statement).
Proof.
  intros Hs w rows. unfold execute. simpl.
  destruct (failures w) as [| [] fs].
  - rewrite Hs. now destruct (statement w).
  - reflexivity.
  - change (with_failures (with_api_endpoints w rows) fs)
      with (with_api_endpoints (with_failures w fs) rows).
    rewrite Hs. now destruct (statement (with_failures w fs)).
Qed.

Lemma frames_handleRead (req : Request) (endpoint_id : Z) (fields : list fields.row) :
  frames (handleRead req endpoint_id fields).
Proof.
  apply frames_try_catch; [| apply frames_mret].
  apply frames_bind; [| intros rows; apply frames_mret].
  apply frames_execute. reflexivity.
Qed.

Lemma frames_handleCreate (Date_parse : Value -> number) (req : Request) (endpoint_id : Z)
      (fields : list fields.row) :
  frames (handleCreate Date_parse req endpoint_id fields).
Proof.
  unfold handleCreate.
  destruct (create_loop _ _ _ _) as [[r | jsonData] |];
    [apply frames_mret | | apply frames_throw].
  apply frames_try_catch; [| apply frames_mret].
  apply frames_bind; [| intros u; apply frames_mret].
  apply frames_execute. reflexivity.
Qed.

Lemma frames_handleUpdate (Date_parse : Value -> number) (sql_id_equals : Z -> string -> bool)
      (req : Request) (endpoint_id : Z) (fields : list fields.row) :
  frames (handleUpdate Date_parse sql_id_equals req endpoint_id fields).
Proof.
  unfold handleUpdate. destruct (falsy _); [apply frames_mret |].
  apply frames_bind; [apply frames_execute; reflexivity |].
  intros [| row0 rest]; [apply frames_mret |].
  destruct (update_loop _ _ _ _) as [[r | result] |];
    [apply frames_mret | | apply frames_throw].
  apply frames_try_catch; [| apply frames_mret].
  apply frames_bind; [| intros u; apply frames_mret].
  apply frames_execute. reflexivity.
Qed.

Lemma frames_handleDelete (sql_id_equals : Z -> string -> bool) (req : Request)
      (endpoint_id : Z) (fields : list fields.row) :
  frames (handleDelete sql_id_equals req endpoint_id fields).
Proof.
  unfold handleDelete. destruct (falsy _); [apply frames_mret |].
  apply frames_try_catch; [| apply frames_mret].
  apply frames_bind; [apply frames_execute; reflexivity |].
  intros n. destruct (n =? 0); apply frames_mret.
Qed.

Lemma frames_switch_method (Date_parse : Value -> number)
      (sql_id_equals : Z -> string -> bool) (http_method : string) (req : Request)
      (endpoint : api_endpoints.row) (fields : list fields.row) :
  frames (switch_method Date_parse sql_id_equals http_method req endpoint fields).
Proof.
  unfold switch_method.
  destruct (String.eqb http_method "GET"); [apply frames_handleRead |].
  destruct (String.eqb http_method "POST"); [apply frames_handleCreate |].
  destruct (String.eqb http_method "PUT"); [apply frames_handleUpdate |].
  destruct (String.eqb http_method "DELETE"); [apply frames_handleDelete |].
  apply frames_mret.
Qed.

Lemma tick_relabelled (http_method_of : api_endpoints.row -> string) (w : World) :
  tick (relabelled http_method_of w) = relabelled http_method_of (tick w).
Proof. unfold tick, relabelled. simpl. now destruct (failures w). Qed.

Lemma found_relabelled (sql_name_equals : string -> string -> bool)
      (http_method_of : api_endpoints.row -> string) (req : Request) (w : World) :
  found sql_name_equals req (relabelled http_method_of w)
  = map (fun e => with_http_method e (http_method_of e)) (found sql_name_equals req w).
Proof.
  unfold found, relabelled. simpl.
  induction (tbl_api_endpoints w) as [| e l IH]; [reflexivity |].
  simpl map at 1.
  rewrite (filter_bool_cons
             (fun e => sql_name_equals (api_endpoints.endpoint_name e) (endpoint_name req)
                       && (api_endpoints.user_id e =? user_id req))),
    (filter_bool_cons
       (fun e => sql_name_equals (api_endpoints.endpoint_name e) (endpoint_name req)
                 && (api_endpoints.user_id e =? user_id req)) e).
  simpl. destruct (_ && _); simpl; now rewrite IH.
Qed.

(** X20.  The dispatcher does not read the [http_method] an endpoint was
    registered with: whatever that column holds, an endpoint answers every
    verb alike.  With the column changed at will, a request gets the same
    response and leaves the same documents, counter and pool. *)
Theorem registered_method_is_ignored (Date_parse : Value -> number)
        (sql_name_equals : string -> string -> bool)
        (sql_id_equals : Z -> string -> bool)
        (http_method_of : api_endpoints.row -> string) (req : Request) (w : World) :
  handleRequest Date_parse sql_name_equals sql_id_equals req (relabelled http_method_of w)
  = ((handleRequest Date_parse sql_name_equals sql_id_equals req w).1,
     relabelled http_method_of
       (handleRequest Date_parse sql_name_equals sql_id_equals req w).2).
Proof.
  assert (Hschema : tbl_api_endpoints
                      (handleRequest Date_parse sql_name_equals sql_id_equals req w).2
                    = tbl_api_endpoints w).
  { apply (keeps_handleRequest (fun w w' => tbl_api_endpoints w' = tbl_api_endpoints w))
      with (writable := fun _ => True); try reflexivity.
    intros w1 w2 w3 H1 H2. congruence. }
  revert Hschema. rewrite !handleRequest_run, found_relabelled, !tick_relabelled.
  change (next_fails (relabelled http_method_of w)) with (next_fails w).
  change (next_fails (relabelled http_method_of (tick w))) with (next_fails (tick w)).
  change (tbl_fields (relabelled http_method_of w)) with (tbl_fields w).
  destruct (next_fails w); [reflexivity |].
  destruct (found sql_name_equals req w) as [| endpoint l]; [reflexivity |].
  simpl map. destruct (next_fails (tick w)); [reflexivity |].
  change (api_endpoints.endpoint_id (with_http_method endpoint (http_method_of endpoint)))
    with (api_endpoints.endpoint_id endpoint).
  set (fs := filter _ (tbl_fields w)).
  assert (Hsame : switch_method Date_parse sql_id_equals (Str.toUpperCase (method req)) req
                    (with_http_method endpoint (http_method_of endpoint)) fs
                  = switch_method Date_parse sql_id_equals (Str.toUpperCase (method req)) req
                      endpoint fs) by reflexivity.
  rewrite Hsame. unfold relabelled at 1.
  rewrite (frames_try_catch _ _ (frames_switch_method _ _ _ _ _ _) (frames_mret _)).
  intros Hschema. unfold relabelled. now rewrite Hschema, !(proj1 (tick_tables _)).
Qed.

(** ** The pool and the status 500 *)

(** X24.  The controller answers 500 only when a call of the pool fails
    or the validator throws, and a request makes at most four calls: when
    none of the next four fails and no value of the body throws on
    coercion, the request is answered, with one of the statuses 200, 201,
    400, 404 and 405. *)
Theorem no_failed_call_no_server_error (Date_parse : Value -> number)
        (sql_name_equals : string -> string -> bool)
        (sql_id_equals : Z -> string -> bool) (req : Request) (w : World) :
  calls_succeed 4 w = true ->
  (forall k, throws (get (body req) k) = false) ->
  exists res,
    (handleRequest Date_parse sql_name_equals sql_id_equals req w).1 = Some res
    /\ status res ∈ [200; 201; 400; 404; 405].
Proof.
  intros Hok Hquiet. apply calls_succeed_tick in Hok as [Hok1 Hok].
  apply calls_succeed_tick in Hok as [Hok2 Hok].
  apply calls_succeed_tick in Hok as [Hok3 Hok4].
  rewrite calls_succeed_next in Hok1, Hok2, Hok3, Hok4.
  apply negb_true_iff in Hok1. apply negb_true_iff in Hok2.
  apply negb_true_iff in Hok3. apply negb_true_iff in Hok4.
  rewrite handleRequest_run, Hok1.
  destruct (found sql_name_equals req w) as [| endpoint l].
  { eexists. split; [reflexivity |]. simpl. rewrite !elem_of_cons. auto. }
  rewrite Hok2. revert Hok3 Hok4. generalize (tick (tick w)) as w2. intros w2 Hok3 Hok4.
  set (fs := filter _ (tbl_fields w)). clearbody fs.
  set (eid := api_endpoints.endpoint_id endpoint).
  unfold switch_method, try_catch. fold eid.
  destruct (String.eqb (Str.toUpperCase (method req)) "GET").
  { rewrite handleRead_records by now rewrite calls_succeed_next, Hok3.
    eexists. split; [reflexivity |]. simpl. rewrite !elem_of_cons. auto. }
  destruct (String.eqb (Str.toUpperCase (method req)) "POST").
  { rewrite handleCreate_run.
    destruct (create_loop _ _ _ _) as [[r | jsonData] |] eqn:Hloop.
    - apply create_loop_error_status in Hloop as (f & m & _ & _ & ->).
      eexists. split; [reflexivity |]. simpl. rewrite !elem_of_cons. auto.
    - rewrite Hok3. eexists. split; [reflexivity |]. simpl. rewrite !elem_of_cons. auto.
    - now destruct (create_loop_returns Date_parse _ fs Hquiet ∅). }
  destruct (String.eqb (Str.toUpperCase (method req)) "PUT").
  { destruct (falsy (query_id req)) eqn:Hid.
    - unfold handleUpdate. rewrite Hid.
      eexists. split; [reflexivity |]. simpl. rewrite !elem_of_cons. auto.
    - rewrite (handleUpdate_run _ _ _ _ _ _ Hid), Hok3.
      destruct (filter _ _) as [| row0 rest].
      { eexists. split; [reflexivity |]. simpl. rewrite !elem_of_cons. auto. }
      destruct (update_loop _ _ _ _) as [[r | result] |] eqn:Hloop;
        [| | now destruct (update_loop_returns Date_parse _ fs Hquiet _ Hloop)].
      { apply update_loop_error_status in Hloop.
        eexists. split; [reflexivity |]. rewrite Hloop, !elem_of_cons. auto. }
      rewrite Hok4. eexists. split; [reflexivity |]. simpl. rewrite !elem_of_cons. auto. }
  destruct (String.eqb (Str.toUpperCase (method req)) "DELETE").
  { destruct (falsy (query_id req)) eqn:Hid.
    - unfold handleDelete. rewrite Hid.
      eexists. split; [reflexivity |]. simpl. rewrite !elem_of_cons. auto.
    - rewrite (handleDelete_run _ _ _ _ _ Hid), Hok3.
      eexists. split; [reflexivity |].
      destruct (_ =? 0); simpl; rewrite !elem_of_cons; auto. }
  eexists. split; [reflexivity |]. simpl. rewrite !elem_of_cons. auto 10.
Qed.

Lemma no_failed_call_no_server_error_witness :
  exists res,
    (handleRequest no_date String.eqb numeric_id_equals Demo.put_b Demo.world).1 = Some res
    /\ status res ∈ [200; 201; 400; 404; 405].
Proof.
  apply (no_failed_call_no_server_error no_date String.eqb numeric_id_equals Demo.put_b
           Demo.world eq_refl).
  intros k. unfold get, Demo.put_b. simpl.
  destruct (decide (k = "b")) as [-> | Hk]; [reflexivity |].
  rewrite lookup_singleton_ne by congruence. simpl.
  unfold inherited. destruct (existsb _ _); [reflexivity |]. now destruct (String.eqb _ _).
Defined.

(** ** Round trips *)

Lemma filter_bool_all {A} (c : A -> bool) (l : list A) :
  (forall x, x ∈ l -> c x = true) -> filter (fun x => c x) l = l.
Proof.
  induction l as [| x l IH]; intros H; [reflexivity |].
  rewrite filter_bool_cons, (H x) by left. rewrite IH; [reflexivity |].
  intros y Hy. apply H. now right.
Qed.

(** X25.  A document that has been created can be deleted by its identity,
    and the table is then what it was before the create: after a create
    that answered 201, a delete for the same endpoint whose identifier
    equals the identity of the new row and that of no older row, when its
    call is answered, answers 200 and leaves the rows there were before
    the create. *)
Theorem create_then_delete_restores (Date_parse : Value -> number)
        (sql_id_equals : Z -> string -> bool) (req req' : Request) (endpoint_id : Z)
        (fields fields' : list fields.row) (w w1 : World) (res : Response) :
  handleCreate Date_parse req endpoint_id fields w = (Some res, w1) ->
  status res = 201 ->
  calls_succeed 1 w1 = true ->
  falsy (query_id req') = false ->
  sql_id_equals (auto_increment w) (bound (query_id req')) = true ->
  (forall r, r ∈ tbl_data_storage w ->
             sql_id_equals (data_storage.data_id r) (bound (query_id req')) = false) ->
  (handleDelete sql_id_equals req' endpoint_id fields' w1).1
  = Some (res_json (Message "Data deleted successfully."))
  /\ tbl_data_storage (handleDelete sql_id_equals req' endpoint_id fields' w1).2
     = tbl_data_storage w.
Proof.
  intros Hrun Hs Hok Hid Hnew Hold.
  apply handleCreate_cases in Hrun
      as [([=] & _) | [(r & [= ->] & Hloop & _) | (jsonData & Hloop & Hrun)]].
  { apply create_loop_error_status in Hloop as (g & m & _ & _ & ->). discriminate. }
  destruct Hrun as [[_ Htbl] | [[= ->] _]]; [| discriminate].
  rewrite calls_succeed_next in Hok. apply negb_true_iff in Hok.
  assert (Hm : matches sql_id_equals (bound (query_id req')) endpoint_id
                  {| data_storage.data_id := auto_increment w;
                     data_storage.endpoint_id := endpoint_id;
                     data_storage.data := JSON_stringify jsonData |} = true)
    by (unfold matches; simpl; now rewrite Hnew, Z.eqb_refl).
  rewrite (handleDelete_run _ _ _ _ _ Hid), Hok, Htbl. simpl.
  rewrite !filter_app,
    (filter_bool_cons (matches sql_id_equals (bound (query_id req')) endpoint_id)),
    (filter_bool_cons
       (fun r => negb (matches sql_id_equals (bound (query_id req')) endpoint_id r))).
  rewrite Hm. simpl. split.
  - rewrite length_app. simpl.
    destruct (Z.eqb_spec (Z.of_nat (length (filter (matches sql_id_equals
                                                      (bound (query_id req')) endpoint_id)
                                                   (tbl_data_storage w)) + 1)) 0);
      [lia | reflexivity].
  - rewrite filter_nil, app_nil_r.
    apply (filter_bool_all
             (fun r => negb (matches sql_id_equals (bound (query_id req')) endpoint_id r))).
    intros r Hr. unfold matches. now rewrite (Hold r Hr).
Qed.

Lemma create_then_delete_restores_witness :
  (handleDelete numeric_id_equals Trial.delete_note 2 Demo.notes_fields
     (handleCreate no_date Demo.post_note 2 Demo.notes_fields Demo.world).2).1
  = Some (res_json (Message "Data deleted successfully."))
  /\ tbl_data_storage
       (handleDelete numeric_id_equals Trial.delete_note 2 Demo.notes_fields
          (handleCreate no_date Demo.post_note 2 Demo.notes_fields Demo.world).2).2
     = tbl_data_storage Demo.world.
Proof.
  assert (H : handleCreate no_date Demo.post_note 2 Demo.notes_fields Demo.world
              = (Some (res_status_json 201 "Data created successfully."),
                 (handleCreate no_date Demo.post_note 2 Demo.notes_fields Demo.world).2))
    by (vm_compute; reflexivity).
  apply (create_then_delete_restores no_date numeric_id_equals Demo.post_note
           Trial.delete_note 2 Demo.notes_fields Demo.notes_fields Demo.world _ _ H);
    [reflexivity | reflexivity | reflexivity | vm_compute; reflexivity |].
  intros r Hr. apply list_elem_of_singleton in Hr. subst r. vm_compute. reflexivity.
Defined.

Lemma of_endpoint_updated (sql_id_equals : Z -> string -> bool) (endpoint_id : Z)
      (identifier : string) (data : JSON_text) (rows : list data_storage.row) :
  map record
      (of_endpoint endpoint_id
         (map (fun r => if matches sql_id_equals identifier endpoint_id r
                        then data_storage.with_data r data else r) rows))
  = map (fun r => if sql_id_equals (data_storage.data_id r) identifier
                  then record (data_storage.with_data r data) else record r)
        (of_endpoint endpoint_id rows).
Proof.
  unfold of_endpoint. induction rows as [| r rows IH]; [reflexivity |].
  simpl map at 2.
  rewrite !(filter_bool_cons (fun r => data_storage.endpoint_id r =? endpoint_id)).
  unfold matches at 1 2.
  destruct (sql_id_equals (data_storage.data_id r) identifier) eqn:Ei,
           (data_storage.endpoint_id r =? endpoint_id) eqn:Ee; simpl;
    rewrite ?Ee, ?Ei; simpl; rewrite ?Ei; now rewrite IH.
Qed.

(** X26.  A read-all that follows an update which answered 200 for the
    same endpoint, when its lookup is answered, returns the records there
    were, in their order, but for the rows whose identity the identifier
    equals: these show the new payload, which holds under every supplied
    key but [__proto__] what [JSON.stringify] writes of the value of the
    body. *)
Theorem read_after_update (Date_parse : Value -> number)
        (sql_id_equals : Z -> string -> bool) (req req' : Request) (endpoint_id : Z)
        (fields fields' : list fields.row) (w w1 : World) (res : Response) :
  handleUpdate Date_parse sql_id_equals req endpoint_id fields w = (Some res, w1) ->
  status res = 200 ->
  calls_succeed 1 w1 = true ->
  exists payload,
    (handleRead req' endpoint_id fields' w1).1
    = Some (res_json (Records
              (map (fun r => if sql_id_equals (data_storage.data_id r) (bound (query_id req))
                             then record (data_storage.with_data r payload) else record r)
                   (of_endpoint endpoint_id (tbl_data_storage w)))))
    /\ forall k, supplied (body req) fields k = true ->
                 k <> "__proto__" ->
                 payload !! k = JSON_value (get (body req) k).
Proof.
  intros Hrun Hs Hok.
  destruct (handleUpdate_ok _ _ _ _ _ _ _ _ Hrun Hs)
    as (row0 & rest & result & _ & _ & Hloop & Htbl).
  destruct (update_loop_result _ _ _ _ _ Hloop) as [_ Hkeys].
  exists (JSON_stringify result). split.
  - rewrite (handleRead_records _ _ _ _ Hok). simpl. rewrite Htbl.
    now rewrite <- of_endpoint_updated.
  - intros k Hk Hname. unfold JSON_stringify. rewrite lookup_omap, Hkeys, Hk.
    unfold takes. apply String.eqb_neq in Hname. now rewrite Hname.
Qed.

Lemma read_after_update_witness :
  exists payload,
    (handleRead Trial.get_tasks 3 Demo.tasks_fields
       (Demo.updated (<[ "a" := Demo.num 1 ]> {[ "b" := Demo.num 3 ]}))).1
    = Some (res_json (Records
              (map (fun r => if numeric_id_equals (data_storage.data_id r) "1"
                             then record (data_storage.with_data r payload) else record r)
                   (of_endpoint 3 (tbl_data_storage Demo.world)))))
    /\ forall k, supplied (body Demo.put_b) Demo.tasks_fields k = true ->
                 k <> "__proto__" ->
                 payload !! k = JSON_value (get (body Demo.put_b) k).
Proof.
  assert (H : handleUpdate no_date numeric_id_equals Demo.put_b 3 Demo.tasks_fields
                Demo.world
              = (Some Demo.done,
                 Demo.updated (<[ "a" := Demo.num 1 ]> {[ "b" := Demo.num 3 ]})))
    by (vm_compute; reflexivity).
  exact (read_after_update no_date numeric_id_equals Demo.put_b Trial.get_tasks 3
           Demo.tasks_fields Demo.tasks_fields Demo.world _ _ H eq_refl eq_refl).
Defined.
